(** * dbExplorer Manager: the data-access drivers and the Redis cache layer

    A shallow embedding of
      - [app/db/redis_caches.py]   (cache helpers over a Redis client),
      - [app/db/database.py]       (per-request driver acquisition),
      - [app/db/dbDriver/*.py]     (MySQL, SQL Server and MongoDB drivers),
      - [app/routers/tables.py]    (the record routes),
    followed by the properties of the specification that were checked
    against it. *)

From Stdlib Require Import ZArith Lia Ascii String List Bool.
From stdpp Require Import base tactics option list sorting gmap strings pretty.

Set Warnings "-register-all".
Local Open Scope string_scope.
Local Open Scope Z_scope.

(* ===================================================================== *)
(** ** Python values, exceptions and the statement monad *)
(* ===================================================================== *)

(** The Python values that travel through the cache and the routes: what
    [json.loads] can return (floats are not needed), with [PyNone] for
    [None]. *)
Inductive pyval :=
| PyNone
| PyBool (b : bool)
| PyInt (z : Z)
| PyStr (s : string)
| PyList (items : list pyval)
| PyDict (fields : list (string * pyval)).

(** Python truthiness ([if x:]). *)
Definition truthy (v : pyval) : bool :=
  match v with
  | PyNone => false
  | PyBool b => b
  | PyInt z => negb (z =? 0)
  | PyStr s => negb (String.eqb s "")
  | PyList l => match l with [] => false | _ => true end
  | PyDict d => match d with [] => false | _ => true end
  end.

(** [", ".join(parts)] *)
Fixpoint join (sep : string) (parts : list string) : string :=
  match parts with
  | [] => ""
  | [p] => p
  | p :: later => p +:+ sep +:+ join sep later
  end.

(** [repr(v)], with strings between single quotes as they are. *)
Fixpoint py_repr (v : pyval) : string :=
  match v with
  | PyNone => "None"
  | PyBool true => "True"
  | PyBool false => "False"
  | PyInt z => pretty z
  | PyStr s => "'" +:+ s +:+ "'"
  | PyList items => "[" +:+ join ", " (map py_repr items) +:+ "]"
  | PyDict members =>
      "{" +:+ join ", " (map (fun kv => "'" +:+ fst kv +:+ "': " +:+ py_repr (snd kv))
                             members) +:+ "}"
  end.

(** [str(v)] *)
Definition py_str (v : pyval) : string :=
  match v with
  | PyStr s => s
  | _ => py_repr v
  end.

(** [d.get(k)] / [d[k]] on a dict in insertion order. *)
Fixpoint dict_get (d : list (string * pyval)) (k : string) : option pyval :=
  match d with
  | [] => None
  | (k', v) :: d' => if String.eqb k' k then Some v else dict_get d' k
  end.

(** The exceptions that the modelled code raises or catches.  All of them
    derive from [Exception], so [except Exception] catches every one. *)
Inductive exn :=
| ValueError (msg : string)
| KeyError (key : string)
| AttributeError (msg : string)
| TypeError (msg : string)
| ZeroDivisionError
| RecursionError
| NotImplementedError (msg : string)
| JSONDecodeError
| RedisError
| DatabaseError (msg : string)
| ResponseValidationError
| HTTPException (status_code : Z) (detail : string).

Definition exn_str (e : exn) : string :=
  match e with
  | ValueError m => m
  | KeyError k => "'" +:+ k +:+ "'"
  | AttributeError m => m
  | TypeError m => m
  | ZeroDivisionError => "division by zero"
  | RecursionError => "maximum recursion depth exceeded"
  | NotImplementedError m => m
  | JSONDecodeError => "Expecting value"
  | RedisError => "Error connecting to Redis"
  | DatabaseError m => m
  | ResponseValidationError => "response validation error"
  | HTTPException c d => pretty c +:+ ": " +:+ d
  end.

Inductive outcome (A : Type) :=
| Ok (a : A)
| Raise (e : exn).
Arguments Ok {A} a.
Arguments Raise {A} e.

(** A statement over a mutable state [S]: it returns or raises, and leaves
    a state behind in both cases. *)
Definition Py (S A : Type) : Type := S -> outcome A * S.

Definition ret {S A} (a : A) : Py S A := fun s => (Ok a, s).
Definition raise {S A} (e : exn) : Py S A := fun s => (Raise e, s).
Definition bind {S A B} (m : Py S A) (k : A -> Py S B) : Py S B :=
  fun s => match m s with
           | (Ok a, s') => k a s'
           | (Raise e, s') => (Raise e, s')
           end.

(** [try: m except Exception as e: h e] *)
Definition try_except {S A} (m : Py S A) (h : exn -> Py S A) : Py S A :=
  fun s => match m s with
           | (Ok a, s') => (Ok a, s')
           | (Raise e, s') => h e s'
           end.

(** [try: m finally: f] *)
Definition try_finally {S A} (m : Py S A) (f : Py S unit) : Py S A :=
  fun s => match m s with
           | (r, s') => match f s' with
                        | (Ok _, s'') => (r, s'')
                        | (Raise e, s'') => (Raise e, s'')
                        end
           end.

Declare Scope py_scope.
Delimit Scope py_scope with py.
Notation "x <- m ;; k" := (bind m (fun x => k))
  (at level 100, m at next level, right associativity) : py_scope.
Notation "m ;;; k" := (bind m (fun _ => k))
  (at level 100, right associativity) : py_scope.
Local Open Scope py_scope.

(** [json.loads] and [json.dumps] belong to the Python standard library;
    the cache helpers are parametric in them.  [json_loads text] is the
    value that [json.loads] returns, or the exception that it raises:
    [JSONDecodeError] on a malformed text, and others on a well-formed
    start that the interpreter gives up on ([RecursionError] on nesting
    deeper than its stack allows, [ValueError] on an integer with more
    digits than it converts). *)
Class JsonCodec := {
  json_loads : string -> outcome pyval;
  json_dumps : pyval -> string
}.

(** A computation without effect on the state, run as a statement. *)
Definition lift {S A} (r : outcome A) : Py S A := fun s => (r, s).

(* ===================================================================== *)
(** ** The Redis client *)
(* ===================================================================== *)

(** *** Glob patterns of the KEYS command

    [h?llo], [h*llo], [h[ae]llo], [h[^e]llo], [h[a-b]llo]; a backslash
    makes the next character literal. *)
Inductive class_item :=
| CChar (c : ascii)
| CRange (lo hi : ascii).

Inductive glob_tok :=
| GStar
| GAny
| GLit (c : ascii)
| GClass (negated : bool) (items : list class_item).

Inductive lex_mode :=
| LNormal
| LClass (negated : bool) (items : list class_item).

Fixpoint glob_lex (mode : lex_mode) (p : string) : list glob_tok :=
  match mode, p with
  | LNormal, EmptyString => []
  | LNormal, String c rest =>
      if Ascii.eqb c "*" then GStar :: glob_lex LNormal rest
      else if Ascii.eqb c "?" then GAny :: glob_lex LNormal rest
      else if Ascii.eqb c "[" then
        match rest with
        | String "^" rest' => glob_lex (LClass true []) rest'
        | _ => glob_lex (LClass false []) rest
        end
      else if Ascii.eqb c "\" then
        match rest with
        | String c' rest' => GLit c' :: glob_lex LNormal rest'
        | EmptyString => [GLit c]
        end
      else GLit c :: glob_lex LNormal rest
  | LClass neg items, EmptyString => [GClass neg items]
  | LClass neg items, String c rest =>
      if Ascii.eqb c "\" then
        match rest with
        | String c' rest' => glob_lex (LClass neg (items ++ [CChar c'])) rest'
        | EmptyString => [GClass neg (items ++ [CChar c])]
        end
      else if Ascii.eqb c "]" then GClass neg items :: glob_lex LNormal rest
      else
        match rest with
        | String "-" (String hi rest') =>
            glob_lex (LClass neg (items ++ [CRange c hi])) rest'
        | _ => glob_lex (LClass neg (items ++ [CChar c])) rest
        end
  end.

Definition class_item_has (c : ascii) (it : class_item) : bool :=
  match it with
  | CChar c' => Ascii.eqb c c'
  | CRange lo hi =>
      let n := nat_of_ascii c in
      let a := Nat.min (nat_of_ascii lo) (nat_of_ascii hi) in
      let b := Nat.max (nat_of_ascii lo) (nat_of_ascii hi) in
      (Nat.leb a n && Nat.leb n b)%bool
  end.

Fixpoint glob_match (toks : list glob_tok) : string -> bool :=
  match toks with
  | [] => fun s => match s with EmptyString => true | _ => false end
  | GStar :: toks' =>
      fix star (s : string) : bool :=
        (glob_match toks' s
         || match s with
            | EmptyString => false
            | String _ s' => star s'
            end)%bool
  | GAny :: toks' =>
      fun s => match s with
               | EmptyString => false
               | String _ s' => glob_match toks' s'
               end
  | GLit c :: toks' =>
      fun s => match s with
               | EmptyString => false
               | String c' s' => (Ascii.eqb c c' && glob_match toks' s')%bool
               end
  | GClass neg items :: toks' =>
      fun s => match s with
               | EmptyString => false
               | String c' s' =>
                   (xorb neg (existsb (class_item_has c') items)
                    && glob_match toks' s')%bool
               end
  end.

Definition stringmatch (pattern key : string) : bool :=
  glob_match (glob_lex LNormal pattern) key.

(** *** The store and its commands

    [store] is the key space (values are the strings written by SETEX;
    expiry is not modelled).  Every command sent to the server consumes one
    entry of [outages]: [true] means that this command raises
    [redis.RedisError]; an exhausted list means a healthy server. *)
Record redis := {
  store : gmap string string;
  outages : list bool
}.

Definition command {A} (f : gmap string string -> A * gmap string string)
  : Py redis A :=
  fun r =>
    match outages r with
    | true :: later => (Raise RedisError, {| store := store r; outages := later |})
    | false :: later =>
        let '(a, m) := f (store r) in (Ok a, {| store := m; outages := later |})
    | [] =>
        let '(a, m) := f (store r) in (Ok a, {| store := m; outages := [] |})
    end.

(** GET key *)
Definition redis_get (key : string) : Py redis (option string) :=
  command (fun m => (m !! key, m)).

(** SETEX key seconds value *)
Definition redis_setex (key : string) (seconds : Z) (value : string)
  : Py redis unit :=
  command (fun m => (tt, <[key := value]> m)).

(** KEYS pattern *)
Definition redis_keys (pattern : string) : Py redis (list string) :=
  command (fun m => (filter (fun k => stringmatch pattern k = true)
                            (fst <$> map_to_list m), m)).

Definition delete_all (keys : list string) (m : gmap string string)
  : gmap string string :=
  foldr delete m keys.

(** DEL key [key ...]: the reply is the number of keys that were removed. *)
Definition redis_delete (keys : list string) : Py redis Z :=
  command (fun m =>
    (Z.of_nat (length (filter (fun k => is_Some (m !! k)) (remove_dups keys))),
     delete_all keys m)).

(* ===================================================================== *)
(** ** [app/db/redis_caches.py] *)
(* ===================================================================== *)

Section RedisCaches.
Context `{JsonCodec}.

(** [set_cache(key, value, expire=3600)] *)
Definition set_cache (key : string) (value : pyval) (expire : Z)
  : Py redis bool :=
  try_except
    (match value with
     | PyDict _ | PyList _ => redis_setex key expire (json_dumps value)
     | _ => redis_setex key expire (py_str value)
     end ;;;
     ret true)
    (fun _ => ret false).

(** [get_cache(key)]: the inner handler catches [json.JSONDecodeError]
    only, and deletes the key; any other exception of [json.loads] goes to
    the outer handlers, as the faults of the server do, and both outer
    handlers return [None]. *)
Definition get_cache (key : string) : Py redis pyval :=
  try_except
    (value <- redis_get key ;;
     match value with
     | Some payload =>
         if negb (String.eqb payload "") then
           try_except
             (lift (json_loads payload))
             (fun e => match e with
                       | JSONDecodeError => redis_delete [key] ;;; ret PyNone
                       | _ => raise e
                       end)
         else ret PyNone
     | None => ret PyNone
     end)
    (fun _ => ret PyNone).

(** [delete_cache(key)] *)
Definition delete_cache (key : string) : Py redis bool :=
  try_except
    (result <- redis_delete [key] ;;
     if negb (result =? 0) then ret true else ret false)
    (fun _ => ret false).

(** The key schemes. *)
Definition connection_key (session_id : string) : string :=
  "connection:" +:+ session_id.

Definition table_prefix (session_id table_name : string) : string :=
  session_id +:+ ":table:" +:+ table_name +:+ ":".

Definition columns_key (session_id table_name : string) : string :=
  session_id +:+ ":table:" +:+ table_name +:+ ":columns".

Definition records_key (session_id table_name : string) (page page_size : Z)
  : string :=
  session_id +:+ ":table:" +:+ table_name +:+ ":records:page:" +:+ pretty page
    +:+ ":size:" +:+ pretty page_size.

Definition count_key (session_id table_name : string) : string :=
  session_id +:+ ":table:" +:+ table_name +:+ ":count".

Definition record_key (session_id table_name record_id : string) : string :=
  session_id +:+ ":table:" +:+ table_name +:+ ":record:" +:+ record_id.

Definition preview_key (session_id table_name : string) : string :=
  session_id +:+ ":table:" +:+ table_name +:+ ":preview".

(** [store_connection_info] / [get_connection_info] *)
Definition store_connection_info (session_id : string)
    (connection_params : pyval) (expire : Z) : Py redis bool :=
  set_cache (connection_key session_id) connection_params expire.

Definition get_connection_info (session_id : string) : Py redis pyval :=
  get_cache (connection_key session_id).

(** [cache_table_count] / [get_cached_table_count] *)
Definition cache_table_count (session_id table_name : string) (count : Z)
    (expire : Z) : Py redis bool :=
  set_cache (count_key session_id table_name) (PyInt count) expire.

Definition get_cached_table_count (session_id table_name : string)
  : Py redis pyval :=
  get_cache (count_key session_id table_name).

(** [cache_table_records] / [get_cached_table_records] *)
Definition cache_table_records (session_id table_name : string)
    (page page_size : Z) (records_data : pyval) (expire : Z) : Py redis bool :=
  set_cache (records_key session_id table_name page page_size) records_data expire.

Definition get_cached_table_records (session_id table_name : string)
    (page page_size : Z) : Py redis pyval :=
  get_cache (records_key session_id table_name page page_size).

(** The column-set keys.  [hash] is Python's built-in hash of a tuple of
    strings: some function of the tuple, fixed for the life of the process. *)
Section SelectedColumns.
Variable hash : list string -> Z.

(** [sorted(columns)]: the list in ascending code-point order. *)
Definition sorted (columns : list string) : list string :=
  merge_sort String.le columns.

Definition selected_key (session_id table_name : string)
    (columns : list string) (page page_size : Z) : string :=
  let columns_hash := hash (sorted columns) in
  session_id +:+ ":table:" +:+ table_name +:+ ":selected:"
    +:+ pretty columns_hash +:+ ":page:" +:+ pretty page
    +:+ ":size:" +:+ pretty page_size.

Definition cache_selected_columns_records (session_id table_name : string)
    (columns : list string) (page page_size : Z) (records_data : pyval)
    (expire : Z) : Py redis bool :=
  set_cache (selected_key session_id table_name columns page page_size)
            records_data expire.

Definition get_cached_selected_columns_records (session_id table_name : string)
    (columns : list string) (page page_size : Z) : Py redis pyval :=
  get_cache (selected_key session_id table_name columns page page_size).
End SelectedColumns.

(** [invalidate_table_cache(session_id, table_name)] *)
Definition invalidation_patterns (session_id table_name : string)
  : list string :=
  [ session_id +:+ ":table:" +:+ table_name +:+ ":*";
    session_id +:+ ":table:" +:+ table_name +:+ ":records:*";
    session_id +:+ ":table:" +:+ table_name +:+ ":selected:*";
    session_id +:+ ":table:" +:+ table_name +:+ ":count";
    session_id +:+ ":table:" +:+ table_name +:+ ":columns" ].

(** The body of [for pattern in patterns: ...], with [total_cleared]
    threaded through. *)
Fixpoint clear_patterns (patterns : list string) (total_cleared : Z)
  : Py redis Z :=
  match patterns with
  | [] => ret total_cleared
  | pattern :: later =>
      keys <- redis_keys pattern ;;
      match keys with
      | [] => clear_patterns later total_cleared
      | _ :: _ =>
          deleted <- redis_delete keys ;;
          clear_patterns later (total_cleared + deleted)
      end
  end.

Definition invalidate_table_cache (session_id table_name : string)
  : Py redis Z :=
  try_except
    (clear_patterns (invalidation_patterns session_id table_name) 0)
    (fun _ => ret 0).

(** [invalidate_record_cache] *)
Definition invalidate_record_cache (session_id table_name record_id : string)
  : Py redis bool :=
  delete_cache (record_key session_id table_name record_id).

End RedisCaches.

(* ===================================================================== *)
(** ** The relational servers behind the drivers *)
(* ===================================================================== *)

(** A fetched row, as the dictionary cursors hand it out. *)
Abbreviation row := (list (string * pyval)).

Record table := {
  columns : list string;          (* in ordinal position *)
  primary_key : option string;    (* the primary-key column, if declared *)
  auto_increment : option Z;      (* next generated key, if the key is generated *)
  rows : list row                 (* in the order an unordered scan yields them *)
}.

Record server := {
  database : string;              (* the connected database, conn.database *)
  tables : gmap string table;     (* its base tables *)
  product_version : string        (* SERVERPROPERTY('ProductVersion') *)
}.

Inductive dialect := MySQLDialect | TSQLDialect.

(** The statements the drivers send.  Each constructor is one statement
    template of the source; its comment says which arguments the source
    splices into the text and which it passes as bound parameters. *)
Inductive sql :=
| TableExists (tbl : string)                       (* bound: tbl *)
| ColumnExists (tbl col : string)                  (* bound: tbl, col *)
| PrimaryKeyOf (tbl : string)                      (* bound: tbl *)
| ColumnsOf (tbl : string)                         (* bound: tbl *)
| ShowColumns (tbl : string)                       (* spliced: tbl *)
| CountRows (tbl : string)                         (* spliced: tbl *)
| SelectLimit (cols : option (list string)) (tbl : string) (limit offset : Z)
                                                   (* spliced: cols, tbl; bound: limit, offset *)
| SelectWhere (tbl key : string) (id : pyval)      (* spliced: tbl, key; bound: id *)
| UpdateSet (tbl col key : string) (v id : pyval)  (* spliced: tbl, col, key; bound: v, id *)
| InsertInto (tbl : string) (cols : list string) (vals : list pyval)
                                                   (* spliced: tbl, cols; bound: vals *)
| DeleteWhere (tbl key : string) (id : pyval)      (* spliced: tbl, key; bound: id *)
| ProductVersion
| SelectOffsetFetch (cols : option (list string)) (tbl : string) (offset fetch : Z)
                                                   (* spliced: all *)
| SelectRowNumber (cols : option (list string)) (tbl : string) (lo hi : Z)
                                                   (* spliced: all *)
| SelectTop (n : Z) (cols : option (list string)) (tbl : string)
                                                   (* spliced: all *)
| SelectTopNotIn (n : Z) (cols : option (list string)) (tbl key : string) (skip : Z)
                                                   (* spliced: all *)
| ListTables
| SelectPreview (tbl : string).                    (* spliced: tbl *)

(** *** Statement text *)

Definition quote_ident (d : dialect) (name : string) : string :=
  match d with
  | MySQLDialect => "`" +:+ name +:+ "`"
  | TSQLDialect => "[" +:+ name +:+ "]"
  end.

Definition placeholder (d : dialect) : string :=
  match d with
  | MySQLDialect => "%s"
  | TSQLDialect => "?"
  end.

(** [columns_sql] *)
Definition columns_sql (d : dialect) (cols : option (list string)) : string :=
  match cols with
  | Some cs => join ", " (quote_ident d <$> cs)
  | None => "*"
  end.

(** The text handed to [cursor.execute], with runs of white space written
    as one blank. *)
Definition sql_text (d : dialect) (q : sql) : string :=
  match q with
  | TableExists _ =>
      match d with
      | MySQLDialect =>
          "SELECT COUNT(1) FROM INFORMATION_SCHEMA.TABLES WHERE TABLE_SCHEMA = %s AND TABLE_NAME = %s"
      | TSQLDialect =>
          "SELECT COUNT(1) FROM INFORMATION_SCHEMA.TABLES WHERE TABLE_NAME = ? AND TABLE_TYPE = 'BASE TABLE'"
      end
  | ColumnExists _ _ =>
      match d with
      | MySQLDialect =>
          "SELECT COUNT(1) FROM INFORMATION_SCHEMA.COLUMNS WHERE TABLE_SCHEMA = %s AND TABLE_NAME = %s AND COLUMN_NAME = %s"
      | TSQLDialect =>
          "SELECT COUNT(1) FROM INFORMATION_SCHEMA.COLUMNS WHERE TABLE_NAME = ? AND COLUMN_NAME = ?"
      end
  | PrimaryKeyOf _ =>
      match d with
      | MySQLDialect =>
          "SELECT COLUMN_NAME FROM INFORMATION_SCHEMA.COLUMNS WHERE TABLE_SCHEMA = %s AND TABLE_NAME = %s AND COLUMN_KEY = 'PRI' LIMIT 1"
      | TSQLDialect =>
          "SELECT column_name FROM INFORMATION_SCHEMA.KEY_COLUMN_USAGE WHERE OBJECTPROPERTY(OBJECT_ID(constraint_name), 'IsPrimaryKey') = 1 AND table_name = %s"
      end
  | ColumnsOf _ =>
      "SELECT COLUMN_NAME FROM INFORMATION_SCHEMA.COLUMNS WHERE TABLE_NAME = %s ORDER BY ORDINAL_POSITION"
  | ShowColumns tbl => "SHOW COLUMNS FROM " +:+ quote_ident d tbl
  | CountRows tbl => "SELECT COUNT(*) FROM " +:+ quote_ident d tbl
  | SelectLimit cols tbl _ _ =>
      "SELECT " +:+ columns_sql d cols +:+ " FROM " +:+ quote_ident d tbl
        +:+ " LIMIT %s OFFSET %s"
  | SelectWhere tbl key _ =>
      "SELECT * FROM " +:+ quote_ident d tbl +:+ " WHERE " +:+ quote_ident d key
        +:+ " = " +:+ placeholder d
  | UpdateSet tbl col key _ _ =>
      "UPDATE " +:+ quote_ident d tbl +:+ " SET " +:+ quote_ident d col +:+ " = "
        +:+ placeholder d +:+ " WHERE " +:+ quote_ident d key +:+ " = " +:+ placeholder d
  | InsertInto tbl cols vals =>
      "INSERT INTO " +:+ quote_ident d tbl +:+ " ("
        +:+ join ", " (quote_ident d <$> cols) +:+ ") VALUES ("
        +:+ join ", " ((fun _ => placeholder d) <$> cols) +:+ ")"
  | DeleteWhere tbl key _ =>
      "DELETE FROM " +:+ quote_ident d tbl +:+ " WHERE " +:+ quote_ident d key
        +:+ " = " +:+ placeholder d
  | ProductVersion => "SELECT SERVERPROPERTY('ProductVersion')"
  | SelectOffsetFetch cols tbl offset fetch =>
      "SELECT " +:+ columns_sql d cols +:+ " FROM " +:+ quote_ident d tbl
        +:+ " ORDER BY (SELECT NULL) OFFSET " +:+ pretty offset
        +:+ " ROWS FETCH NEXT " +:+ pretty fetch +:+ " ROWS ONLY"
  | SelectRowNumber cols tbl lo hi =>
      "WITH PagedData AS ( SELECT " +:+ columns_sql d cols
        +:+ ", ROW_NUMBER() OVER (ORDER BY (SELECT NULL)) AS RowNum FROM "
        +:+ quote_ident d tbl +:+ " ) SELECT " +:+ columns_sql d cols
        +:+ " FROM PagedData WHERE RowNum BETWEEN " +:+ pretty lo +:+ " AND "
        +:+ pretty hi
  | SelectTop n cols tbl =>
      "SELECT TOP " +:+ pretty n +:+ " " +:+ columns_sql d cols +:+ " FROM "
        +:+ quote_ident d tbl
  | SelectTopNotIn n cols tbl key skip =>
      "SELECT TOP " +:+ pretty n +:+ " " +:+ columns_sql d cols +:+ " FROM "
        +:+ quote_ident d tbl +:+ " WHERE " +:+ quote_ident d key
        +:+ " NOT IN ( SELECT TOP " +:+ pretty skip +:+ " " +:+ quote_ident d key
        +:+ " FROM " +:+ quote_ident d tbl +:+ " ORDER BY " +:+ quote_ident d key
        +:+ " ) ORDER BY " +:+ quote_ident d key
  | ListTables =>
      match d with
      | MySQLDialect => "SHOW TABLES"
      | TSQLDialect =>
          "SELECT TABLE_CATALOG AS DatabaseName, TABLE_NAME AS TableName FROM INFORMATION_SCHEMA.TABLES WHERE TABLE_TYPE = 'BASE TABLE' ORDER BY TABLE_CATALOG, TABLE_NAME"
      end
  | SelectPreview tbl => "SELECT * FROM " +:+ quote_ident d tbl +:+ " LIMIT 10"
  end.

(** The bound parameters handed to [cursor.execute] next to the text; the
    MySQL catalogue look-ups bind the name of the database as well. *)
Definition sql_params (d : dialect) (db_name : string) (q : sql) : list pyval :=
  match q with
  | TableExists tbl | PrimaryKeyOf tbl =>
      match d with
      | MySQLDialect => [PyStr db_name; PyStr tbl]
      | TSQLDialect => [PyStr tbl]
      end
  | ColumnsOf tbl => [PyStr tbl]
  | ColumnExists tbl col =>
      match d with
      | MySQLDialect => [PyStr db_name; PyStr tbl; PyStr col]
      | TSQLDialect => [PyStr tbl; PyStr col]
      end
  | SelectLimit _ _ limit offset => [PyInt limit; PyInt offset]
  | SelectWhere _ _ id | DeleteWhere _ _ id => [id]
  | UpdateSet _ _ _ v id => [v; id]
  | InsertInto _ _ vals => vals
  | _ => []
  end.

(** The caller-chosen table and column names that are part of the text. *)
Definition spliced_tables (q : sql) : list string :=
  match q with
  | ShowColumns tbl | CountRows tbl | SelectLimit _ tbl _ _
  | SelectWhere tbl _ _ | UpdateSet tbl _ _ _ _ | InsertInto tbl _ _
  | DeleteWhere tbl _ _ | SelectOffsetFetch _ tbl _ _
  | SelectRowNumber _ tbl _ _ | SelectTop _ _ tbl
  | SelectTopNotIn _ _ tbl _ _ | SelectPreview tbl => [tbl]
  | _ => []
  end.

Definition spliced_columns (q : sql) : list string :=
  match q with
  | SelectLimit cols _ _ _ | SelectOffsetFetch cols _ _ _
  | SelectRowNumber cols _ _ _ | SelectTop _ cols _ => default [] cols
  | SelectWhere _ key _ | DeleteWhere _ key _ => [key]
  | UpdateSet _ col key _ _ => [col; key]
  | InsertInto _ cols _ => cols
  | SelectTopNotIn _ cols _ key _ => key :: default [] cols
  | _ => []
  end.

(** *** Statement execution *)

Record result := {
  fetched : list row;     (* what fetchall() returns *)
  rowcount : Z;           (* cursor.rowcount *)
  lastrowid : Z           (* cursor.lastrowid *)
}.

Definition selected (rs : list row) : result :=
  {| fetched := rs; rowcount := -1; lastrowid := 0 |}.

Definition scalar (v : pyval) : result := selected [[("", v)]].

Definition affected (n : Z) (generated : Z) : result :=
  {| fetched := []; rowcount := n; lastrowid := generated |}.

Definition cell (r : row) (c : string) : pyval := default PyNone (dict_get r c).

Fixpoint set_cell (r : row) (c : string) (v : pyval) : row :=
  match r with
  | [] => [(c, v)]
  | (c', v') :: r' =>
      if String.eqb c' c then (c, v) :: r' else (c', v') :: set_cell r' c v
  end.

(** A dictionary row keeps one entry per selected name. *)
Definition project (cols : option (list string)) (r : row) : row :=
  match cols with
  | None => r
  | Some cs => (fun c => (c, cell r c)) <$> remove_dups cs
  end.

(** [column = parameter]: never true on NULL; the parameter arrives as text
    and is compared with the printed cell. *)
Definition sql_eq (c param : pyval) : bool :=
  match c with
  | PyNone => false
  | _ => String.eqb (py_str c) (py_str param)
  end.

(** Equality and order between two cells of one column. *)
Definition cell_eqb (a b : pyval) : bool :=
  match a, b with
  | PyInt x, PyInt y => x =? y
  | PyStr x, PyStr y => String.eqb x y
  | PyBool x, PyBool y => Bool.eqb x y
  | _, _ => false
  end.

Definition cell_rank (v : pyval) : Z :=
  match v with
  | PyNone => 0 | PyBool _ => 1 | PyInt _ => 2 | PyStr _ => 3 | _ => 4
  end.

Definition cell_le (a b : pyval) : bool :=
  match a, b with
  | PyInt x, PyInt y => x <=? y
  | PyStr x, PyStr y => String.leb x y
  | PyBool x, PyBool y => implb x y
  | _, _ => cell_rank a <=? cell_rank b
  end.

(** ORDER BY key: a stable insertion sort on the key cell. *)
Fixpoint insert_by (key : string) (r : row) (sorted_rows : list row) : list row :=
  match sorted_rows with
  | [] => [r]
  | r' :: later =>
      if cell_le (cell r key) (cell r' key) then r :: r' :: later
      else r' :: insert_by key r later
  end.

Definition order_by (key : string) (rs : list row) : list row :=
  foldr (insert_by key) [] rs.

(** [x NOT IN (subquery)] in three-valued logic: only TRUE keeps the row. *)
Definition not_in (x : pyval) (sub : list pyval) : bool :=
  match x with
  | PyNone => false
  | _ => forallb (fun y => match y with
                           | PyNone => false
                           | _ => negb (cell_eqb x y)
                           end) sub
  end.

(** ROW_NUMBER() OVER (ORDER BY (SELECT NULL)) AS RowNum *)
Fixpoint number_rows (next : Z) (rs : list row) : list (Z * row) :=
  match rs with
  | [] => []
  | r :: later => (next, r) :: number_rows (next + 1) later
  end.

Definition known_columns (t : table) (cols : option (list string)) : bool :=
  match cols with
  | None => true
  | Some cs => forallb (fun c => bool_decide (c ∈ columns t)) cs
  end.

Definition no_table (tbl : string) : exn :=
  DatabaseError ("no such table: " +:+ tbl).
Definition no_column : exn := DatabaseError "Unknown column".

Definition with_table {A} (s : server) (tbl : string)
    (k : table -> outcome A * server) : outcome A * server :=
  match tables s !! tbl with
  | Some t => k t
  | None => (Raise (no_table tbl), s)
  end.

Definition put_table (s : server) (tbl : string) (t : table) : server :=
  {| database := database s; tables := <[tbl := t]> (tables s);
     product_version := product_version s |}.

Definition with_rows (t : table) (rs : list row) : table :=
  {| columns := columns t; primary_key := primary_key t;
     auto_increment := auto_increment t; rows := rs |}.

Definition count_where (f : row -> bool) (rs : list row) : Z :=
  Z.of_nat (length (filter (fun r => f r = true) rs)).

(** The row an INSERT stores, and the key it generated (0 if none). *)
Definition inserted_row (t : table) (given : row) : row * Z :=
  match primary_key t, auto_increment t with
  | Some k, Some next =>
      match dict_get given k with
      | Some _ => ((fun c => (c, cell given c)) <$> columns t, 0)
      | None =>
          ((fun c => (c, if String.eqb c k then PyInt next else cell given c))
             <$> columns t, next)
      end
  | _, _ => ((fun c => (c, cell given c)) <$> columns t, 0)
  end.

(** The statements that the SQL Server driver writes with [?] markers.
    pymssql substitutes [%s] and [%d] only, so the text reaches the server
    with its question marks and the server rejects it. *)
Definition unbound_markers (d : dialect) (q : sql) : bool :=
  match d, q with
  | TSQLDialect, (TableExists _ | ColumnExists _ _ | SelectWhere _ _ _
                 | UpdateSet _ _ _ _ _ | InsertInto _ _ _ | DeleteWhere _ _ _) => true
  | _, _ => false
  end.

Definition incorrect_syntax : exn := DatabaseError "Incorrect syntax near '?'".

Definition exec (d : dialect) (q : sql) (s : server) : outcome result * server :=
  if unbound_markers d q then (Raise incorrect_syntax, s) else
  match q with
  | TableExists tbl =>
      (Ok (scalar (PyInt match tables s !! tbl with
                         | Some _ => 1
                         | None => 0
                         end)), s)
  | ColumnExists tbl col =>
      (Ok (scalar (PyInt match tables s !! tbl with
                         | Some t => if bool_decide (col ∈ columns t) then 1 else 0
                         | None => 0
                         end)), s)
  | PrimaryKeyOf tbl =>
      (Ok (selected match tables s !! tbl with
                    | Some t => match primary_key t with
                                | Some k => [[("COLUMN_NAME", PyStr k)]]
                                | None => []
                                end
                    | None => []
                    end), s)
  | ColumnsOf tbl =>
      (Ok (selected match tables s !! tbl with
                    | Some t => (fun c => [("COLUMN_NAME", PyStr c)]) <$> columns t
                    | None => []
                    end), s)
  | ShowColumns tbl =>
      with_table s tbl (fun t =>
        (Ok (selected ((fun c => [("Field", PyStr c)]) <$> columns t)), s))
  | CountRows tbl =>
      with_table s tbl (fun t =>
        (Ok (scalar (PyInt (Z.of_nat (length (rows t))))), s))
  | SelectLimit cols tbl limit offset =>
      with_table s tbl (fun t =>
        if negb (known_columns t cols) then (Raise no_column, s)
        else if (limit <? 0) || (offset <? 0)
        then (Raise (DatabaseError "You have an error in your SQL syntax"), s)
        else (Ok (selected (project cols <$>
                     take (Z.to_nat limit) (drop (Z.to_nat offset) (rows t)))), s))
  | SelectWhere tbl key id =>
      with_table s tbl (fun t =>
        if negb (bool_decide (key ∈ columns t)) then (Raise no_column, s)
        else (Ok (selected (filter (fun r => sql_eq (cell r key) id = true) (rows t))), s))
  | UpdateSet tbl col key v id =>
      with_table s tbl (fun t =>
        if negb (bool_decide (col ∈ columns t) && bool_decide (key ∈ columns t))
        then (Raise no_column, s)
        else
          let hit r := sql_eq (cell r key) id in
          (* MySQL counts the rows whose value changed *)
          let changes r := hit r && negb (cell_eqb (cell r col) v
                                          || match cell r col, v with
                                             | PyNone, PyNone => true
                                             | _, _ => false
                                             end) in
          (Ok (affected (count_where changes (rows t)) 0),
           put_table s tbl
             (with_rows t ((fun r => if hit r then set_cell r col v else r)
                             <$> rows t))))
  | InsertInto tbl cols vals =>
      with_table s tbl (fun t =>
        if negb (forallb (fun c => bool_decide (c ∈ columns t)) cols)
        then (Raise no_column, s)
        else
          let '(r, generated) := inserted_row t (zip cols vals) in
          let clash := match primary_key t with
                       | Some k => existsb (fun r' => cell_eqb (cell r' k) (cell r k))
                                           (rows t)
                       | None => false
                       end in
          if clash then (Raise (DatabaseError "Duplicate entry for key 'PRIMARY'"), s)
          else
            (Ok (affected 1 generated),
             put_table s tbl
               {| columns := columns t; primary_key := primary_key t;
                  auto_increment := if generated =? 0 then auto_increment t
                                    else Some (generated + 1);
                  rows := (rows t ++ [r])%list |}))
  | DeleteWhere tbl key id =>
      with_table s tbl (fun t =>
        if negb (bool_decide (key ∈ columns t)) then (Raise no_column, s)
        else
          let hit r := sql_eq (cell r key) id in
          (Ok (affected (count_where hit (rows t)) 0),
           put_table s tbl
             (with_rows t (filter (fun r => hit r = false) (rows t)))))
  | ProductVersion =>
      (Ok (scalar (PyStr (product_version s))), s)
  | SelectOffsetFetch cols tbl offset fetch =>
      with_table s tbl (fun t =>
        if negb (known_columns t cols) then (Raise no_column, s)
        else if (offset <? 0) || (fetch <=? 0)
        then (Raise (DatabaseError "The offset or the number of rows is out of range"), s)
        else (Ok (selected (project cols <$>
                     take (Z.to_nat fetch) (drop (Z.to_nat offset) (rows t)))), s))
  | SelectRowNumber cols tbl lo hi =>
      with_table s tbl (fun t =>
        if negb (known_columns t cols) then (Raise no_column, s)
        else
          let paged := filter (fun nr => (lo <=? fst nr) && (fst nr <=? hi) = true)
                              (number_rows 1 (rows t)) in
          match cols with
          | None =>
              (* SELECT * FROM PagedData carries the RowNum column along *)
              (Ok (selected ((fun nr => (snd nr ++ [("RowNum", PyInt (fst nr))])%list)
                               <$> paged)), s)
          | Some cs =>
              if bool_decide (NoDup cs)
              then (Ok (selected ((fun nr => project cols (snd nr)) <$> paged)), s)
              else (Raise (DatabaseError
                             "The column was specified multiple times for 'PagedData'"), s)
          end)
  | SelectTop n cols tbl =>
      with_table s tbl (fun t =>
        if negb (known_columns t cols) then (Raise no_column, s)
        else if n <? 0
        then (Raise (DatabaseError "A TOP N value may not be negative"), s)
        else (Ok (selected (project cols <$> take (Z.to_nat n) (rows t))), s))
  | SelectTopNotIn n cols tbl key skip =>
      with_table s tbl (fun t =>
        if negb (known_columns t cols && bool_decide (key ∈ columns t))
        then (Raise no_column, s)
        else if (n <? 0) || (skip <? 0)
        then (Raise (DatabaseError "A TOP N value may not be negative"), s)
        else
          let seen := (fun r => cell r key)
                        <$> take (Z.to_nat skip) (order_by key (rows t)) in
          (Ok (selected (project cols <$>
                 take (Z.to_nat n)
                      (order_by key
                         (filter (fun r => not_in (cell r key) seen = true)
                                 (rows t))))), s))
  | ListTables =>
      (Ok (selected
             ((fun name => match d with
                           | MySQLDialect =>
                               [("Tables_in_" +:+ database s, PyStr name)]
                           | TSQLDialect =>
                               [("DatabaseName", PyStr (database s));
                                ("TableName", PyStr name)]
                           end)
                <$> merge_sort String.le (fst <$> map_to_list (tables s)))), s)
  | SelectPreview tbl =>
      with_table s tbl (fun t => (Ok (selected (take 10 (rows t))), s))
  end.

(* ===================================================================== *)
(** ** A driver object and the server it talks to *)
(* ===================================================================== *)

(** [conn] is [self.conn is not None].  Every [cursor.execute] consumes one
    entry of [faults] ([true]: the call raises, e.g. the connection dropped)
    and is recorded in [log], oldest first, with whether it faulted.
    [unread] says that the connection holds a result with rows that were
    not fetched. *)
Record session := {
  conn : bool;
  reachable : bool;
  srv : server;
  faults : list bool;
  log : list (sql * bool);
  unread : bool
}.

(** mysql.connector refuses to open a cursor, to run a statement and to
    close a cursor while rows of a result are unread. *)
Definition unread_result : exn := DatabaseError "Unread result found".

(** [cursor = self.conn.cursor()] followed by [cursor.execute(q, params)]. *)
Definition execute (d : dialect) (q : sql) : Py session result :=
  fun st =>
    if negb (conn st)
    then (Raise (AttributeError "'NoneType' object has no attribute 'cursor'"), st)
    else if match d with MySQLDialect => unread st | TSQLDialect => false end
    then (Raise unread_result, st)
    else
      match faults st with
      | true :: later =>
          (Raise (DatabaseError "Lost connection to server during query"),
           {| conn := conn st; reachable := reachable st; srv := srv st;
              faults := later; log := (log st ++ [(q, true)])%list;
              unread := unread st |})
      | _ =>
          let '(r, srv') := exec d q (srv st) in
          (r, {| conn := conn st; reachable := reachable st; srv := srv';
                 faults := tail (faults st); log := (log st ++ [(q, false)])%list;
                 unread := unread st |})
      end.

(** [cursor.close()] after one [cursor.fetchone()] on a MySQL cursor: the
    row is read together with the one after it, so a result of two rows or
    more is left unread, and the cursor cannot be closed. *)
Definition close_after_fetchone (r : result) : Py session unit :=
  fun st =>
    match fetched r with
    | _ :: _ :: _ =>
        (Raise unread_result,
         {| conn := conn st; reachable := reachable st; srv := srv st;
            faults := faults st; log := log st; unread := true |})
    | _ => (Ok tt, st)
    end.

(** [self.conn] as a condition. *)
Definition self_conn : Py session bool := fun st => (Ok (conn st), st).

(** [cursor.fetchone()[0]] *)
Definition fetchone_0 {S} (r : result) : Py S pyval :=
  match fetched r with
  | ((_, v) :: _) :: _ => ret v
  | [] :: _ => raise (KeyError "0")
  | [] => raise (TypeError "'NoneType' object is not subscriptable")
  end.

(** [cursor.fetchone()[0]] on a cursor opened with [as_dict=True]: the row
    is a dictionary keyed by column name, and has no key [0]. *)
Definition fetchone_0_as_dict {S} (r : result) : Py S pyval :=
  match fetched r with
  | _ :: _ => raise (KeyError "0")
  | [] => raise (TypeError "'NoneType' object is not subscriptable")
  end.

(** Using a fetched cell as an integer. *)
Definition as_int {S} (v : pyval) : Py S Z :=
  match v with
  | PyInt z => ret z
  | PyBool b => ret (if b then 1 else 0)
  | _ => raise (TypeError "unsupported operand type(s)")
  end.

(** [a / b] on two positive integers.  Python answers the double nearest
    to the exact quotient, a tie going to the even mantissa.  The double is
    [m * 2^e] with [m <= 2^53]: [e] is the exponent of the leading bit of
    the quotient less 52, and not below -1074, where the doubles end. *)
Definition floor_log2_quotient (a b : Z) : Z :=
  let k := Z.log2 a - Z.log2 b in
  if b * 2 ^ Z.max 0 k <=? a * 2 ^ Z.max 0 (- k) then k else k - 1.

Definition nearest_double (a b : Z) : Z * Z :=
  let e := Z.max (floor_log2_quotient a b - 52) (-1074) in
  let n := a * 2 ^ Z.max 0 (- e) in
  let d := b * 2 ^ Z.max 0 e in
  let q := n / d in
  let r := n mod d in
  let m := if 2 * r <? d then q
           else if d <? 2 * r then q + 1
           else if Z.even q then q else q + 1 in
  (m, e).

(** [math.ceil(a / b)]: the quotient is rounded to a double first, and the
    ceiling is taken of the double.  The dividend is a row count, a 64-bit
    integer, so the quotient stays within the range of the doubles. *)
Definition ceil_quotient (a b : Z) : Z :=
  if a =? 0 then 0
  else
    let '(m, e) := nearest_double (Z.abs a) (Z.abs b) in
    let v := if Z.sgn a =? Z.sgn b then m else - m in
    if 0 <=? e then v * 2 ^ e else - ((- v) / 2 ^ (- e)).

Definition ceil_div {S} (a b : Z) : Py S Z :=
  if b =? 0 then raise ZeroDivisionError else ret (ceil_quotient a b).

Record page_result := {
  records : list row;
  total_count : Z;
  total_pages : Z
}.

Definition empty_page : page_result :=
  {| records := []; total_count := 0; total_pages := 0 |}.

(** [self.conn.commit()] / [self.conn.rollback()]: every modelled method
    sends at most one data-changing statement and commits right after it,
    so statements take effect as they execute.  A rollback reads the rows
    that were left unread and discards them. *)
Definition commit : Py session unit := ret tt.
Definition rollback : Py session unit :=
  fun st => (Ok tt, {| conn := conn st; reachable := reachable st; srv := srv st;
                       faults := faults st; log := log st; unread := false |}).

(* ===================================================================== *)
(** ** [app/db/dbDriver/mysqlConnector.py] *)
(* ===================================================================== *)

Module MySQL.

Definition run := execute MySQLDialect.

Definition connect : Py session bool :=
  fun st =>
    if reachable st
    then (Ok true, {| conn := true; reachable := reachable st; srv := srv st;
                      faults := faults st; log := log st; unread := false |})
    else (Ok false, st).

Definition close : Py session unit :=
  fun st => (Ok tt, {| conn := false; reachable := reachable st; srv := srv st;
                       faults := faults st; log := log st; unread := false |}).

Definition _validate_table_exists (table_name : string) : Py session bool :=
  r <- run (TableExists table_name) ;;
  c <- fetchone_0 r ;;
  n <- as_int c ;;
  if 0 <? n then ret true
  else raise (ValueError ("Table '" +:+ table_name +:+ "' not found")).

Fixpoint validate_columns_loop (table_name : string) (cols : list string)
    (valid_columns : list string) : Py session (list string) :=
  match cols with
  | [] => ret valid_columns
  | col :: later =>
      r <- run (ColumnExists table_name col) ;;
      c <- fetchone_0 r ;;
      n <- as_int c ;;
      validate_columns_loop table_name later
        (if 0 <? n then (valid_columns ++ [col])%list else valid_columns)
  end.

Definition _validate_columns (table_name : string) (cols : list string)
  : Py session (list string) :=
  validate_columns_loop table_name cols [].

(** Both look-ups fetch one row and close the cursor.  The first has
    [LIMIT 1]; the second returns one row per column, so on a table without
    primary key and with two columns or more the cursor cannot be closed:
    the method answers ["id"] from its handler and leaves the result
    unread. *)
Definition _get_primary_key_or_first_column (table_name : string)
  : Py session string :=
  try_except
    (r <- run (PrimaryKeyOf table_name) ;;
     match fetched r with
     | _ :: _ =>
         close_after_fetchone r ;;;
         c <- fetchone_0 r ;; ret (py_str c)
     | [] =>
         r <- run (ShowColumns table_name) ;;
         close_after_fetchone r ;;;
         match fetched r with
         | _ :: _ => c <- fetchone_0 r ;; ret (py_str c)
         | [] => ret "id"
         end
     end)
    (fun _ => ret "id").

Definition get_table_record_count (table_name : string) : Py session Z :=
  try_except
    (c <- self_conn ;;
     if negb c then ret 0
     else
       _validate_table_exists table_name ;;;
       r <- run (CountRows table_name) ;;
       count <- fetchone_0 r ;;
       as_int count)
    (fun _ => ret 0).

(** [columns_sql] as the driver computes it: the valid columns, or ["*"]
    when none was asked for or none is valid. *)
Definition choose_columns (validate : list string -> Py session (list string))
    (cols : option (list string)) : Py session (option (list string)) :=
  match cols with
  | Some (c :: cs) =>
      valid_columns <- validate (c :: cs) ;;
      match valid_columns with
      | [] => ret None
      | _ :: _ => ret (Some valid_columns)
      end
  | _ => ret None
  end.

Definition get_paginated_records (table_name : string) (page page_size : Z)
    (cols : option (list string)) : Py session page_result :=
  try_except
    (c <- self_conn ;;
     if negb c then ret empty_page
     else
       _validate_table_exists table_name ;;;
       r <- run (CountRows table_name) ;;
       count <- fetchone_0 r ;;
       total_count <- as_int count ;;
       total_pages <- ceil_div total_count page_size ;;
       columns_sql <- choose_columns (_validate_columns table_name) cols ;;
       let offset := (page - 1) * page_size in
       r <- run (SelectLimit columns_sql table_name page_size offset) ;;
       ret {| records := fetched r;
              total_count := total_count;
              total_pages := total_pages |})
    (fun _ => ret empty_page).

Definition update_record (table_name record_id column_name : string)
    (new_value : pyval) : Py session bool :=
  try_except
    (c <- self_conn ;;
     if negb c then ret false
     else
       _validate_table_exists table_name ;;;
       valid_columns <- _validate_columns table_name [column_name] ;;
       match valid_columns with
       | [] => raise (ValueError ("Column '" +:+ column_name
                                    +:+ "' not found in table '" +:+ table_name +:+ "'"))
       | _ :: _ =>
           primary_key <- _get_primary_key_or_first_column table_name ;;
           r <- run (UpdateSet table_name column_name primary_key
                               new_value (PyStr record_id)) ;;
           commit ;;;
           let rows_affected := rowcount r in
           if rows_affected =? 0 then ret false else ret true
       end)
    (fun e => c <- self_conn ;;
              (if c then rollback else ret tt) ;;;
              raise e).

(** [{k: v for k, v in data.items() if v is not None and v != ''}] *)
Definition not_blank (v : pyval) : bool :=
  match v with
  | PyNone => false
  | PyStr s => negb (String.eqb s "")
  | _ => true
  end.

Definition drop_blank (data : row) : row :=
  filter (fun kv => not_blank (snd kv) = true) data.

Definition create_record (table_name : string) (data : row) : Py session pyval :=
  try_except
    (c <- self_conn ;;
     if negb c then ret PyNone
     else
       let filtered_data := drop_blank data in
       match filtered_data with
       | [] => ret PyNone
       | _ :: _ =>
           r <- run (InsertInto table_name (fst <$> filtered_data)
                                (snd <$> filtered_data)) ;;
           let record_id := lastrowid r in
           commit ;;;
           ret (PyInt record_id)
       end)
    (fun _ => c <- self_conn ;;
              (if c then rollback else ret tt) ;;;
              ret PyNone).

Definition delete_record (table_name record_id : string) : Py session bool :=
  try_except
    (c <- self_conn ;;
     if negb c then ret false
     else
       _validate_table_exists table_name ;;;
       primary_key <- _get_primary_key_or_first_column table_name ;;
       r <- run (DeleteWhere table_name primary_key (PyStr record_id)) ;;
       commit ;;;
       let rows_affected := rowcount r in
       if 0 <? rows_affected then ret true else ret false)
    (fun _ => c <- self_conn ;;
              (if c then rollback else ret tt) ;;;
              ret false).

End MySQL.

(* ===================================================================== *)
(** ** [app/db/dbDriver/mssqlConnector.py] *)
(* ===================================================================== *)

(** [s.split('.')[0]] *)
Fixpoint before_dot (s : string) : string :=
  match s with
  | EmptyString => EmptyString
  | String c rest => if Ascii.eqb c "." then EmptyString else String c (before_dot rest)
  end.

Definition digit_of (c : ascii) : option Z :=
  let n := Z.of_nat (nat_of_ascii c) in
  if (48 <=? n) && (n <=? 57) then Some (n - 48) else None.

Fixpoint digits_value (acc : Z) (s : string) : option Z :=
  match s with
  | EmptyString => Some acc
  | String c rest =>
      match digit_of c with
      | Some dgt => digits_value (10 * acc + dgt) rest
      | None => None
      end
  end.

(** [int(s)] on a run of decimal digits; anything else is a [ValueError]. *)
Definition int_of_string {S} (s : string) : Py S Z :=
  match s with
  | EmptyString => raise (ValueError "invalid literal for int()")
  | _ => match digits_value 0 s with
         | Some z => ret z
         | None => raise (ValueError "invalid literal for int()")
         end
  end.

Module MSSQL.

Definition run := execute TSQLDialect.

Definition _validate_table_exists (table_name : string) : Py session bool :=
  r <- run (TableExists table_name) ;;
  c <- fetchone_0 r ;;
  n <- as_int c ;;
  if 0 <? n then ret true
  else raise (ValueError ("Table '" +:+ table_name +:+ "' not found")).

Fixpoint validate_columns_loop (table_name : string) (cols : list string)
    (valid_columns : list string) : Py session (list string) :=
  match cols with
  | [] => ret valid_columns
  | col :: later =>
      r <- run (ColumnExists table_name col) ;;
      c <- fetchone_0 r ;;
      n <- as_int c ;;
      validate_columns_loop table_name later
        (if 0 <? n then (valid_columns ++ [col])%list else valid_columns)
  end.

Definition _validate_columns (table_name : string) (cols : list string)
  : Py session (list string) :=
  validate_columns_loop table_name cols [].

Definition _get_primary_key_or_first_column (table_name : string)
  : Py session string :=
  try_except
    (r <- run (PrimaryKeyOf table_name) ;;
     match fetched r with
     | _ :: _ => c <- fetchone_0 r ;; ret (py_str c)
     | [] =>
         r <- run (ColumnsOf table_name) ;;
         match fetched r with
         | _ :: _ => c <- fetchone_0 r ;; ret (py_str c)
         | [] => ret "ID"
         end
     end)
    (fun _ => ret "ID").

Definition get_table_record_count (table_name : string) : Py session Z :=
  try_except
    (c <- self_conn ;;
     if negb c then ret 0
     else
       _validate_table_exists table_name ;;;
       r <- run (CountRows table_name) ;;
       count <- fetchone_0 r ;;
       as_int count)
    (fun _ => ret 0).

(** The server's major version, 0 when it cannot be determined.  The
    version is read from the cursor that was opened with [as_dict=True]
    for the page. *)
Definition major_version : Py session Z :=
  try_except
    (r <- run ProductVersion ;;
     version_str <- fetchone_0_as_dict r ;;
     match version_str with
     | PyStr s => int_of_string (before_dot s)
     | _ => raise (AttributeError "object has no attribute 'split'")
     end)
    (fun _ => ret 0).

(** Method 1: OFFSET/FETCH (SQL Server 2012+). [None] is Python's [None]:
    the method was not usable and the next one is tried. *)
Definition offset_fetch_page (columns_sql : option (list string))
    (table_name : string) (page page_size : Z) : Py session (option (list row)) :=
  try_except
    (r <- run (SelectOffsetFetch columns_sql table_name
                                 ((page - 1) * page_size) page_size) ;;
     ret (Some (fetched r)))
    (fun _ => ret None).

(** Method 2: ROW_NUMBER() (SQL Server 2005+). *)
Definition row_number_page (columns_sql : option (list string))
    (table_name : string) (page page_size : Z) : Py session (option (list row)) :=
  try_except
    (r <- run (SelectRowNumber columns_sql table_name
                               ((page - 1) * page_size + 1) (page * page_size)) ;;
     ret (Some (fetched r)))
    (fun _ => ret None).

(** Method 3: TOP, with NOT IN over the ordering column past page 1.  When
    this one fails too the page is the empty list. *)
Definition top_page (columns_sql : option (list string))
    (table_name : string) (page page_size : Z) : Py session (option (list row)) :=
  try_except
    (r <- (if page =? 1 then run (SelectTop page_size columns_sql table_name)
           else
             order_column <- _get_primary_key_or_first_column table_name ;;
             run (SelectTopNotIn page_size columns_sql table_name order_column
                                 ((page - 1) * page_size))) ;;
     ret (Some (fetched r)))
    (fun _ => ret (Some [])).

Definition get_paginated_records (table_name : string) (page page_size : Z)
    (cols : option (list string)) : Py session page_result :=
  try_except
    (c <- self_conn ;;
     if negb c then ret empty_page
     else
       _validate_table_exists table_name ;;;
       r <- run (CountRows table_name) ;;
       count <- fetchone_0 r ;;
       total_count <- as_int count ;;
       total_pages <- ceil_div total_count page_size ;;
       major <- major_version ;;
       columns_sql <- MySQL.choose_columns (_validate_columns table_name) cols ;;
       records <- (if 11 <=? major
                   then offset_fetch_page columns_sql table_name page page_size
                   else ret None) ;;
       records <- match records with
                  | None => row_number_page columns_sql table_name page page_size
                  | Some _ => ret records
                  end ;;
       records <- match records with
                  | None => top_page columns_sql table_name page page_size
                  | Some _ => ret records
                  end ;;
       ret {| records := default [] records;
              total_count := total_count;
              total_pages := total_pages |})
    (fun _ => ret empty_page).

Definition update_record (table_name record_id column_name : string)
    (new_value : pyval) : Py session bool :=
  try_except
    (c <- self_conn ;;
     if negb c then ret false
     else
       _validate_table_exists table_name ;;;
       valid_columns <- _validate_columns table_name [column_name] ;;
       match valid_columns with
       | [] => raise (ValueError ("Column '" +:+ column_name
                                    +:+ "' not found in table '" +:+ table_name +:+ "'"))
       | _ :: _ =>
           primary_key <- _get_primary_key_or_first_column table_name ;;
           r <- run (UpdateSet table_name column_name primary_key
                               new_value (PyStr record_id)) ;;
           commit ;;;
           let rows_affected := rowcount r in
           if rows_affected =? 0 then ret false else ret true
       end)
    (fun e => c <- self_conn ;;
              (if c then rollback else ret tt) ;;;
              raise e).

Definition delete_record (table_name record_id : string) : Py session bool :=
  try_except
    (c <- self_conn ;;
     if negb c then ret false
     else
       _validate_table_exists table_name ;;;
       primary_key <- _get_primary_key_or_first_column table_name ;;
       r <- run (DeleteWhere table_name primary_key (PyStr record_id)) ;;
       commit ;;;
       let rows_affected := rowcount r in
       if 0 <? rows_affected then ret true else ret false)
    (fun e => c <- self_conn ;;
              (if c then rollback else ret tt) ;;;
              raise e).

End MSSQL.

(* ===================================================================== *)
(** ** [app/db/dbDriver/mongoDbConnector.py] *)
(* ===================================================================== *)

(** A document identifier: a native ObjectId, or the raw string when the
    text is not a 24-digit hexadecimal number. *)
Inductive doc_id :=
| ObjectId (hex : string)
| RawId (s : string).

Record document := {
  _id : doc_id;
  fields : row
}.

Record mongo := {
  db : bool;                              (* self.db is not None *)
  collections : gmap string (list document);
  mongo_faults : list bool                (* per driver call, as for SQL *)
}.

Definition is_hex (c : ascii) : bool :=
  let n := Z.of_nat (nat_of_ascii c) in
  ((48 <=? n) && (n <=? 57)) || ((97 <=? n) && (n <=? 102))
  || ((65 <=? n) && (n <=? 70)).

(** [try: ObjectId(record_id) except: record_id] *)
Definition to_object_id (record_id : string) : doc_id :=
  if (Z.of_nat (String.length record_id) =? 24)
     && forallb is_hex (list_ascii_of_string record_id)
  then ObjectId record_id else RawId record_id.

Definition doc_id_eqb (a b : doc_id) : bool :=
  match a, b with
  | ObjectId x, ObjectId y => String.eqb x y
  | RawId x, RawId y => String.eqb x y
  | _, _ => false
  end.

Definition doc_id_str (i : doc_id) : string :=
  match i with ObjectId h => h | RawId s => s end.

(** One call into the client library. *)
Definition call {A} (f : gmap string (list document)
                          -> outcome A * gmap string (list document))
  : Py mongo A :=
  fun st =>
    match mongo_faults st with
    | true :: later =>
        (Raise (DatabaseError "ServerSelectionTimeoutError"),
         {| db := db st; collections := collections st; mongo_faults := later |})
    | _ =>
        let '(r, cs) := f (collections st) in
        (r, {| db := db st; collections := cs;
               mongo_faults := tail (mongo_faults st) |})
    end.

Module Mongo.

(** [self.db] as a condition ([if not self.db:]).  [None] is false; a
    pymongo [Database] refuses truth testing and raises
    [NotImplementedError]. *)
Definition truth_of_database : exn :=
  NotImplementedError "Database objects do not implement truth value testing or bool()".

Definition self_db : Py mongo bool :=
  fun st => if db st then (Raise truth_of_database, st) else (Ok false, st).

(** [self.db.list_collection_names()] *)
Definition list_collection_names : Py mongo (list string) :=
  call (fun cs => (Ok (fst <$> map_to_list cs), cs)).

(** [self.db[name].count_documents({})]: a collection that does not exist
    reads as empty. *)
Definition count_documents (name : string) : Py mongo Z :=
  call (fun cs => (Ok (Z.of_nat (length (default [] (cs !! name)))), cs)).

(** [find({}, projection).skip(skip).limit(limit)]; [limit(0)] means no
    limit, negative arguments are rejected by the client. *)
Definition find (name : string) (projection : option (list string))
    (skip limit : Z) : Py mongo (list document) :=
  call (fun cs =>
    if (skip <? 0)
    then (Raise (ValueError "skip must be >= 0"), cs)
    else
      let docs := drop (Z.to_nat skip) (default [] (cs !! name)) in
      let docs := if limit =? 0 then docs else take (Z.to_nat (Z.abs limit)) docs in
      (Ok ((fun dc => {| _id := _id dc;
                         fields := match projection with
                                   | None => fields dc
                                   | Some cs' =>
                                       filter (fun kv => bool_decide (fst kv ∈ cs') = true)
                                              (fields dc)
                                   end |}) <$> docs), cs)).

(** [update_one({"_id": id}, {"$set": {column: value}})]: the reply's
    [modified_count].  A dotted column name is kept as one key. *)
Fixpoint update_first (id : doc_id) (column : string) (value : pyval)
    (docs : list document) : Z * list document :=
  match docs with
  | [] => (0, [])
  | dc :: later =>
      if doc_id_eqb (_id dc) id then
        let fields' := set_cell (fields dc) column value in
        (match dict_get (fields dc) column with
         | Some old => if cell_eqb old value then 0 else 1
         | None => 1
         end,
         {| _id := _id dc; fields := fields' |} :: later)
      else
        let '(n, later') := update_first id column value later in
        (n, dc :: later')
  end.

Definition update_one (name : string) (id : doc_id) (column : string)
    (value : pyval) : Py mongo Z :=
  call (fun cs =>
    let '(n, docs) := update_first id column value (default [] (cs !! name)) in
    (Ok n, match cs !! name with
           | Some _ => <[name := docs]> cs
           | None => cs
           end)).

Definition _validate_table_exists (table_name : string) : Py mongo bool :=
  c <- self_db ;;
  if negb c then ret false
  else
    names <- list_collection_names ;;
    if bool_decide (table_name ∈ names) then ret true
    else raise (ValueError ("Collection '" +:+ table_name +:+ "' not found")).

(** Each fetched document as a dictionary, with [_id] printed. *)
Definition as_record (dc : document) : row :=
  ("_id", PyStr (doc_id_str (_id dc))) :: fields dc.

Definition get_paginated_records (table_name : string) (page page_size : Z)
    (cols : option (list string)) : Py mongo page_result :=
  try_except
    (c <- self_db ;;
     if negb c then ret empty_page
     else
       _validate_table_exists table_name ;;;
       total_count <- count_documents table_name ;;
       total_pages <- ceil_div total_count page_size ;;
       let skip := (page - 1) * page_size in
       let projection := match cols with
                         | Some (c :: cs) => Some (c :: cs)
                         | _ => None
                         end in
       docs <- find table_name projection skip page_size ;;
       ret {| records := as_record <$> docs;
              total_count := total_count;
              total_pages := total_pages |})
    (fun _ => ret empty_page).

Definition update_record (table_name record_id column_name : string)
    (new_value : pyval) : Py mongo bool :=
  try_except
    (c <- self_db ;;
     if negb c then ret false
     else
       _validate_table_exists table_name ;;;
       let object_id := to_object_id record_id in
       modified_count <- update_one table_name object_id column_name new_value ;;
       if modified_count =? 0 then ret false else ret true)
    (fun e => raise e).

End Mongo.

(* ===================================================================== *)
(** ** [app/db/database.py] and [app/routers/tables.py] *)
(* ===================================================================== *)

(** The methods of a driver class that the modelled routes call.  The class
    that [get_db_connection] picks from [db_type] is the instance in
    scope; its state [B] is the driver object with the server behind it. *)
Class Driver (B : Type) := {
  connect : Py B bool;
  close : Py B unit;
  get_table_record_count : string -> Py B Z;
  create_record : string -> row -> Py B pyval;
  update_record : string -> string -> string -> pyval -> Py B bool;
  delete_record : string -> string -> Py B bool
}.

(** What a request can touch: the Redis server and the session's backend. *)
Record world (B : Type) := {
  cache : redis;
  backend : B
}.
Arguments cache {B} w.
Arguments backend {B} w.

Definition in_cache {B A} (m : Py redis A) : Py (world B) A :=
  fun w => let '(r, c) := m (cache w) in (r, {| cache := c; backend := backend w |}).

Definition in_db {B A} (m : Py B A) : Py (world B) A :=
  fun w => let '(r, b) := m (backend w) in (r, {| cache := cache w; backend := b |}).

(** The JSON body of a write route. *)
Record write_response := {
  status : Z;
  success : bool;
  message : string;
  created_id : option string;
  deleted_count : option Z
}.

Section Routes.
Context `{JsonCodec} {B : Type} `{Driver B}.

(** [connection_info[key]] *)
Definition subscript (connection_info : pyval) (key : string)
  : Py (world B) pyval :=
  match connection_info with
  | PyDict d => match dict_get d key with
                | Some v => ret v
                | None => raise (KeyError key)
                end
  | _ => raise (TypeError "indices must be integers")
  end.

(** [with get_db_connection(session_id) as db: body] *)
Definition get_db_connection {A} (session_id : string) (body : Py B A)
  : Py (world B) A :=
  connection_info <- in_cache (get_connection_info session_id) ;;
  if negb (truthy connection_info)
  then raise (HTTPException 401 "Invalid or expired session")
  else
    match connection_info with
    | PyDict _ =>
        try_finally
          (subscript connection_info "server" ;;;
           subscript connection_info "database" ;;;
           subscript connection_info "user" ;;;
           subscript connection_info "password" ;;;
           subscript connection_info "port" ;;;
           conn <- in_db connect ;;
           if negb conn
           then raise (HTTPException 500 "Failed to connect to database")
           else in_db body)
          (in_db close)
    | _ => raise (AttributeError "object has no attribute 'get'")
    end.

(** [request.cookies.get("session_id")] followed by [if not session_id]. *)
Definition require_session {A} (cookie : option string)
    (k : string -> Py (world B) A) : Py (world B) A :=
  match cookie with
  | Some session_id =>
      if String.eqb session_id "" then raise (HTTPException 401 "Session ID required")
      else k session_id
  | None => raise (HTTPException 401 "Session ID required")
  end.

(** GET /{table_name}/count *)
Definition get_table_count (table_name : string) (cookie : option string)
  : Py (world B) pyval :=
  require_session cookie (fun session_id =>
    cached_count <- in_cache (get_cached_table_count session_id table_name) ;;
    match cached_count with
    | PyNone =>
        count <- get_db_connection session_id (get_table_record_count table_name) ;;
        in_cache (cache_table_count session_id table_name count 1800) ;;;
        ret (PyInt count)
    | _ => ret cached_count
    end).

(** POST /{table_name}/records *)
Definition create_table_record (table_name : string) (data : row)
    (cookie : option string) : Py (world B) write_response :=
  require_session cookie (fun session_id =>
    try_except
      (record_id <- get_db_connection session_id (create_record table_name data) ;;
       if truthy record_id then
         in_cache (invalidate_table_cache session_id table_name) ;;;
         ret {| status := 200; success := true;
                message := "Successfully created new record in " +:+ table_name;
                created_id := Some (py_str record_id); deleted_count := None |}
       else
         ret {| status := 200; success := false;
                message := "Failed to create record";
                created_id := None; deleted_count := None |})
      (fun e =>
         ret {| status := 500; success := false;
                message := "Error creating record: " +:+ exn_str e;
                created_id := None; deleted_count := None |})).

(** POST /{table_name}/records/{record_id} *)
Definition update_table_record (table_name record_id column : string)
    (value : pyval) (cookie : option string) : Py (world B) write_response :=
  require_session cookie (fun session_id =>
    try_except
      (ok <- get_db_connection session_id
               (update_record table_name record_id column value) ;;
       if ok then
         in_cache (invalidate_table_cache session_id table_name) ;;;
         ret {| status := 200; success := true;
                message := "Successfully updated record " +:+ record_id;
                created_id := None; deleted_count := None |}
       else
         ret {| status := 200; success := false;
                message := "Failed to update record " +:+ record_id;
                created_id := None; deleted_count := None |})
      (fun e =>
         ret {| status := 500; success := false;
                message := "Error updating record: " +:+ exn_str e;
                created_id := None; deleted_count := None |})).

(** [response_model=DeleteRecordResponse]: a dictionary that the route
    returns is validated against the model, in which [deleted_count] is
    required; the validation error leaves the route's own handler aside
    and ends the request with status 500. *)
Definition validated_delete_response (body : write_response)
  : Py (world B) write_response :=
  match deleted_count body with
  | Some _ => ret body
  | None => raise ResponseValidationError
  end.

(** DELETE /{table_name}/records/{record_id}.  The two dictionaries are
    returned for validation ([inl]); the handler builds a [JSONResponse],
    which is sent as it is ([inr]). *)
Definition delete_single_record (table_name record_id : string)
    (cookie : option string) : Py (world B) write_response :=
  require_session cookie (fun session_id =>
    answer <- try_except
      (ok <- get_db_connection session_id (delete_record table_name record_id) ;;
       if ok then
         in_cache (invalidate_table_cache session_id table_name) ;;;
         ret (inl {| status := 200; success := true;
                     message := "Successfully deleted record " +:+ record_id;
                     created_id := None; deleted_count := Some 1 |})
       else
         ret (inl {| status := 200; success := false;
                     message := "Failed to delete record " +:+ record_id;
                     created_id := None; deleted_count := None |}))
      (fun e =>
         ret (inr {| status := 500; success := false;
                     message := "Error deleting record: " +:+ exn_str e;
                     created_id := None; deleted_count := None |})) ;;
    match answer with
    | inl body => validated_delete_response body
    | inr response => ret response
    end).

End Routes.

(** GET /{table_name}/records/selected.  This route does not go through a
    driver method: it takes [db.conn] and sends its own two statements, in
    MySQL syntax.  [columns] is a required query parameter. *)
Record selected_response := {
  sel_table : string;
  sel_columns : list string;
  sel_page : Z;
  sel_page_size : Z;
  sel_result : page_result
}.

Section SelectedRoute.
Context `{JsonCodec} `{Driver session}.

Definition get_selected_columns_records (table_name : string)
    (cols : list string) (page page_size : Z) (cookie : option string)
  : Py (world session) selected_response :=
  require_session cookie (fun session_id =>
    try_except
      (found <- get_db_connection session_id
                  (r <- execute MySQLDialect (CountRows table_name) ;;
                   c <- fetchone_0 r ;;
                   total_count <- as_int c ;;
                   total_pages <- ceil_div total_count page_size ;;
                   let offset := (page - 1) * page_size in
                   r <- execute MySQLDialect
                          (SelectLimit (Some cols) table_name page_size offset) ;;
                   ret {| records := fetched r;
                          total_count := total_count;
                          total_pages := total_pages |}) ;;
       ret {| sel_table := table_name; sel_columns := cols;
              sel_page := page; sel_page_size := page_size;
              sel_result := found |})
      (fun e => raise (HTTPException 500
                         ("Error retrieving selected columns: " +:+ exn_str e)))).

End SelectedRoute.

(** The MySQL driver class as a [Driver]. *)
#[export] Instance MySQLConnection : Driver session := {
  connect := MySQL.connect;
  close := MySQL.close;
  get_table_record_count := MySQL.get_table_record_count;
  create_record := MySQL.create_record;
  update_record := MySQL.update_record;
  delete_record := MySQL.delete_record
}.

(* ===================================================================== *)
(** ** A reference JSON codec *)
(* ===================================================================== *)

(** A decoder and an encoder for the JSON documents the cache holds:
    [null], [true], [false], integers, strings without escape sequences,
    arrays and objects; texts with fractions, exponents or escape sequences
    are outside its domain.  The properties below hold for every codec;
    this one is used to run the model on concrete stores. *)

Definition dquote : ascii := "034".

Definition malformed {A} : outcome A := Raise JSONDecodeError.

(** The nesting of arrays and objects at which the decoder raises
    [RecursionError]: the interpreter's default limit (the frames that are
    on the stack already lower it further). *)
Definition recursion_limit : nat := 1000.

Fixpoint skip_ws (s : string) : string :=
  match s with
  | String c rest => if Ascii.is_space c then skip_ws rest else s
  | EmptyString => s
  end.

(** The characters up to the closing quote, and what follows it. *)
Fixpoint scan_string (s : string) : option (string * string) :=
  match s with
  | EmptyString => None
  | String c rest =>
      if Ascii.eqb c dquote then Some (EmptyString, rest)
      else if Ascii.eqb c "\" then None
      else match scan_string rest with
           | Some (body, after) => Some (String c body, after)
           | None => None
           end
  end.

(** The longest run of digits, and what follows it. *)
Fixpoint scan_digits (s : string) : string * string :=
  match s with
  | String c rest =>
      match digit_of c with
      | Some _ => let '(ds, after) := scan_digits rest in (String c ds, after)
      | None => (EmptyString, s)
      end
  | EmptyString => (EmptyString, s)
  end.

(** An integer: a zero, or digits that start with another digit. *)
Definition scan_number (s : string) : option (Z * string) :=
  let '(neg, body) := match s with
                      | String "-" rest => (true, rest)
                      | _ => (false, s)
                      end in
  match body with
  | String "0" after => Some (0, after)
  | _ =>
      let '(ds, after) := scan_digits body in
      match ds with
      | EmptyString => None
      | _ => match digits_value 0 ds with
             | Some z => Some (if neg then - z else z, after)
             | None => None
             end
      end
  end.

Definition expect (word : string) (s : string) : option string :=
  if String.prefix word s
  then Some (String.substring (String.length word)
                              (String.length s - String.length word) s)
  else None.

Fixpoint scan_elements (value : string -> outcome (pyval * string)) (fuel : nat)
    (s : string) (acc : list pyval) : outcome (list pyval * string) :=
  match fuel with
  | O => malformed
  | S fuel' =>
      match value s with
      | Ok (v, rest) =>
          match skip_ws rest with
          | String "," rest' => scan_elements value fuel' rest' (acc ++ [v])%list
          | String "]" rest' => Ok ((acc ++ [v])%list, rest')
          | _ => malformed
          end
      | Raise e => Raise e
      end
  end.

Fixpoint scan_members (value : string -> outcome (pyval * string)) (fuel : nat)
    (s : string) (acc : list (string * pyval))
  : outcome (list (string * pyval) * string) :=
  match fuel with
  | O => malformed
  | S fuel' =>
      match skip_ws s with
      | String c rest =>
          if Ascii.eqb c dquote then
            match scan_string rest with
            | Some (key, after_key) =>
                match skip_ws after_key with
                | String ":" after_colon =>
                    match value after_colon with
                    | Ok (v, rest') =>
                        match skip_ws rest' with
                        | String "," rest'' =>
                            scan_members value fuel' rest'' (acc ++ [(key, v)])%list
                        | String "}" rest'' => Ok ((acc ++ [(key, v)])%list, rest'')
                        | _ => malformed
                        end
                    | Raise e => Raise e
                    end
                | _ => malformed
                end
            | None => malformed
            end
          else malformed
      | EmptyString => malformed
      end
  end.

(** [depth] is the nesting that is still allowed. *)
Fixpoint scan_value (fuel : nat) (depth : nat) (s : string)
  : outcome (pyval * string) :=
  match fuel with
  | O => malformed
  | S fuel' =>
      match skip_ws s with
      | EmptyString => malformed
      | String c rest =>
          if Ascii.eqb c dquote then
            match scan_string rest with
            | Some (body, after) => Ok (PyStr body, after)
            | None => malformed
            end
          else if Ascii.eqb c "[" then
            match depth with
            | O => Raise RecursionError
            | S depth' =>
                match skip_ws rest with
                | String "]" after => Ok (PyList [], after)
                | _ => match scan_elements (scan_value fuel' depth') fuel' rest [] with
                       | Ok (items, after) => Ok (PyList items, after)
                       | Raise e => Raise e
                       end
                end
            end
          else if Ascii.eqb c "{" then
            match depth with
            | O => Raise RecursionError
            | S depth' =>
                match skip_ws rest with
                | String "}" after => Ok (PyDict [], after)
                | _ => match scan_members (scan_value fuel' depth') fuel' rest [] with
                       | Ok (members, after) => Ok (PyDict members, after)
                       | Raise e => Raise e
                       end
                end
            end
          else if Ascii.eqb c "n" then
            match expect "null" (String c rest) with
            | Some after => Ok (PyNone, after)
            | None => malformed
            end
          else if Ascii.eqb c "t" then
            match expect "true" (String c rest) with
            | Some after => Ok (PyBool true, after)
            | None => malformed
            end
          else if Ascii.eqb c "f" then
            match expect "false" (String c rest) with
            | Some after => Ok (PyBool false, after)
            | None => malformed
            end
          else
            match scan_number (String c rest) with
            | Some (z, after) => Ok (PyInt z, after)
            | None => malformed
            end
      end
  end.

Definition reference_loads (s : string) : outcome pyval :=
  match scan_value (S (String.length s)) recursion_limit s with
  | Ok (v, rest) =>
      match skip_ws rest with
      | EmptyString => Ok v
      | _ => malformed
      end
  | Raise e => Raise e
  end.

Definition quoted (s : string) : string :=
  String dquote s +:+ String dquote EmptyString.

Fixpoint reference_dumps (v : pyval) : string :=
  match v with
  | PyNone => "null"
  | PyBool true => "true"
  | PyBool false => "false"
  | PyInt z => pretty z
  | PyStr s => quoted s
  | PyList items => "[" +:+ join ", " (map reference_dumps items) +:+ "]"
  | PyDict members =>
      "{" +:+ join ", " (map (fun kv => quoted (fst kv) +:+ ": "
                                          +:+ reference_dumps (snd kv)) members)
        +:+ "}"
  end.

Definition reference_json : JsonCodec :=
  {| json_loads := reference_loads; json_dumps := reference_dumps |}.

(* ===================================================================== *)
(** ** Notions used to state the properties *)
(* ===================================================================== *)

(** The characters with a special meaning in a KEYS pattern. *)
Definition glob_special (c : ascii) : bool :=
  Ascii.eqb c "*" || Ascii.eqb c "?" || Ascii.eqb c "[" || Ascii.eqb c "\".

Fixpoint glob_literal (s : string) : bool :=
  match s with
  | EmptyString => true
  | String c rest => negb (glob_special c) && glob_literal rest
  end.

(** The column the drivers order and look rows up by: the primary key,
    else the first column, else the driver's default name. *)
Definition key_column (t : table) (fallback : string) : string :=
  match primary_key t with
  | Some k => k
  | None => match columns t with
            | c :: _ => c
            | [] => fallback
            end
  end.

(** The cells are non-null scalars, each strictly below all later ones. *)
Fixpoint strictly_ascending (keys : list pyval) : bool :=
  match keys with
  | [] => true
  | k :: later =>
      cell_eqb k k
      && forallb (fun k' => cell_le k k' && negb (cell_eqb k k')) later
      && strictly_ascending later
  end.

(** Some statement of class [K] in this part of the log faulted. *)
Definition faulted (K : sql -> bool) (entries : list (sql * bool)) : bool :=
  existsb (fun e => K (fst e) && snd e) entries.


(** [n] is the ceiling of [a / b]. *)
Definition is_ceiling (n a b : Z) : Prop :=
  (n - 1) * b < a <= n * b.

(** A statement that leaves a Redis server healthy that answered every
    command so far. *)
Definition keeps_healthy (B : Type) {A} (m : Py (world B) A) : Prop :=
  forall w r w', outages (cache w) = [] -> m w = (r, w') -> outages (cache w') = [].



(** The server answers the next [n] commands. *)
Definition answers (n : nat) (o : list bool) : bool :=
  negb (existsb id (take n o)).

(** The counts of a page result fit the page size, for a count that a
    double holds exactly. *)
Definition page_counts_ok (page_size : Z) (pr : page_result) : Prop :=
  (total_count pr < 2 ^ 53 ->
   is_ceiling (total_pages pr) (total_count pr) page_size)
  /\ (total_count pr = 0 -> total_pages pr = 0).

(** Every value that [m] returns satisfies [Q]. *)
Definition returns {S A} (m : Py S A) (Q : A -> Prop) : Prop :=
  forall s a s', m s = (Ok a, s') -> Q a.

(** The state [st] after the statements [entries] went to the log. *)
Definition logged (st : session) (entries : list (sql * bool)) : session :=
  {| conn := conn st; reachable := reachable st; srv := srv st;
     faults := faults st; log := (log st ++ entries)%list;
     unread := unread st |}.

(** A connected driver object whose server answers every statement. *)
Definition online (rc : bool) (s : server) (l : list (sql * bool)) : session :=
  {| conn := true; reachable := rc; srv := s; faults := []; log := l;
     unread := false |}.

(** A connected MongoDB driver object whose server answers every call. *)
Definition mongo_online (cs : gmap string (list document)) : mongo :=
  {| db := true; collections := cs; mongo_faults := [] |}.

(** The state [st] with rows of a result left unread on the connection. *)
Definition with_unread (st : session) : session :=
  {| conn := conn st; reachable := reachable st; srv := srv st;
     faults := faults st; log := log st; unread := true |}.

(** The look-up of the key column of the MySQL driver can close its
    cursor: the table has a primary key, or one column at most. *)
Definition key_found (tb : table) : bool :=
  match primary_key tb, columns tb with
  | Some _, _ => true
  | None, _ :: _ :: _ => false
  | None, _ => true
  end.




(* ===================================================================== *)
(** ** Fixtures *)
(* ===================================================================== *)

Definition demo_users : table :=
  {| columns := ["id"; "name"];
     primary_key := Some "id";
     auto_increment := Some 4;
     rows := [ [("id", PyInt 1); ("name", PyStr "ann")];
               [("id", PyInt 2); ("name", PyStr "bob")];
               [("id", PyInt 3); ("name", PyStr "cy")] ] |}.

(** The same rows as a heap whose scan order is not the key order. *)
Definition demo_heap : table :=
  {| columns := ["id"; "name"];
     primary_key := Some "id";
     auto_increment := None;
     rows := [ [("id", PyInt 3); ("name", PyStr "cy")];
               [("id", PyInt 1); ("name", PyStr "ann")];
               [("id", PyInt 2); ("name", PyStr "bob")] ] |}.

(** A table without primary key. *)
Definition demo_log : table :=
  {| columns := ["at"; "text"];
     primary_key := None;
     auto_increment := None;
     rows := [ [("at", PyInt 10); ("text", PyStr "start")];
               [("at", PyInt 20); ("text", PyStr "stop")] ] |}.

Definition demo_empty : table :=
  {| columns := ["id"]; primary_key := Some "id"; auto_increment := Some 1;
     rows := [] |}.

Definition demo_server : server :=
  {| database := "shop";
     tables := <["users" := demo_users]>
                 (<["heap" := demo_heap]>
                    (<["empty" := demo_empty]>
                       (<["t[1]" := demo_users]> (<["log" := demo_log]> ∅))));
     product_version := "15.0.2000.5" |}.

(** A table of 2^53 + 1 rows, the first row count that no double holds. *)
Definition big_rows : list row :=
  replicate (Z.to_nat (2 ^ 53 + 1)) [("n", PyInt 0)].

Definition big_table : table :=
  {| columns := ["n"]; primary_key := None; auto_increment := None;
     rows := big_rows |}.

Definition big_server : server :=
  {| database := "shop";
     tables := <["big" := big_table]> ∅;
     product_version := "15.0.2000.5" |}.

(** A connected driver object in front of [demo_server]. *)
Definition demo_session (faults : list bool) : session :=
  {| conn := true; reachable := true; srv := demo_server;
     faults := faults; log := []; unread := false |}.

Definition demo_connection_info : pyval :=
  PyDict [("server", PyStr "db.local"); ("database", PyStr "shop");
          ("user", PyStr "app"); ("password", PyStr "secret");
          ("port", PyInt 3306); ("db_type", PyStr "mysql")].

(** [n] opening brackets: a text that nests arrays [n] deep. *)
Fixpoint nested (n : nat) : string :=
  match n with
  | O => EmptyString
  | S n' => String "[" (nested n')
  end.

(** Session [S] with its connection entry and two cached counts. *)
Definition demo_cache (outages : list bool) : redis :=
  {| store := <["connection:S" := reference_dumps demo_connection_info]>
                (<["S:table:users:count" := "3"]>
                   (<["S:table:t[1]:count" := "3"]> ∅));
     outages := outages |}.

Definition demo_world (outages : list bool) : world session :=
  {| cache := demo_cache outages;
     backend := {| conn := false; reachable := true; srv := demo_server;
                   faults := []; log := []; unread := false |} |}.

(* ===================================================================== *)
(** ** [app/db/redis_caches.py]: session and maintenance helpers *)
(* ===================================================================== *)

(** EXISTS key *)
Definition redis_exists (key : string) : Py redis Z :=
  command (fun m => (match m !! key with Some _ => 1 | None => 0 end, m)).

(** [s.replace(old, '')] for a non-empty [old]: every occurrence of [old],
    found from the left and without overlap, is left out.  [skip] counts
    the characters of the occurrence under way that are still to be passed
    over. *)
Fixpoint remove_all (old : string) (skip : nat) (s : string) : string :=
  match s with
  | EmptyString => EmptyString
  | String c rest =>
      match skip with
      | S n => remove_all old n rest
      | O =>
          if String.prefix old s
          then remove_all old (String.length old - 1) rest
          else String c (remove_all old O rest)
      end
  end.

(** [old] occurs somewhere in [s]. *)
Fixpoint occurs_in (old s : string) : bool :=
  match s with
  | EmptyString => String.prefix old s
  | String _ rest => String.prefix old s || occurs_in old rest
  end.

Section MoreRedisCaches.
Context `{JsonCodec}.

(** [clear_all_session_cache(session_id)]: the loop is the one of
    [invalidate_table_cache], over two patterns. *)
Definition session_patterns (session_id : string) : list string :=
  [ "connection:" +:+ session_id; session_id +:+ ":*" ].

Definition clear_all_session_cache (session_id : string) : Py redis Z :=
  try_except (clear_patterns (session_patterns session_id) 0)
             (fun _ => ret 0).

(** [delete_connection_info(session_id)] *)
Definition delete_connection_info (session_id : string) : Py redis bool :=
  try_except
    (result <- redis_delete [connection_key session_id] ;;
     ret (negb (result =? 0)))
    (fun _ => ret false).

(** [list_active_connections()] *)
Definition list_active_connections : Py redis (list string) :=
  try_except
    (keys <- redis_keys "connection:*" ;;
     ret ((fun key => remove_all "connection:" 0 key) <$> keys))
    (fun _ => ret []).

(** [cleanup_expired_sessions()].  The function it calls for a vanished
    key, [delete_all_session_cache], is defined nowhere: reaching the call
    raises [NameError], which only ever meets the handler of this function
    and is carried here by its message. *)
Definition name_error (name : string) : exn :=
  AttributeError ("name '" +:+ name +:+ "' is not defined").

Fixpoint cleanup_loop (connection_keys : list string) (cleaned_sessions : Z)
  : Py redis Z :=
  match connection_keys with
  | [] => ret cleaned_sessions
  | conn_key :: later =>
      found <- redis_exists conn_key ;;
      if found =? 0
      then raise (name_error "delete_all_session_cache")
      else cleanup_loop later cleaned_sessions
  end.

Definition cleanup_expired_sessions : Py redis Z :=
  try_except
    (connection_keys <- redis_keys "connection:*" ;;
     cleanup_loop connection_keys 0)
    (fun _ => ret 0).

(** [cache_table_columns] / [get_cached_table_columns] *)
Definition cache_table_columns (session_id table_name : string)
    (cols : list string) (expire : Z) : Py redis bool :=
  set_cache (columns_key session_id table_name) (PyList (PyStr <$> cols)) expire.

Definition get_cached_table_columns (session_id table_name : string)
  : Py redis pyval :=
  get_cache (columns_key session_id table_name).

(** [cache_single_record] / [get_cached_single_record] *)
Definition cache_single_record (session_id table_name record_id : string)
    (record_data : row) (expire : Z) : Py redis bool :=
  set_cache (record_key session_id table_name record_id) (PyDict record_data) expire.

Definition get_cached_single_record (session_id table_name record_id : string)
  : Py redis pyval :=
  get_cache (record_key session_id table_name record_id).

(** [cache_table_preview] / [get_cached_table_preview] *)
Definition cache_table_preview (session_id table_name : string)
    (preview_data : list row) (expire : Z) : Py redis bool :=
  set_cache (preview_key session_id table_name)
            (PyList (PyDict <$> preview_data)) expire.

Definition get_cached_table_preview (session_id table_name : string)
  : Py redis pyval :=
  get_cache (preview_key session_id table_name).

(* --------------------------------------------------------------------- *)
(** *** [app/routers/cache.py] and [app/routers/connection.py] *)
(* --------------------------------------------------------------------- *)

(** The handlers [except HTTPException: raise] followed by
    [except Exception as e: raise HTTPException(500, prefix + str(e))]. *)
Definition reraise_as_500 {S A} (prefix : string) (m : Py S A) : Py S A :=
  try_except m (fun e => match e with
                         | HTTPException _ _ => raise e
                         | _ => raise (HTTPException 500 (prefix +:+ exn_str e))
                         end).

(** DELETE /api/cache/clear-all/{session_id}: the number of entries
    cleared. *)
Definition clear_all_cache (session_id : string) : Py redis Z :=
  reraise_as_500 "Error clearing cache: "
    (connection_info <- get_connection_info session_id ;;
     if negb (truthy connection_info)
     then raise (HTTPException 404 "Session not found or expired")
     else clear_all_session_cache session_id).

(** POST /api/disconnect/{session_id}: the [cache_entries_cleared] of its
    answer.  Its one handler turns every exception into a 500. *)
Definition disconnect_db (session_id : string) : Py redis Z :=
  try_except
    (cache_entries_cleared <- clear_all_cache session_id ;;
     delete_connection_info session_id ;;;
     ret cache_entries_cleared)
    (fun e => raise (HTTPException 500 ("Error disconnecting: " +:+ exn_str e))).

(** DELETE /api/sessions/{session_id}: [cache_entries_cleared] and
    [connection_deleted]. *)
Definition force_disconnect_session (session_id : string) : Py redis (Z * bool) :=
  try_except
    (cleared_count <- clear_all_session_cache session_id ;;
     connection_deleted <- delete_connection_info session_id ;;
     ret (cleared_count, connection_deleted))
    (fun e => raise (HTTPException 500
                       ("Error force disconnecting: " +:+ exn_str e))).

End MoreRedisCaches.

(* ===================================================================== *)
(** ** The SQL drivers: columns, lookup by id, record lists *)
(* ===================================================================== *)

(** [[row[0] for row in cursor.fetchall()]] *)
Fixpoint column_0 {S} (rs : list row) : Py S (list pyval) :=
  match rs with
  | [] => ret []
  | [] :: _ => raise (KeyError "0")
  | ((_, v) :: _) :: later => vs <- column_0 later ;; ret (v :: vs)
  end.

(** [result.get("records", [])] on what [get_paginated_records] returns. *)
Definition records_of {S} (m : Py S page_result) : Py S (list row) :=
  try_except (result <- m ;; ret (records result)) (fun _ => ret []).

(** [self.conn.database] *)
Definition conn_database : Py session string :=
  fun st => (Ok (database (srv st)), st).

Module MySQLReads.

(** [get_all_tables()]: the database and the name of every table. *)
Definition get_all_tables : Py session (list (string * pyval)) :=
  try_except
    (c <- self_conn ;;
     if negb c then ret []
     else
       r <- MySQL.run ListTables ;;
       names <- column_0 (fetched r) ;;
       db_name <- conn_database ;;
       ret ((fun name => (db_name, name)) <$> names))
    (fun _ => ret []).

(** [get_first_10_records(table_name)] *)
Definition get_first_10_records (table_name : string) : Py session (list row) :=
  try_except
    (c <- self_conn ;;
     if negb c then ret []
     else
       MySQL._validate_table_exists table_name ;;;
       r <- MySQL.run (SelectPreview table_name) ;;
       ret (fetched r))
    (fun _ => ret []).

(** [get_table_columns(table_name)] *)
Definition get_table_columns (table_name : string) : Py session (list pyval) :=
  try_except
    (c <- self_conn ;;
     if negb c then ret []
     else
       r <- MySQL.run (ShowColumns table_name) ;;
       column_0 (fetched r))
    (fun _ => ret []).

(** [get_record_by_id(table_name, record_id)]: the row, or [None]. *)
Definition get_record_by_id (table_name record_id : string)
  : Py session (option row) :=
  try_except
    (c <- self_conn ;;
     if negb c then ret None
     else
       MySQL._validate_table_exists table_name ;;;
       primary_key <- MySQL._get_primary_key_or_first_column table_name ;;
       r <- MySQL.run (SelectWhere table_name primary_key (PyStr record_id)) ;;
       close_after_fetchone r ;;;
       ret (head (fetched r)))
    (fun _ => ret None).

(** [get_table_records] and [get_table_records_with_columns] *)
Definition get_table_records (table_name : string) (page page_size : Z)
  : Py session (list row) :=
  records_of (MySQL.get_paginated_records table_name page page_size None).

Definition get_table_records_with_columns (table_name : string)
    (cols : list string) (page page_size : Z) : Py session (list row) :=
  records_of (MySQL.get_paginated_records table_name page page_size (Some cols)).

End MySQLReads.

Module MSSQLReads.

(** [row[0]] and [row[1]] of every fetched row. *)
Fixpoint columns_0_1 {S} (rs : list row) : Py S (list (pyval * pyval)) :=
  match rs with
  | [] => ret []
  | ((_, a) :: (_, b) :: _) :: later =>
      ps <- columns_0_1 later ;; ret ((a, b) :: ps)
  | _ :: _ => raise (KeyError "1")
  end.

(** [get_all_tables()]: the database and the name of every table. *)
Definition get_all_tables : Py session (list (pyval * pyval)) :=
  try_except
    (c <- self_conn ;;
     if negb c then ret []
     else
       r <- MSSQL.run ListTables ;;
       columns_0_1 (fetched r))
    (fun _ => ret []).

(** [get_first_10_records(table_name)]: the rows, or [None]. *)
Definition get_first_10_records (table_name : string)
  : Py session (option (list row)) :=
  try_except
    (c <- self_conn ;;
     if negb c then ret None
     else
       MSSQL._validate_table_exists table_name ;;;
       r <- MSSQL.run (SelectTop 10 None table_name) ;;
       ret (Some (fetched r)))
    (fun _ => ret None).

(** [get_table_columns(table_name)] *)
Definition get_table_columns (table_name : string) : Py session (list pyval) :=
  try_except
    (c <- self_conn ;;
     if negb c then ret []
     else
       r <- MSSQL.run (ColumnsOf table_name) ;;
       column_0 (fetched r))
    (fun _ => ret []).

(** [get_record_by_id(table_name, record_id)]: the row, or [None]. *)
Definition get_record_by_id (table_name record_id : string)
  : Py session (option row) :=
  try_except
    (c <- self_conn ;;
     if negb c then ret None
     else
       MSSQL._validate_table_exists table_name ;;;
       primary_key <- MSSQL._get_primary_key_or_first_column table_name ;;
       r <- MSSQL.run (SelectWhere table_name primary_key (PyStr record_id)) ;;
       ret (head (fetched r)))
    (fun _ => ret None).

Definition get_table_records (table_name : string) (page page_size : Z)
  : Py session (list row) :=
  records_of (MSSQL.get_paginated_records table_name page page_size None).

Definition get_table_records_with_columns (table_name : string)
    (cols : list string) (page page_size : Z) : Py session (list row) :=
  records_of (MSSQL.get_paginated_records table_name page page_size (Some cols)).

End MSSQLReads.

(* ===================================================================== *)
(** ** [app/db/dbDriver/mongoDbConnector.py]: fields, lookup, delete *)
(* ===================================================================== *)

Module MongoMore.

(** [self.db[name].find_one()]: the first document, with its identifier
    under [_id]. *)
Definition find_one (name : string) : Py mongo (option document) :=
  call (fun cs => (Ok (head (default [] (cs !! name))), cs)).

(** [self.db[name].find_one({"_id": id})] *)
Definition find_one_by_id (name : string) (id : doc_id) : Py mongo (option document) :=
  call (fun cs =>
    (Ok (head (filter (fun dc => doc_id_eqb (_id dc) id = true)
                      (default [] (cs !! name)))), cs)).

(** [delete_one({"_id": id})]: the reply's [deleted_count]. *)
Fixpoint delete_first (id : doc_id) (docs : list document) : Z * list document :=
  match docs with
  | [] => (0, [])
  | dc :: later =>
      if doc_id_eqb (_id dc) id then (1, later)
      else let '(n, later') := delete_first id later in (n, dc :: later')
  end.

Definition delete_one (name : string) (id : doc_id) : Py mongo Z :=
  call (fun cs =>
    let '(n, docs) := delete_first id (default [] (cs !! name)) in
    (Ok n, match cs !! name with
           | Some _ => <[name := docs]> cs
           | None => cs
           end)).

(** [get_all_tables()] *)
Definition get_all_tables (db_name : string) : Py mongo (list (string * string)) :=
  try_except
    (c <- Mongo.self_db ;;
     if negb c then ret []
     else
       names <- Mongo.list_collection_names ;;
       ret ((fun collection => (db_name, collection)) <$> names))
    (fun _ => ret []).

(** [get_table_record_count(table_name)] *)
Definition get_table_record_count (table_name : string) : Py mongo Z :=
  try_except
    (c <- Mongo.self_db ;;
     if negb c then ret 0
     else
       Mongo._validate_table_exists table_name ;;;
       Mongo.count_documents table_name)
    (fun _ => ret 0).

(** [_extract_all_keys(document, prefix)]: [keys_of prefix value] is what
    the method returns when [value] is a dictionary, and nothing
    otherwise. *)
Fixpoint keys_of (prefix : string) (value : pyval) : list string :=
  match value with
  | PyDict members =>
      (fix each (members : list (string * pyval)) : list string :=
         match members with
         | [] => []
         | (key, v) :: later =>
             let full_key := if String.eqb prefix "" then key
                             else prefix +:+ "." +:+ key in
             (full_key :: keys_of full_key v ++ each later)%list
         end) members
  | _ => []
  end.

Definition _extract_all_keys (document : row) (prefix : string) : list string :=
  keys_of prefix (PyDict document).

(** [get_table_columns(table_name)] *)
Definition get_table_columns (table_name : string) : Py mongo (list string) :=
  try_except
    (c <- Mongo.self_db ;;
     if negb c then ret []
     else
       Mongo._validate_table_exists table_name ;;;
       sample <- find_one table_name ;;
       match sample with
       | None => ret ["_id"]
       | Some dc => ret (_extract_all_keys (Mongo.as_record dc) "")
       end)
    (fun _ => ret []).

(** [get_first_10_records(table_name)]: the documents, or [None]. *)
Definition get_first_10_records (table_name : string)
  : Py mongo (option (list row)) :=
  try_except
    (c <- Mongo.self_db ;;
     if negb c then ret None
     else
       Mongo._validate_table_exists table_name ;;;
       docs <- Mongo.find table_name None 0 10 ;;
       ret (Some (Mongo.as_record <$> docs)))
    (fun _ => ret None).

(** [delete_record(table_name, record_id)] *)
Definition delete_record (table_name record_id : string) : Py mongo bool :=
  try_except
    (c <- Mongo.self_db ;;
     if negb c then ret false
     else
       Mongo._validate_table_exists table_name ;;;
       let object_id := to_object_id record_id in
       deleted_count <- delete_one table_name object_id ;;
       if 0 <? deleted_count then ret true else ret false)
    (fun e => raise e).

(** [get_record_by_id(table_name, record_id)] *)
Definition get_record_by_id (table_name record_id : string)
  : Py mongo (option row) :=
  try_except
    (c <- Mongo.self_db ;;
     if negb c then ret None
     else
       Mongo._validate_table_exists table_name ;;;
       let object_id := to_object_id record_id in
       found <- find_one_by_id table_name object_id ;;
       match found with
       | Some dc => ret (Some (Mongo.as_record dc))
       | None => ret None
       end)
    (fun _ => ret None).

(** [get_table_records] and [get_table_records_with_columns] *)
Definition get_table_records (table_name : string) (page page_size : Z)
  : Py mongo (list row) :=
  records_of (Mongo.get_paginated_records table_name page page_size None).

Definition get_table_records_with_columns (table_name : string)
    (cols : list string) (page page_size : Z) : Py mongo (list row) :=
  records_of (Mongo.get_paginated_records table_name page page_size (Some cols)).

End MongoMore.

(* ===================================================================== *)
(** ** [app/routers/tables.py]: bulk delete and single-record lookup *)
(* ===================================================================== *)

Section MoreRoutes.
Context `{JsonCodec} {B : Type} `{Driver B}.

(** [db.bulk_delete_records], for a driver class that has the method. *)
Variable bulk_delete_method : option (string -> list string -> Py B Z).

(** [for record_id in record_ids: if db.delete_record(...): deleted_count += 1] *)
Fixpoint delete_each (table_name : string) (record_ids : list string)
    (deleted_count : Z) : Py B Z :=
  match record_ids with
  | [] => ret deleted_count
  | record_id :: later =>
      ok <- delete_record table_name record_id ;;
      delete_each table_name later (if ok then deleted_count + 1 else deleted_count)
  end.

(** DELETE /{table_name}/records, with the [record_ids] of the body. *)
Definition bulk_delete_records (table_name : string) (record_ids : list string)
    (cookie : option string) : Py (world B) write_response :=
  require_session cookie (fun session_id =>
    try_except
      (match record_ids with
       | [] => ret {| status := 200; success := false;
                      message := "No record IDs provided";
                      created_id := None; deleted_count := Some 0 |}
       | _ :: _ =>
           deleted <- get_db_connection session_id
                        (match bulk_delete_method with
                         | Some method => method table_name record_ids
                         | None => delete_each table_name record_ids 0
                         end) ;;
           (if 0 <? deleted
            then in_cache (invalidate_table_cache session_id table_name) ;;; ret tt
            else ret tt) ;;;
           ret {| status := 200; success := true;
                  message := "Successfully deleted " +:+ pretty deleted +:+ " record(s)";
                  created_id := None; deleted_count := Some deleted |}
       end)
      (fun e =>
         ret {| status := 200; success := false;
                message := "Error deleting records: " +:+ exn_str e;
                created_id := None; deleted_count := Some 0 |})).

End MoreRoutes.

(** GET /{table_name}/records/{record_id}.  Like the selected-columns
    route it sends its own statement in MySQL syntax, after asking the
    driver for the key column. *)
Section SingleRecordRoute.
Context `{JsonCodec} `{Driver session}.

(** [db._get_primary_key_or_first_column], of the session's driver class. *)
Variable key_of_table : string -> Py session string.

Definition get_single_record (table_name record_id : string)
    (cookie : option string) : Py (world session) (row * string * string) :=
  require_session cookie (fun session_id =>
    try_except
      (get_db_connection session_id
         (primary_key <- key_of_table table_name ;;
          r <- execute MySQLDialect
                 (SelectWhere table_name primary_key (PyStr record_id)) ;;
          close_after_fetchone r ;;;
          match head (fetched r) with
          | Some (c :: cs) => ret (c :: cs, table_name, record_id)
          | _ => raise (HTTPException 404 "Record not found")
          end))
      (fun e => raise (HTTPException 500
                         ("Error retrieving record: " +:+ exn_str e)))).

End SingleRecordRoute.

(* ===================================================================== *)
(** ** Notions for sessions, pages and lookups *)
(* ===================================================================== *)

(** The text that [set_cache] sends to the server for [value]. *)
Definition cache_text `{JsonCodec} (value : pyval) : string :=
  match value with
  | PyDict _ | PyList _ => json_dumps value
  | _ => py_str value
  end.

(** The keys of one session: its connection entry and everything under
    its prefix. *)
Definition session_owns (session_id key : string) : bool :=
  String.eqb (connection_key session_id) key
  || String.prefix (session_id +:+ ":") key.

(** [m] leaves the documents of every collection as they were. *)
Definition keeps_documents {A} (m : Py mongo A) : Prop :=
  forall st r st', m st = (r, st') -> collections st' = collections st.

(** [m] leaves the data on the server as it was. *)
Definition keeps_data {A} (m : Py session A) : Prop :=
  forall st r st', m st = (r, st') -> srv st' = srv st.

(** The statements that change no data. *)
Definition reads_only (q : sql) : bool :=
  match q with
  | UpdateSet _ _ _ _ _ | InsertInto _ _ _ | DeleteWhere _ _ _ => false
  | _ => true
  end.

(** The rows of page [page] when each page holds [page_size] rows. *)
Definition page_rows (page page_size : Z) (rs : list row) : list row :=
  take (Z.to_nat page_size) (drop (Z.to_nat ((page - 1) * page_size)) rs).

(** The rows a lookup by key selects. *)
Definition rows_with (key id : string) (rs : list row) : list row :=
  filter (fun r => sql_eq (cell r key) (PyStr id) = true) rs.

(** A cache that answers every command and holds the connection entry of
    [session_id], with the five parameters [get_db_connection] reads. *)
Definition session_known `{JsonCodec} (session_id : string) (info : row)
    (c : redis) : Prop :=
  outages c = []
  /\ (exists payload, store c !! connection_key session_id = Some payload
                      /\ payload <> EmptyString
                      /\ json_loads payload = Ok (PyDict info))
  /\ (forall key, key ∈ ["server"; "database"; "user"; "password"; "port"]
                  -> is_Some (dict_get info key)).

(** The driver object once connected, and once closed. *)
Definition opened (b : session) : session :=
  {| conn := true; reachable := reachable b; srv := srv b;
     faults := faults b; log := log b; unread := false |}.

Definition closed (b : session) : session :=
  {| conn := false; reachable := reachable b; srv := srv b;
     faults := faults b; log := log b; unread := false |}.

(** The parameters of [demo_connection_info]. *)
Definition demo_parameters : row :=
  [("server", PyStr "db.local"); ("database", PyStr "shop");
   ("user", PyStr "app"); ("password", PyStr "secret");
   ("port", PyInt 3306); ("db_type", PyStr "mysql")].

(** The value a call returned, or [d] when it raised. *)
Definition value_or {A} (d : A) (o : outcome A) : A :=
  match o with
  | Ok a => a
  | Raise _ => d
  end.

(** The columns the drivers select for a request: the requested names that
    the table has, or all of them when none was asked for or none is
    left. *)
Definition chosen_columns (tb : table) (cols : option (list string))
  : option (list string) :=
  match cols with
  | Some cs =>
      match filter (fun c => c ∈ columns tb) cs with
      | [] => None
      | c :: valid => Some (c :: valid)
      end
  | None => None
  end.

(** A collection with an ObjectId key and a string key that reads like
    one, and an empty collection. *)
Definition demo_notes : list document :=
  [ {| _id := ObjectId "65a1b2c3d4e5f60718293a4b";
       fields := [("title", PyStr "one"); ("stars", PyInt 5)] |};
    {| _id := RawId "0123456789abcdef01234567";
       fields := [("title", PyStr "two");
                  ("meta", PyDict [("lang", PyStr "en")])] |} ].

Definition demo_collections : gmap string (list document) :=
  <["notes" := demo_notes]> (<["drafts" := []]> ∅).

(** A value that is no nested document. *)
Definition is_flat (v : pyval) : bool :=
  match v with
  | PyDict _ => false
  | _ => true
  end.

Local Open Scope py_scope.
(* ===================================================================== *)
(** ** Strings and glob patterns *)
(* ===================================================================== *)

Lemma append_nil (b : string) : "" +:+ b = b.
Proof. reflexivity. Qed.

Lemma append_cons (x : ascii) (a b : string) :
  String x a +:+ b = String x (a +:+ b).
Proof. reflexivity. Qed.

Lemma append_assoc (a b c : string) : (a +:+ b) +:+ c = a +:+ (b +:+ c).
Proof.
  induction a as [|x a IH]; [reflexivity|].
  rewrite !append_cons. by f_equal.
Qed.

Lemma star_matches_all (s : string) : glob_match [GStar] s = true.
Proof.
  induction s as [|c s IH]; [reflexivity|].
  simpl in *. exact IH.
Qed.

Lemma glob_lex_literal (p tail : string) :
  glob_literal p = true ->
  glob_lex LNormal (p +:+ tail)
  = ((GLit <$> list_ascii_of_string p) ++ glob_lex LNormal tail)%list.
Proof.
  induction p as [|c p IH]; intros Hlit; [reflexivity|].
  rewrite append_cons.
  simpl in Hlit. apply andb_prop in Hlit as [Hc Hp].
  unfold glob_special in Hc. apply negb_true_iff in Hc.
  apply orb_false_elim in Hc as [Hc Hbs].
  apply orb_false_elim in Hc as [Hc Hbr].
  apply orb_false_elim in Hc as [Hst Hqu].
  simpl. rewrite Hst, Hqu, Hbr, Hbs. by rewrite IH.
Qed.

Lemma glob_match_literal_prefix (p k : string) :
  glob_match ((GLit <$> list_ascii_of_string p) ++ [GStar])%list k = String.prefix p k.
Proof.
  revert k. induction p as [|c p IH]; intros k.
  - simpl. rewrite star_matches_all. by destruct k.
  - destruct k as [|c' k]; [reflexivity|].
    simpl. destruct (ascii_dec c c') as [->|Hne].
    + rewrite Ascii.eqb_refl. simpl. apply IH.
    + apply Ascii.eqb_neq in Hne. by rewrite Hne.
Qed.

(** A pattern made of a literal prefix and a final star selects exactly
    the keys that start with the prefix. *)
Lemma stringmatch_prefix_star (p k : string) :
  glob_literal p = true ->
  stringmatch (p +:+ "*") k = String.prefix p k.
Proof.
  intros Hlit. unfold stringmatch.
  rewrite glob_lex_literal by done. apply glob_match_literal_prefix.
Qed.

Lemma glob_literal_app (a b : string) :
  glob_literal (a +:+ b) = glob_literal a && glob_literal b.
Proof.
  induction a as [|c a IH]; [reflexivity|].
  rewrite append_cons. simpl. rewrite IH. by rewrite andb_assoc.
Qed.

Lemma table_prefix_literal (session_id table_name : string) :
  glob_literal session_id = true -> glob_literal table_name = true ->
  glob_literal (table_prefix session_id table_name) = true.
Proof.
  intros Hs Ht. unfold table_prefix.
  rewrite !glob_literal_app, Hs, Ht. reflexivity.
Qed.

Lemma first_pattern_is_prefix_star (session_id table_name : string) :
  session_id +:+ ":table:" +:+ table_name +:+ ":*"
  = table_prefix session_id table_name +:+ "*".
Proof.
  unfold table_prefix. by rewrite !append_assoc.
Qed.

(* ===================================================================== *)
(** ** The Redis commands *)
(* ===================================================================== *)

Lemma command_healthy {A} (f : gmap string string -> A * gmap string string) m :
  command f {| store := m; outages := [] |}
  = (Ok (f m).1, {| store := (f m).2; outages := [] |}).
Proof. unfold command. simpl. by destruct (f m). Qed.

Lemma command_outage {A} (f : gmap string string -> A * gmap string string) m later :
  command f {| store := m; outages := true :: later |}
  = (Raise RedisError, {| store := m; outages := later |}).
Proof. reflexivity. Qed.

Lemma delete_all_lookup (keys : list string) (m : gmap string string) k :
  delete_all keys m !! k = if bool_decide (k ∈ keys) then None else m !! k.
Proof.
  induction keys as [|x keys IH]; simpl; [reflexivity|].
  destruct (decide (x = k)) as [->|Hne].
  - rewrite lookup_delete_eq. rewrite bool_decide_eq_true_2; [done|]. by left.
  - rewrite lookup_delete_ne by done. rewrite IH.
    destruct (bool_decide (k ∈ keys)) eqn:E.
    + apply bool_decide_eq_true in E. rewrite bool_decide_eq_true_2; [done|]. by right.
    + apply bool_decide_eq_false in E. rewrite bool_decide_eq_false_2; [done|].
      intros [->|?]%elem_of_cons; done.
Qed.

Lemma matching_keys_elem (pattern : string) (m : gmap string string) k :
  k ∈ filter (fun k => stringmatch pattern k = true) (fst <$> map_to_list m)
  <-> stringmatch pattern k = true /\ is_Some (m !! k).
Proof.
  rewrite list_elem_of_filter, list_elem_of_fmap. split.
  - intros [Hm [[k' v] [-> Hin]]]. split; [done|].
    apply elem_of_map_to_list in Hin. by exists v.
  - intros [Hm [v Hv]]. split; [done|]. exists (k, v). split; [done|].
    by apply elem_of_map_to_list.
Qed.

Lemma bind_ok {S A B} (m : Py S A) (k : A -> Py S B) s a s' :
  m s = (Ok a, s') -> bind m k s = k a s'.
Proof. intros E. unfold bind. by rewrite E. Qed.

Lemma bind_raise {S A B} (m : Py S A) (k : A -> Py S B) s e s' :
  m s = (Raise e, s') -> bind m k s = (Raise e, s').
Proof. intros E. unfold bind. by rewrite E. Qed.

Lemma redis_keys_healthy pattern m :
  redis_keys pattern {| store := m; outages := [] |}
  = (Ok (filter (fun k => stringmatch pattern k = true) (fst <$> map_to_list m)),
     {| store := m; outages := [] |}).
Proof. unfold redis_keys. by rewrite command_healthy. Qed.

Lemma redis_delete_healthy keys m :
  exists n, redis_delete keys {| store := m; outages := [] |}
            = (Ok n, {| store := delete_all keys m; outages := [] |}).
Proof. unfold redis_delete. rewrite command_healthy. simpl. eauto. Qed.

Lemma redis_get_healthy key m :
  redis_get key {| store := m; outages := [] |}
  = (Ok (m !! key), {| store := m; outages := [] |}).
Proof. unfold redis_get. by rewrite command_healthy. Qed.

(** On a healthy server the loop of [invalidate_table_cache] ends with
    every key gone that one of the patterns selects. *)
Lemma clear_patterns_healthy (patterns : list string) :
  forall total m,
  exists n m',
    clear_patterns patterns total {| store := m; outages := [] |}
    = (Ok n, {| store := m'; outages := [] |})
    /\ forall k, (m !! k = None
                  \/ exists p, p ∈ patterns /\ stringmatch p k = true)
                 -> m' !! k = None.
Proof.
  induction patterns as [|p ps IH]; intros total m.
  - exists total, m. split; [reflexivity|].
    intros k [Hk|[p [Hp _]]]; [done|]. by apply elem_of_nil in Hp.
  - simpl. rewrite (bind_ok _ _ _ _ _ (redis_keys_healthy p m)).
    destruct (filter _ _) as [|k0 keys] eqn:Ekeys.
    + destruct (IH total m) as (n & m' & Hrun & Hgone).
      exists n, m'. split; [exact Hrun|].
      intros k [Hk|[p' [Hp' Hm]]]; [by apply Hgone; left|].
      apply elem_of_cons in Hp' as [->|Hp'].
      * apply Hgone. left.
        destruct (m !! k) eqn:Elook; [|done].
        assert (k ∈ filter (fun k => stringmatch p k = true) (fst <$> map_to_list m))
          as Hin by (apply matching_keys_elem; eauto).
        rewrite Ekeys in Hin. by apply elem_of_nil in Hin.
      * apply Hgone. right. eauto.
    + destruct (redis_delete_healthy (k0 :: keys) m) as [deleted Hdel].
      rewrite (bind_ok _ _ _ _ _ Hdel).
      destruct (IH (total + deleted) (delete_all (k0 :: keys) m))
        as (n & m' & Hrun & Hgone).
      exists n, m'. split; [exact Hrun|].
      intros k Hk. apply Hgone.
      destruct (decide (k ∈ k0 :: keys)) as [Hin|Hnin].
      { left. rewrite delete_all_lookup. by rewrite bool_decide_eq_true_2. }
      destruct Hk as [Hk|[p' [Hp' Hm]]].
      * left. rewrite delete_all_lookup. by rewrite bool_decide_eq_false_2.
      * apply elem_of_cons in Hp' as [->|Hp'].
        -- left. rewrite delete_all_lookup, bool_decide_eq_false_2 by done.
           destruct (m !! k) eqn:Elook; [|done].
           exfalso. apply Hnin. rewrite <- Ekeys.
           apply matching_keys_elem. eauto.
        -- right. eauto.
Qed.

Section CacheFacts.
Context `{JsonCodec}.

Lemma get_cache_never_raises key r :
  exists v r', get_cache key r = (Ok v, r').
Proof.
  unfold get_cache, try_except, bind, lift.
  destruct (redis_get key r) as [[[payload|]|e] r1]; simpl; eauto.
  destruct (negb _); [|simpl; eauto].
  destruct (json_loads payload) as [v|e]; simpl; eauto.
  destruct e; simpl; eauto.
  destruct (redis_delete [key] r1) as [[n|e] r2]; simpl; eauto.
Qed.


Lemma get_cache_healthy key m :
  exists v m', get_cache key {| store := m; outages := [] |}
               = (Ok v, {| store := m'; outages := [] |}).
Proof.
  unfold get_cache, try_except.
  rewrite (bind_ok _ _ _ _ _ (redis_get_healthy key m)).
  destruct (m !! key) as [payload|]; [|unfold ret; eauto].
  destruct (negb _); [|unfold ret; eauto].
  unfold lift.
  destruct (json_loads payload) as [v|e]; [eauto|].
  destruct e; unfold raise, ret; eauto.
Qed.

Lemma invalidate_never_raises session_id table_name r :
  exists n r', invalidate_table_cache session_id table_name r = (Ok n, r').
Proof.
  unfold invalidate_table_cache, try_except.
  destruct (clear_patterns _ _ r) as [[n|e] r']; unfold ret; eauto.
Qed.

Lemma invalidate_outage session_id table_name m later :
  invalidate_table_cache session_id table_name
    {| store := m; outages := true :: later |}
  = (Ok 0, {| store := m; outages := later |}).
Proof. reflexivity. Qed.

(** On a healthy server, with names free of pattern characters, nothing
    under the table's prefix survives [invalidate_table_cache]. *)
Lemma invalidate_healthy session_id table_name m :
  glob_literal session_id = true -> glob_literal table_name = true ->
  exists n m',
    invalidate_table_cache session_id table_name {| store := m; outages := [] |}
    = (Ok n, {| store := m'; outages := [] |})
    /\ forall k, String.prefix (table_prefix session_id table_name) k = true
                 -> m' !! k = None.
Proof.
  intros Hs Ht. unfold invalidate_table_cache, try_except.
  destruct (clear_patterns_healthy (invalidation_patterns session_id table_name) 0 m)
    as (n & m' & Hrun & Hgone).
  rewrite Hrun. exists n, m'. split; [reflexivity|].
  intros k Hk. apply Hgone. right.
  exists (table_prefix session_id table_name +:+ "*"). split.
  - unfold invalidation_patterns. rewrite first_pattern_is_prefix_star. by left.
  - rewrite stringmatch_prefix_star; [done|]. by apply table_prefix_literal.
Qed.

End CacheFacts.
(* ===================================================================== *)
(** ** Equations of the statement monad *)
(* ===================================================================== *)

Lemma try_except_ok {S A} (m : Py S A) (h : exn -> Py S A) s a s' :
  m s = (Ok a, s') -> try_except m h s = (Ok a, s').
Proof. intros E. unfold try_except. by rewrite E. Qed.

Lemma try_except_raise {S A} (m : Py S A) (h : exn -> Py S A) s e s' :
  m s = (Raise e, s') -> try_except m h s = h e s'.
Proof. intros E. unfold try_except. by rewrite E. Qed.

Lemma bind_ok_ret {S A C} (m : Py S A) (f : A -> C) s a s' :
  m s = (Ok a, s') -> bind m (fun x => ret (f x)) s = (Ok (f a), s').
Proof. intros E. unfold bind. by rewrite E. Qed.

Lemma bind_ret {S A C} (a : A) (k : A -> Py S C) s : bind (ret a) k s = k a s.
Proof. reflexivity. Qed.


(* ===================================================================== *)
(** ** Invalidation under faults *)
(* ===================================================================== *)

(** A command either raises and leaves the store alone, or answers. *)
Lemma command_cases {A} (f : gmap string string -> A * gmap string string) r res r' :
  command f r = (res, r') ->
  (res = Raise RedisError /\ store r' = store r)
  \/ (res = Ok (f (store r)).1 /\ store r' = (f (store r)).2).
Proof.
  unfold command. destruct r as [m [|[] o]]; simpl;
    try destruct (f m) as [a m'] eqn:Ef; intros E; simplify_eq; simpl; auto.
Qed.

Lemma clear_patterns_only_deletes (patterns : list string) :
  forall total r res r',
    clear_patterns patterns total r = (res, r') ->
    forall k, store r !! k = None -> store r' !! k = None.
Proof.
  induction patterns as [|p ps IH]; intros total r res r' E k Hk.
  - unfold clear_patterns, ret in E. by simplify_eq.
  - simpl in E. unfold bind in E.
    destruct (redis_keys p r) as [[keys|e] r1] eqn:Ekeys.
    + apply command_cases in Ekeys as [[? _]|[_ Hs1]]; [done|]. cbn [snd] in Hs1.
      destruct keys as [|k0 keys].
      * eapply IH; [exact E|]. by rewrite Hs1.
      * destruct (redis_delete (k0 :: keys) r1) as [[n|e] r2] eqn:Edel.
        -- apply command_cases in Edel as [[? _]|[_ Hs2]]; [done|]. cbn [snd] in Hs2.
           eapply IH; [exact E|]. rewrite Hs2, delete_all_lookup.
           destruct (bool_decide _); [done|]. by rewrite Hs1.
        -- apply command_cases in Edel as [[_ Hs2]|[? _]]; [|done].
           simplify_eq. by rewrite Hs2, Hs1.
    + apply command_cases in Ekeys as [[_ Hs1]|[? _]]; [|done].
      simplify_eq. by rewrite Hs1.
Qed.

(** When the first pattern selects exactly the keys under [prefix], the
    loop under its handler either leaves the store as it was or leaves
    nothing under [prefix]. *)
Lemma first_pattern_all_or_nothing (p1 prefix : string) (later : list string)
    (total : Z) (r : redis) :
  (forall k, stringmatch p1 k = String.prefix prefix k) ->
  store (try_except (clear_patterns (p1 :: later) total) (fun _ => ret 0) r).2
  = store r
  \/ forall k, String.prefix prefix k = true ->
               store (try_except (clear_patterns (p1 :: later) total)
                                 (fun _ => ret 0) r).2 !! k = None.
Proof.
  intros Hp1.
  destruct (try_except (clear_patterns (p1 :: later) total) (fun _ => ret 0) r)
    as [res rf] eqn:E.
  cbn [snd]. unfold try_except in E. simpl clear_patterns in E.
  unfold bind at 1 in E.
  destruct (redis_keys p1 r) as [[keys|e] r1] eqn:Ekeys.
  - apply command_cases in Ekeys as [[? _]|[Hres Hs1]]; [done|].
    cbn [fst snd] in Hres, Hs1. injection Hres as Hkeys.
    assert (forall k, String.prefix prefix k = true ->
                      k ∉ keys -> store r !! k = None) as Hmiss.
    { intros k Hk Hnin. destruct (store r !! k) eqn:El; [|done].
      exfalso. apply Hnin. rewrite Hkeys. apply matching_keys_elem.
      split; [|eauto]. by rewrite Hp1. }
    destruct keys as [|k0 keys].
    + right. intros k Hk.
      assert (store r1 !! k = None) as Hgone
        by (rewrite Hs1; apply Hmiss; [done|apply not_elem_of_nil]).
      destruct (clear_patterns later total r1) as [[n'|e] r2] eqn:Erest;
        unfold ret in E; simplify_eq;
        (eapply clear_patterns_only_deletes; [exact Erest|exact Hgone]).
    + unfold bind at 1 in E.
      destruct (redis_delete (k0 :: keys) r1) as [[n|e] r2] eqn:Edel.
      * apply command_cases in Edel as [[? _]|[_ Hs2]]; [done|]. cbn [snd] in Hs2.
        right. intros k Hk.
        assert (store r2 !! k = None) as Hgone.
        { rewrite Hs2, delete_all_lookup.
          destruct (bool_decide (k ∈ k0 :: keys)) eqn:Ein; [done|].
          apply bool_decide_eq_false in Ein. rewrite Hs1. by apply Hmiss. }
        destruct (clear_patterns later (total + n) r2) as [[n'|e] r3] eqn:Erest;
          unfold ret in E; simplify_eq;
          (eapply clear_patterns_only_deletes; [exact Erest|exact Hgone]).
      * apply command_cases in Edel as [[_ Hs2]|[? _]]; [|done].
        left. unfold ret in E. simplify_eq. by rewrite Hs2, Hs1.
  - apply command_cases in Ekeys as [[_ Hs1]|[? _]]; [|done].
    left. unfold ret in E. simplify_eq. exact Hs1.
Qed.

(** Whatever the server does, [invalidate_table_cache] either leaves the
    store as it was or leaves nothing under the table's prefix: the first
    pattern covers the whole namespace and DEL removes its keys at once. *)
Lemma invalidate_all_or_nothing `{JsonCodec} session_id table_name r :
  glob_literal session_id = true -> glob_literal table_name = true ->
  store (invalidate_table_cache session_id table_name r).2 = store r
  \/ forall k, String.prefix (table_prefix session_id table_name) k = true ->
               store (invalidate_table_cache session_id table_name r).2 !! k = None.
Proof.
  intros Hs Ht.
  pose proof (table_prefix_literal _ _ Hs Ht) as Hlit.
  unfold invalidate_table_cache, invalidation_patterns.
  rewrite first_pattern_is_prefix_star.
  apply first_pattern_all_or_nothing.
  intros k. by apply stringmatch_prefix_star.
Qed.

(* ===================================================================== *)
(** ** The write routes *)
(* ===================================================================== *)

Section RouteFacts.
Context `{JsonCodec} {B : Type} `{Driver B}.

Lemma keeps_healthy_ret {A} (a : A) : keeps_healthy B (ret a).
Proof. intros w r w' Hh E. unfold ret in E. by simplify_eq. Qed.

Lemma keeps_healthy_raise {A} (e : exn) : keeps_healthy B (@raise _ A e).
Proof. intros w r w' Hh E. unfold raise in E. by simplify_eq. Qed.

Lemma keeps_healthy_bind {A C} (m : Py (world B) A) (k : A -> Py (world B) C) :
  keeps_healthy B m -> (forall a, keeps_healthy B (k a)) -> keeps_healthy B (bind m k).
Proof.
  intros Hm Hk w r w' Hh E. unfold bind in E.
  destruct (m w) as [[a|e] w1] eqn:Em.
  - eapply Hk; [|exact E]. eapply Hm; eauto.
  - simplify_eq. eapply Hm; eauto.
Qed.

Lemma keeps_healthy_try_finally {A} (m : Py (world B) A) (f : Py (world B) unit) :
  keeps_healthy B m -> keeps_healthy B f -> keeps_healthy B (try_finally m f).
Proof.
  intros Hm Hf w r w' Hh E. unfold try_finally in E.
  destruct (m w) as [r1 w1] eqn:Em.
  destruct (f w1) as [[[]|e] w2] eqn:Ef; simplify_eq;
    (eapply Hf; [|exact Ef]; eapply Hm; eauto).
Qed.

Lemma keeps_healthy_in_db {A} (m : Py B A) : keeps_healthy B (in_db m).
Proof.
  intros w r w' Hh E. unfold in_db in E.
  destruct (m (backend w)) as [r1 b]. by simplify_eq.
Qed.

Lemma keeps_healthy_subscript v key : keeps_healthy B (subscript v key).
Proof.
  unfold subscript. destruct v; try apply keeps_healthy_raise.
  destruct (dict_get _ _); [apply keeps_healthy_ret | apply keeps_healthy_raise].
Qed.

Lemma keeps_healthy_get_connection_info session_id :
  keeps_healthy B (in_cache (get_connection_info session_id)).
Proof.
  intros [[m o] b] r w' Hh E. simpl in Hh. subst o.
  unfold in_cache, get_connection_info in E. simpl in E.
  destruct (get_cache_healthy (connection_key session_id) m) as (v & m' & Hget).
  rewrite Hget in E. by simplify_eq.
Qed.

Lemma keeps_healthy_get_db_connection {A} session_id (body : Py B A) :
  keeps_healthy B (get_db_connection session_id body).
Proof.
  unfold get_db_connection.
  apply keeps_healthy_bind; [apply keeps_healthy_get_connection_info|].
  intros info. destruct (negb (truthy info)); [apply keeps_healthy_raise|].
  destruct info; try apply keeps_healthy_raise.
  apply keeps_healthy_try_finally; [|apply keeps_healthy_in_db].
  repeat (apply keeps_healthy_bind; [apply keeps_healthy_subscript|intros _]).
  apply keeps_healthy_bind; [apply keeps_healthy_in_db|].
  intros c. destruct (negb c); [apply keeps_healthy_raise | apply keeps_healthy_in_db].
Qed.

(** The common shape of the three write routes. *)
Lemma write_route_clears {X R} (body : Py B X) (test : X -> bool)
    (on_success : X -> R) (on_failure : R) (on_error : exn -> R)
    (success : R -> bool)
    (session_id table_name : string) (w w' : world B) (resp : R) :
  (forall x, success (on_success x) = true) ->
  success on_failure = false ->
  (forall e, success (on_error e) = false) ->
  glob_literal session_id = true -> glob_literal table_name = true ->
  outages (cache w) = [] ->
  require_session (Some session_id) (fun session_id =>
    try_except
      (x <- get_db_connection session_id body ;;
       if test x then
         in_cache (invalidate_table_cache session_id table_name) ;;;
         ret (on_success x)
       else ret on_failure)
      (fun e => ret (on_error e))) w = (Ok resp, w') ->
  success resp = true ->
  forall k, String.prefix (table_prefix session_id table_name) k = true ->
            store (cache w') !! k = None.
Proof.
  intros Hok Hfail Herr Hs Ht Hh Hrun Hsucc k Hk.
  unfold require_session in Hrun.
  destruct (String.eqb session_id ""); [by unfold raise in Hrun|].
  unfold try_except, bind in Hrun.
  destruct (get_db_connection session_id body w) as [[x|e] w1] eqn:Edb.
  - pose proof (keeps_healthy_get_db_connection _ _ _ _ _ Hh Edb) as Hh1.
    destruct (test x).
    + destruct w1 as [[m1 o1] b1]. simpl in Hh1. subst o1.
      unfold in_cache in Hrun. simpl in Hrun.
      destruct (invalidate_healthy session_id table_name m1 Hs Ht)
        as (n & m' & Hinv & Hgone).
      rewrite Hinv in Hrun. unfold ret in Hrun. simplify_eq. simpl.
      by apply Hgone.
    + unfold ret in Hrun. simplify_eq. congruence.
  - unfold ret in Hrun. simplify_eq. rewrite Herr in Hsucc. done.
Qed.

End RouteFacts.

(* ===================================================================== *)
(** ** Cache coherence on writes (C1) *)
(* ===================================================================== *)

(** C1, as stated, does not hold.  First, the Redis server refuses the KEYS
    command of the invalidation (the second command of the request, after
    the GET of the connection entry): the update still reports success, and
    the cached count of the table is still in the store.  Second, with a
    healthy server and a table named [t[1]], whose brackets KEYS reads as a
    character class: the update reports success and the cached count of
    that table stays. *)
Lemma write_success_with_stale_entry :
  (exists w',
     update_table_record (H := reference_json) "users" "2" "name" (PyStr "rob")
                         (Some "S") (demo_world [false; true])
     = (Ok {| status := 200; success := true;
              message := "Successfully updated record 2";
              created_id := None; deleted_count := None |}, w')
     /\ String.prefix (table_prefix "S" "users") "S:table:users:count" = true
     /\ store (cache w') !! "S:table:users:count" = Some "3")
  /\ (exists w',
       update_table_record (H := reference_json) "t[1]" "2" "name" (PyStr "rob")
                           (Some "S") (demo_world [])
       = (Ok {| status := 200; success := true;
                message := "Successfully updated record 2";
                created_id := None; deleted_count := None |}, w')
       /\ String.prefix (table_prefix "S" "t[1]") "S:table:t[1]:count" = true
       /\ store (cache w') !! "S:table:t[1]:count" = Some "3").
Proof. split; eexists; repeat split; vm_compute; reflexivity. Qed.

(** C1 (amended): when the route that inserts, updates or deletes one
    record reports success, the Redis server has answered every command of
    the request and the session id and table name contain no pattern
    character, then at the moment the route returns no key prefixed by that
    session and table is left in the store.  And whatever the server does,
    the invalidation is never partial: it leaves the store as it was or
    leaves no key under the prefix. *)
Theorem write_success_clears_table_namespace `{JsonCodec} {B : Type} `{Driver B}
    (session_id table_name record_id column : string) (data : row)
    (value : pyval) (w w' : world B) (resp : write_response) :
  glob_literal session_id = true ->
  glob_literal table_name = true ->
  (outages (cache w) = [] ->
   (create_table_record table_name data (Some session_id) w = (Ok resp, w')
    \/ update_table_record table_name record_id column value (Some session_id) w
       = (Ok resp, w')
    \/ delete_single_record table_name record_id (Some session_id) w
       = (Ok resp, w')) ->
   success resp = true ->
   forall k, String.prefix (table_prefix session_id table_name) k = true ->
             store (cache w') !! k = None)
  /\ (forall r,
        store (invalidate_table_cache session_id table_name r).2 = store r
        \/ forall k, String.prefix (table_prefix session_id table_name) k = true ->
                     store (invalidate_table_cache session_id table_name r).2 !! k
                     = None).
Proof.
  intros Hs Ht. split.
  - intros Hh [Hrun|[Hrun|Hrun]] Hsucc.
    + refine (write_route_clears (create_record table_name data) truthy _ _ _
                success session_id table_name w w' resp
                _ _ _ Hs Ht Hh Hrun Hsucc); intros; reflexivity.
    + refine (write_route_clears (update_record table_name record_id column value)
                (fun ok => ok) _ _ _ success session_id table_name w w' resp
                _ _ _ Hs Ht Hh Hrun Hsucc); intros; reflexivity.
    + unfold delete_single_record, require_session in Hrun.
      destruct (String.eqb session_id "") eqn:Esid; [by unfold raise in Hrun|].
      unfold bind at 1 in Hrun.
      match type of Hrun with
      | match ?m w with _ => _ end = _ =>
          destruct (m w) as [[answer|e] w1] eqn:Eroute
      end; [|done].
      assert (w1 = w' /\ match answer with inl b | inr b => success b end = true)
        as [-> Hgood].
      { destruct answer as [body|response]; unfold validated_delete_response in Hrun.
        - destruct (deleted_count body); unfold ret, raise in Hrun; by simplify_eq.
        - unfold ret in Hrun. by simplify_eq. }
      refine (write_route_clears (delete_record table_name record_id)
                (fun ok => ok) _ _ _
                (fun a => match a with inl b | inr b => success b end)
                session_id table_name w w' answer
                _ _ _ Hs Ht Hh _ Hgood).
      4: { unfold require_session. rewrite Esid. exact Eroute. }
      all: intros; reflexivity.
  - intros r. by apply invalidate_all_or_nothing.
Qed.

Lemma write_success_clears_table_namespace_witness :
  exists w',
    update_table_record (H := reference_json) "users" "2" "name" (PyStr "rob")
                        (Some "S") (demo_world [])
    = (Ok {| status := 200; success := true;
             message := "Successfully updated record 2";
             created_id := None; deleted_count := None |}, w')
    /\ store (cache w') !! "S:table:users:count" = None.
Proof.
  eexists. split; [vm_compute; reflexivity|].
  eapply (write_success_clears_table_namespace (H := reference_json)
            "S" "users" "2" "name" [] (PyStr "rob") (demo_world [])).
  - reflexivity.
  - reflexivity.
  - reflexivity.
  - right. left. vm_compute. reflexivity.
  - reflexivity.
  - reflexivity.
Defined.
(* ===================================================================== *)
(** ** Cache-store faults (C5) and corrupted payloads (C8) *)
(* ===================================================================== *)





Section FaultFacts.
Context `{JsonCodec} {B : Type} `{Driver B}.




End FaultFacts.




(** C8, as stated, does not hold for every payload that fails to
    deserialize: an empty payload is taken for a miss before the decoder
    is tried and the key stays; when the server refuses the DEL that
    follows a failed decoding, the corrupted entry stays as well; and so
    does a payload on which the decoder fails with another exception than
    [JSONDecodeError], here an array nested (Z.to_nat 100000) deep. *)
Lemma corrupted_entry_survives :
  (json_loads (JsonCodec := reference_json) "" = Raise JSONDecodeError
   /\ get_cache (H := reference_json) "K"
        {| store := {["K" := ""]}; outages := [] |}
      = (Ok PyNone, {| store := {["K" := ""]}; outages := [] |}))
  /\ (json_loads (JsonCodec := reference_json) "{oops" = Raise JSONDecodeError
      /\ get_cache (H := reference_json) "K"
           {| store := {["K" := "{oops"]}; outages := [false; true] |}
         = (Ok PyNone, {| store := {["K" := "{oops"]}; outages := [] |}))
  /\ (json_loads (JsonCodec := reference_json) (nested (Z.to_nat 100000)) = Raise RecursionError
      /\ get_cache (H := reference_json) "K"
           {| store := {["K" := nested (Z.to_nat 100000)]}; outages := [] |}
         = (Ok PyNone, {| store := {["K" := nested (Z.to_nat 100000)]}; outages := [] |})).
Proof. repeat split; vm_compute; reflexivity. Qed.

(** C8 (amended): for every key whose stored payload is not empty and is
    rejected by the decoder with [JSONDecodeError], [get_cache] answers
    [None] whatever the server does, and when the server answers the two
    commands of the call the key is deleted.  And whatever the payload and
    whatever the server does, [get_cache] raises nothing. *)
Theorem get_cache_self_heals `{JsonCodec} (key payload : string)
    (m : gmap string string) :
  m !! key = Some payload ->
  payload <> "" ->
  json_loads payload = Raise JSONDecodeError ->
  (forall o, (get_cache key {| store := m; outages := o |}).1 = Ok PyNone)
  /\ (forall o, answers 2 o = true ->
        get_cache key {| store := m; outages := o |}
        = (Ok PyNone, {| store := delete key m; outages := drop 2 o |}))
  /\ (forall key' r, exists v r', get_cache key' r = (Ok v, r')).
Proof.
  intros Hlook Hne Hbad.
  apply String.eqb_neq in Hne.
  split; [|split; [|apply get_cache_never_raises]].
  - intros o.
    unfold get_cache, try_except, bind, lift, redis_get, redis_delete, command.
    destruct o as [|[] [|[] o]]; simpl; try reflexivity;
      rewrite Hlook; simpl; rewrite Hne, Hbad; reflexivity.
  - intros o Ho.
    unfold get_cache, try_except, bind, lift, redis_get, redis_delete, command.
    destruct o as [|[] [|[] o]]; try discriminate Ho; simpl;
      rewrite Hlook; simpl; rewrite Hne, Hbad; reflexivity.
Qed.

Lemma get_cache_self_heals_witness :
  get_cache (H := reference_json) "K"
    {| store := {["K" := "{oops"]}; outages := [false; false; true] |}
  = (Ok PyNone, {| store := delete "K" {["K" := "{oops"]}; outages := [true] |}).
Proof.
  apply (get_cache_self_heals (H := reference_json) "K" "{oops" {["K" := "{oops"]}).
  - reflexivity.
  - discriminate.
  - vm_compute. reflexivity.
  - reflexivity.
Defined.

(* ===================================================================== *)
(** ** Column-set keys (C9) *)
(* ===================================================================== *)

Lemma sorted_permutation (cols1 cols2 : list string) :
  cols1 ≡ₚ cols2 -> sorted cols1 = sorted cols2.
Proof.
  intros Hperm. unfold sorted.
  apply (Sorted_unique String.le).
  - apply Sorted_merge_sort; apply _.
  - apply Sorted_merge_sort; apply _.
  - by rewrite !merge_sort_Permutation.
Qed.

(** C9: two requests that list the same columns in different orders are
    given the same column-set key, for every session, table, page and page
    size, whatever function [hash] is. *)
Theorem selected_key_order_independent (hash : list string -> Z)
    (session_id table_name : string) (cols1 cols2 : list string)
    (page page_size : Z) :
  cols1 ≡ₚ cols2 ->
  selected_key hash session_id table_name cols1 page page_size
  = selected_key hash session_id table_name cols2 page page_size.
Proof.
  intros Hperm. unfold selected_key. by rewrite (sorted_permutation _ _ Hperm).
Qed.

Lemma selected_key_order_independent_witness :
  selected_key (fun t => Z.of_nat (length t)) "S" "users" ["name"; "id"; "age"] 1 50
  = selected_key (fun t => Z.of_nat (length t)) "S" "users" ["age"; "name"; "id"] 1 50.
Proof.
  apply selected_key_order_independent.
  change ["name"; "id"; "age"] with (["name"; "id"] ++ ["age"])%list.
  apply Permutation_app_comm.
Defined.
(* ===================================================================== *)
(** ** The ceiling of a quotient that went through a double *)
(* ===================================================================== *)

(** The ceiling of [m / p] is the one integer [c] with
    [(c - 1) * p < m <= c * p]. *)
Lemma ceiling_unique (m p c : Z) :
  0 < p -> (c - 1) * p < m <= c * p -> - ((- m) / p) = c.
Proof.
  intros Hp Hc.
  assert ((- m) / p = - c) as ->; [|lia].
  symmetry. apply (Z.div_unique_pos (- m) p (- c) (c * p - m)); lia.
Qed.

Lemma exact_ceiling_bounds (a b : Z) :
  0 < b -> (- ((- a) / b) - 1) * b < a <= - ((- a) / b) * b.
Proof.
  intros Hb.
  pose proof (Z.mul_div_le (- a) b ltac:(lia)) as Hlo.
  pose proof (Z.mul_succ_div_gt (- a) b ltac:(lia)) as Hhi.
  nia.
Qed.

(** The exponent that [floor_log2_quotient] finds is within one of the
    difference of the logarithms, and [2 ^ f] does not exceed [a / b]. *)
Lemma floor_log2_quotient_spec (a b : Z) :
  0 < a < 2 ^ 53 -> 0 < b < 2 ^ 53 ->
  let f := floor_log2_quotient a b in
  -53 <= f <= 52 /\ 2 ^ 52 * b <= a * 2 ^ (52 - f).
Proof.
  intros Ha Hb f.
  pose proof (Z.log2_spec a ltac:(lia)) as Hla.
  pose proof (Z.log2_spec b ltac:(lia)) as Hlb.
  pose proof (Z.log2_nonneg a) as Hla0.
  pose proof (Z.log2_nonneg b) as Hlb0.
  assert (Z.log2 a < 53) as Hla53 by (apply Z.log2_lt_pow2; lia).
  assert (Z.log2 b < 53) as Hlb53 by (apply Z.log2_lt_pow2; lia).
  rewrite <- Z.add_1_r in Hla, Hlb.
  set (la := Z.log2 a) in *. set (lb := Z.log2 b) in *.
  assert (b * 2 ^ Z.max 0 f <= a * 2 ^ Z.max 0 (- f) /\ (f = la - lb \/ f = la - lb - 1))
    as [Hf Hk].
  { subst f. unfold floor_log2_quotient. fold la lb.
    destruct (Z.leb_spec (b * 2 ^ Z.max 0 (la - lb)) (a * 2 ^ Z.max 0 (- (la - lb))))
      as [Hle|Hgt]; [split; [exact Hle|by left]|].
    split; [|by right].
    destruct (Z_le_gt_dec 1 (la - lb)) as [Hk|Hk].
    - rewrite (Z.max_r 0 (la - lb - 1)), (Z.max_l 0 (- (la - lb - 1))) by lia.
      rewrite Z.pow_0_r, Z.mul_1_r.
      assert (2 ^ (lb + 1) * 2 ^ (la - lb - 1) = 2 ^ la) as Hpow.
      { rewrite <- Z.pow_add_r by lia. f_equal. lia. }
      assert (0 < 2 ^ (la - lb - 1)) by (apply Z.pow_pos_nonneg; lia).
      nia.
    - rewrite (Z.max_l 0 (la - lb - 1)), (Z.max_r 0 (- (la - lb - 1))) by lia.
      rewrite Z.pow_0_r, Z.mul_1_r.
      assert (2 ^ la * 2 ^ (- (la - lb - 1)) = 2 ^ (lb + 1)) as Hpow.
      { rewrite <- Z.pow_add_r by lia. f_equal. lia. }
      assert (0 < 2 ^ (- (la - lb - 1))) by (apply Z.pow_pos_nonneg; lia).
      nia. }
  split; [lia|].
  destruct (Z_le_gt_dec 0 f) as [Hf0|Hf0].
  - rewrite (Z.max_r 0 f), (Z.max_l 0 (- f)), Z.pow_0_r, Z.mul_1_r in Hf by lia.
    assert (2 ^ f * 2 ^ (52 - f) = 2 ^ 52) as Hpow.
    { rewrite <- Z.pow_add_r by lia. f_equal. lia. }
    assert (0 < 2 ^ (52 - f)) by (apply Z.pow_pos_nonneg; lia).
    nia.
  - rewrite (Z.max_l 0 f), (Z.max_r 0 (- f)), Z.pow_0_r, Z.mul_1_r in Hf by lia.
    assert (2 ^ (- f) * 2 ^ 52 = 2 ^ (52 - f)) as Hpow.
    { rewrite <- Z.pow_add_r by lia. f_equal. lia. }
    nia.
Qed.

(** Below 2^53 the double keeps enough of the quotient: its ceiling is the
    ceiling of the exact quotient. *)
Lemma ceil_quotient_exact (a b : Z) :
  0 <= a < 2 ^ 53 -> 1 <= b < 2 ^ 53 -> ceil_quotient a b = - ((- a) / b).
Proof.
  intros Ha Hb. unfold ceil_quotient.
  destruct (Z.eqb_spec a 0) as [->|Ha0]; [by rewrite Z.div_0_l by lia|].
  rewrite (Z.abs_eq a), (Z.abs_eq b) by lia.
  rewrite (Z.sgn_pos a), (Z.sgn_pos b) by lia. cbn [Z.eqb Pos.eqb].
  unfold nearest_double.
  destruct (floor_log2_quotient_spec a b ltac:(lia) ltac:(lia)) as [Hf Hscale].
  set (f := floor_log2_quotient a b) in *.
  rewrite (Z.max_l (f - 52) (-1074)) by lia.
  rewrite (Z.max_r 0 (- (f - 52))), (Z.max_l 0 (f - 52)) by lia.
  replace (- (f - 52)) with (52 - f) by lia.
  rewrite Z.pow_0_r, Z.mul_1_r.
  set (p := 2 ^ (52 - f)) in *.
  assert (0 < p) as Hp by (apply Z.pow_pos_nonneg; lia).
  pose proof (Z.div_mod (a * p) b ltac:(lia)) as Hdiv.
  pose proof (Z.mod_pos_bound (a * p) b ltac:(lia)) as Hmod.
  set (q := a * p / b) in *. set (r := (a * p) mod b) in *.
  pose proof (exact_ceiling_bounds a b ltac:(lia)) as Hc.
  set (c := - ((- a) / b)) in *.
  assert (2 ^ 52 <= q) as Hq by nia.
  assert ((c - 1) * p <= q <= c * p) as Hqc by nia.
  set (m := if 2 * r <? b then q
            else if b <? 2 * r then q + 1 else if Z.even q then q else q + 1).
  assert (q <= m <= q + 1) as Hm.
  { subst m. destruct (2 * r <? b), (b <? 2 * r), (Z.even q); lia. }
  assert ((c - 1) * p < m <= c * p) as Hmc.
  { split.
    - destruct (Z.eq_dec q ((c - 1) * p)) as [Heq|Hne]; [|lia].
      assert (b < 2 * p) as Hbp by nia.
      assert (p <= r) as Hr by nia.
      subst m.
      destruct (Z.ltb_spec (2 * r) b); [lia|].
      destruct (Z.ltb_spec b (2 * r)); lia.
    - destruct (Z.eq_dec q (c * p)) as [Heq|Hne]; [|lia].
      assert (r = 0) as Hr by nia.
      subst m. destruct (Z.ltb_spec (2 * r) b); lia. }
  destruct (Z.leb_spec 0 (f - 52)) as [He|He].
  - assert (f = 52) as Hf52 by lia.
    assert (p = 1) as Hp1 by (subst p; rewrite Hf52; reflexivity).
    replace (f - 52) with 0 by lia. rewrite Z.pow_0_r. lia.
  - replace (- (f - 52)) with (52 - f) by lia. fold p.
    by apply ceiling_unique.
Qed.
(* ===================================================================== *)
(** ** Statements on a healthy connection *)
(* ===================================================================== *)

Lemma execute_online d q rc s l :
  execute d q (online rc s l)
  = ((exec d q s).1, online rc (exec d q s).2 (l ++ [(q, false)])).
Proof. unfold execute, online. simpl. destruct d; by destruct (exec _ q s). Qed.

Lemma bind_execute_online {A} d q (k : result -> Py session A) rc s l :
  bind (execute d q) k (online rc s l)
  = match (exec d q s).1 with
    | Ok r => k r (online rc (exec d q s).2 (l ++ [(q, false)]))
    | Raise e => (Raise e, online rc (exec d q s).2 (l ++ [(q, false)]))
    end.
Proof. unfold bind. rewrite execute_online. by destruct (exec d q s).1. Qed.

(** Unfolds the server's answer to the statement at hand. *)
Ltac answer := unfold exec; cbn [unbound_markers]; cbv beta iota; unfold with_table.

Lemma bind_self_conn_online {A} (k : bool -> Py session A) rc s l :
  bind self_conn k (online rc s l) = k true (online rc s l).
Proof. reflexivity. Qed.

Lemma bind_bind {S A C D} (m : Py S A) (k : A -> Py S C) (k' : C -> Py S D) s :
  bind (bind m k) k' s = bind m (fun a => bind (k a) k') s.
Proof. unfold bind. by destruct (m s) as [[a|e] s1]. Qed.

Lemma mysql_validate_present t tb rc s l :
  tables s !! t = Some tb ->
  MySQL._validate_table_exists t (online rc s l)
  = (Ok true, online rc s (l ++ [(TableExists t, false)])).
Proof.
  intros Ht. unfold MySQL._validate_table_exists, MySQL.run.
  rewrite bind_execute_online. answer. simpl. by rewrite Ht.
Qed.

Lemma mysql_validate_missing t rc s l :
  tables s !! t = None ->
  MySQL._validate_table_exists t (online rc s l)
  = (Raise (ValueError ("Table '" +:+ t +:+ "' not found")),
     online rc s (l ++ [(TableExists t, false)])).
Proof.
  intros Ht. unfold MySQL._validate_table_exists, MySQL.run.
  rewrite bind_execute_online. answer. simpl. by rewrite Ht.
Qed.

Lemma mysql_validate_column t tb col rc s l :
  tables s !! t = Some tb -> col ∈ columns tb ->
  MySQL._validate_columns t [col] (online rc s l)
  = (Ok [col], online rc s (l ++ [(ColumnExists t col, false)])).
Proof.
  intros Ht Hc. unfold MySQL._validate_columns, MySQL.validate_columns_loop, MySQL.run.
  rewrite bind_execute_online. answer. simpl. rewrite Ht.
  by rewrite bool_decide_eq_true_2.
Qed.

(** The key column the MySQL driver discovers is [key_column], when the
    look-up can close its cursor. *)
Lemma mysql_key_column t tb rc s l :
  tables s !! t = Some tb ->
  key_found tb = true ->
  exists l', MySQL._get_primary_key_or_first_column t (online rc s l)
             = (Ok (key_column tb "id"), online rc s l').
Proof.
  intros Ht Hfound.
  unfold MySQL._get_primary_key_or_first_column, MySQL.run, try_except.
  rewrite bind_execute_online. answer. rewrite Ht.
  unfold key_column, key_found in *.
  destruct (primary_key tb) as [k|]; simpl; [eauto|].
  rewrite bind_execute_online. answer. rewrite Ht. simpl.
  destruct (columns tb) as [|c [|c' cs]]; simpl; [eauto|eauto|done].
Qed.

(** On a table without primary key and with two columns or more, the
    look-up answers ["id"] and leaves its result unread. *)
Lemma mysql_key_column_unread t tb rc s l :
  tables s !! t = Some tb ->
  key_found tb = false ->
  MySQL._get_primary_key_or_first_column t (online rc s l)
  = (Ok "id", with_unread (online rc s (l ++ [(PrimaryKeyOf t, false);
                                           (ShowColumns t, false)]))).
Proof.
  intros Ht Hfound.
  unfold MySQL._get_primary_key_or_first_column, MySQL.run, try_except.
  rewrite bind_execute_online. answer. rewrite Ht.
  unfold key_found in Hfound.
  destruct (primary_key tb) as [k|]; [done|]. simpl.
  rewrite bind_execute_online. answer. rewrite Ht. simpl.
  destruct (columns tb) as [|c [|c' cs]]; [done|done|]. simpl.
  unfold with_unread, online. simpl. by rewrite <- app_assoc.
Qed.

(** A statement cannot be run while a result is unread. *)
Lemma mysql_run_unread {A} q (k : result -> Py session A) st :
  conn st = true ->
  bind (execute MySQLDialect q) k (with_unread st)
  = (Raise unread_result, with_unread st).
Proof.
  intros Hc. unfold bind, execute, with_unread. simpl. by rewrite Hc.
Qed.

(** The look-ups of the SQL Server driver that carry [?] markers never
    answer. *)
Lemma mssql_validate_online t rc s l :
  MSSQL._validate_table_exists t (online rc s l)
  = (Raise incorrect_syntax, online rc s (l ++ [(TableExists t, false)])).
Proof.
  unfold MSSQL._validate_table_exists, MSSQL.run.
  by rewrite bind_execute_online.
Qed.

Lemma mssql_validate_never_returns t st b st' :
  MSSQL._validate_table_exists t st = (Ok b, st') -> False.
Proof.
  unfold MSSQL._validate_table_exists, MSSQL.run, bind, execute.
  destruct (conn st); [|done].
  destruct (faults st) as [|[] later]; simpl; done.
Qed.

(** What the validation of the SQL Server driver leaves in the log. *)
Lemma mssql_validate_log t st r st' :
  MSSQL._validate_table_exists t st = (r, st') ->
  log st' = log st \/ exists faulted, log st' = (log st ++ [(TableExists t, faulted)])%list.
Proof.
  unfold MSSQL._validate_table_exists, MSSQL.run, bind, execute.
  destruct (conn st); simpl; [|intros E; simplify_eq; by left].
  destruct (faults st) as [|[] later]; simpl; intros E; simplify_eq; simpl; eauto.
Qed.

Lemma mssql_key_column t tb rc s l :
  tables s !! t = Some tb ->
  exists l', MSSQL._get_primary_key_or_first_column t (online rc s l)
             = (Ok (key_column tb "ID"), online rc s l').
Proof.
  intros Ht. unfold MSSQL._get_primary_key_or_first_column, MSSQL.run, try_except.
  rewrite bind_execute_online. answer. rewrite Ht. unfold key_column.
  destruct (primary_key tb) as [k|]; simpl; [eauto|].
  rewrite bind_execute_online. answer. rewrite Ht. simpl.
  destruct (columns tb) as [|c cs]; simpl; eauto.
Qed.

(** Record count and pagination of the SQL Server driver end at the
    validation, whatever the state of the driver and of the server. *)
Lemma mssql_guarded_read_defaults {A} t (rest : Py session A) (x : A) st :
  exists st',
    try_except (c <- self_conn ;;
                if negb c then ret x
                else (MSSQL._validate_table_exists t ;;; rest))
               (fun _ => ret x) st = (Ok x, st')
    /\ srv st' = srv st
    /\ (log st' = log st
        \/ exists faulted, log st' = (log st ++ [(TableExists t, faulted)])%list).
Proof.
  unfold try_except, bind at 1, self_conn.
  destruct (conn st) eqn:Hc; simpl; [|unfold ret; eauto].
  unfold bind.
  destruct (MSSQL._validate_table_exists t st) as [[b|e] st1] eqn:Ev.
  - by apply mssql_validate_never_returns in Ev.
  - exists st1. split; [reflexivity|].
    split; [|by apply mssql_validate_log in Ev].
    revert Ev. unfold MSSQL._validate_table_exists, MSSQL.run, bind, execute.
    rewrite Hc. simpl.
    destruct (faults st) as [|[] later]; simpl; intros E; by simplify_eq.
Qed.

Lemma collection_listed (cs : gmap string (list document)) t docs :
  cs !! t = Some docs -> t ∈ (fst <$> map_to_list cs).
Proof.
  intros Ht. apply list_elem_of_fmap. exists (t, docs). split; [done|].
  by apply elem_of_map_to_list.
Qed.

(* --------------------------------------------------------------------- *)
(** *** Pages of the MySQL driver *)
(* --------------------------------------------------------------------- *)

Lemma mysql_columns_loop_online t tb cols :
  forall acc rc s l,
    tables s !! t = Some tb ->
    exists l',
      MySQL.validate_columns_loop t cols acc (online rc s l)
      = (Ok (acc ++ filter (fun c => c ∈ columns tb) cols)%list, online rc s l').
Proof.
  induction cols as [|c cols IH]; intros acc rc s l Ht.
  - exists l. simpl. unfold ret. by rewrite app_nil_r.
  - simpl. unfold MySQL.run. rewrite bind_execute_online. answer. simpl. rewrite Ht.
    rewrite filter_cons. destruct (decide (c ∈ columns tb)) as [Hin|Hnin].
    + rewrite bool_decide_eq_true_2 by done. simpl.
      destruct (IH (acc ++ [c])%list rc s (l ++ [(ColumnExists t c, false)])%list Ht)
        as [l' Hrun].
      exists l'. etrans; [exact Hrun|]. by rewrite <- app_assoc.
    + rewrite bool_decide_eq_false_2 by done. simpl.
      destruct (IH acc rc s (l ++ [(ColumnExists t c, false)])%list Ht) as [l' Hrun].
      exists l'. exact Hrun.
Qed.

Lemma known_chosen_columns tb cols : known_columns tb (chosen_columns tb cols) = true.
Proof.
  unfold chosen_columns. destruct cols as [cs|]; [|reflexivity].
  destruct (filter _ cs) as [|c valid] eqn:E; [reflexivity|].
  unfold known_columns. apply forallb_forall. intros x Hx.
  apply bool_decide_eq_true. apply list_elem_of_In in Hx.
  rewrite <- E in Hx. by apply list_elem_of_filter in Hx as [Hx _].
Qed.

Lemma mysql_choose_columns_online t tb cols rc s l :
  tables s !! t = Some tb ->
  exists l',
    MySQL.choose_columns (MySQL._validate_columns t) cols (online rc s l)
    = (Ok (chosen_columns tb cols), online rc s l').
Proof.
  intros Ht. unfold MySQL.choose_columns, chosen_columns.
  destruct cols as [[|c cs]|]; [by exists l| |by exists l].
  destruct (mysql_columns_loop_online t tb (c :: cs) [] rc s l Ht) as [l' Hrun].
  exists l'. unfold MySQL._validate_columns.
  rewrite (bind_ok _ _ _ _ _ Hrun). simpl.
  by destruct (filter _ (c :: cs)).
Qed.

(** A page of the MySQL driver on a healthy connection. *)
Lemma mysql_page_online t tb page page_size cols rc s l :
  tables s !! t = Some tb -> 1 <= page -> 1 <= page_size ->
  exists l',
    MySQL.get_paginated_records t page page_size cols (online rc s l)
    = (Ok {| records := project (chosen_columns tb cols)
                          <$> page_rows page page_size (rows tb);
             total_count := Z.of_nat (length (rows tb));
             total_pages := ceil_quotient (Z.of_nat (length (rows tb))) page_size |},
       online rc s l').
Proof.
  intros Ht Hp Hps. unfold MySQL.get_paginated_records.
  destruct (mysql_choose_columns_online t tb cols rc s
              ((l ++ [(TableExists t, false)]) ++ [(CountRows t, false)]) Ht)
    as [l1 Hchoose].
  eexists. apply try_except_ok.
  rewrite bind_self_conn_online. cbn [negb].
  rewrite (bind_ok _ _ _ _ _ (mysql_validate_present t tb rc s l Ht)).
  unfold MySQL.run at 1. rewrite bind_execute_online.
  answer. rewrite Ht. cbn [fst snd].
  unfold ceil_div. assert ((page_size =? 0) = false) as -> by lia.
  unfold fetchone_0. cbn [scalar selected fetched]. rewrite bind_ret.
  cbn [as_int]. rewrite !bind_ret. rewrite (bind_ok _ _ _ _ _ Hchoose).
  unfold MySQL.run. rewrite bind_execute_online.
  answer. rewrite Ht, known_chosen_columns. cbn [negb].
  assert (((page_size <? 0) || ((page - 1) * page_size <? 0)) = false) as ->
    by (apply orb_false_intro; apply Z.ltb_ge; nia).
  reflexivity.
Qed.
(* ===================================================================== *)
(** ** Reasoning about returned values *)
(* ===================================================================== *)

Lemma returns_ret {S A} (a : A) (Q : A -> Prop) : Q a -> returns (S := S) (ret a) Q.
Proof. intros Ha s a' s' E. unfold ret in E. by simplify_eq. Qed.

Lemma returns_raise {S A} (e : exn) (Q : A -> Prop) : returns (S := S) (raise e) Q.
Proof. intros s a' s' E. unfold raise in E. by simplify_eq. Qed.

Lemma returns_bind {S A C} (m : Py S A) (k : A -> Py S C) (P : A -> Prop)
    (Q : C -> Prop) :
  returns m P -> (forall a, P a -> returns (k a) Q) -> returns (bind m k) Q.
Proof.
  intros Hm Hk s c s' E. unfold bind in E.
  destruct (m s) as [[a|e] s1] eqn:Em; [|by simplify_eq].
  eapply Hk; [|exact E]. eapply Hm. exact Em.
Qed.

Lemma returns_bind_any {S A C} (m : Py S A) (k : A -> Py S C) (Q : C -> Prop) :
  (forall a, returns (k a) Q) -> returns (bind m k) Q.
Proof.
  intros Hk. apply (returns_bind m k (fun _ => True)); [done|]. intros a _. apply Hk.
Qed.

Lemma returns_try_except {S A} (m : Py S A) (h : exn -> Py S A) (Q : A -> Prop) :
  returns m Q -> (forall e, returns (h e) Q) -> returns (try_except m h) Q.
Proof.
  intros Hm Hh s a s' E. unfold try_except in E.
  destruct (m s) as [[a'|e] s1] eqn:Em.
  - simplify_eq. eapply Hm. exact Em.
  - eapply Hh. exact E.
Qed.

(** A handler that returns a value makes the statement total. *)
Lemma try_except_total {S A} (m : Py S A) (x : A) (s : S) :
  exists a s', try_except m (fun _ => ret x) s = (Ok a, s').
Proof.
  unfold try_except. destruct (m s) as [[a|e] s1]; unfold ret; eauto.
Qed.

Lemma ceil_div_returns {S} (a b : Z) :
  returns (S := S) (ceil_div a b) (fun n => n = ceil_quotient a b /\ b <> 0).
Proof.
  intros s n s' E. unfold ceil_div in E.
  destruct (b =? 0) eqn:Eb; [by unfold raise in E|].
  unfold ret in E. simplify_eq. split; [done|]. by apply Z.eqb_neq.
Qed.

(** The exact ceiling of the quotient is its ceiling. *)
Lemma ceil_div_is_ceiling (a b : Z) : 1 <= b -> is_ceiling (- ((- a) / b)) a b.
Proof.
  intros Hb. unfold is_ceiling.
  pose proof (exact_ceiling_bounds a b ltac:(lia)). lia.
Qed.

Ltac returns_step :=
  lazymatch goal with
  | |- returns (ret _) _ => apply returns_ret
  | |- returns (raise _) _ => apply returns_raise
  | |- returns (bind (ceil_div _ _) _) _ =>
      eapply returns_bind; [apply ceil_div_returns | intros ? [-> ?]]
  | |- returns (bind _ _) _ => apply returns_bind_any; intros ?
  | |- returns (try_except _ _) _ => apply returns_try_except; [|intros ?]
  | |- returns (if ?c then _ else _) _ => destruct c
  | |- returns (match ?x with _ => _ end) _ => destruct x
  end.

(** The row count that the server answers is no negative number. *)
Lemma count_rows_returns d t :
  returns (execute d (CountRows t))
          (fun r => exists n, 0 <= n /\ fetched r = [[("", PyInt n)]]).
Proof.
  intros st r st' E. unfold execute in E.
  destruct (negb (conn st)); [done|].
  destruct (match d with MySQLDialect => unread st | TSQLDialect => false end);
    [done|].
  assert (forall s s', exec d (CountRows t) s = (Ok r, s') ->
                       exists n, 0 <= n /\ fetched r = [[("", PyInt n)]]) as Hexec.
  { intros s s'. unfold exec, with_table. destruct d; cbn [unbound_markers];
      destruct (tables s !! t); intros E'; simplify_eq;
      (eexists; split; [|reflexivity]; lia). }
  destruct (faults st) as [|[] later]; [| done |];
    destruct (exec d (CountRows t) (srv st)) as [r' s'] eqn:Ex;
    simplify_eq; eauto.
Qed.

(* ===================================================================== *)
(** ** Page arithmetic (C6) *)
(* ===================================================================== *)

Lemma empty_page_counts_ok page_size : 1 <= page_size -> page_counts_ok page_size empty_page.
Proof. intros Hps. unfold page_counts_ok, is_ceiling. simpl. lia. Qed.

Lemma computed_counts_ok page_size rs total :
  1 <= page_size < 2 ^ 53 -> 0 <= total ->
  page_counts_ok page_size
    {| records := rs; total_count := total;
       total_pages := ceil_quotient total page_size |}.
Proof.
  intros Hps Htotal. split; simpl.
  - intros Hbound. rewrite ceil_quotient_exact by lia.
    apply ceil_div_is_ceiling. lia.
  - by intros ->.
Qed.

Lemma mysql_page_counts t page page_size cols :
  1 <= page_size < 2 ^ 53 ->
  returns (MySQL.get_paginated_records t page page_size cols)
          (page_counts_ok page_size).
Proof.
  intros Hps. unfold MySQL.get_paginated_records, MySQL.run.
  apply returns_try_except;
    [|intros ?; apply returns_ret, empty_page_counts_ok; lia].
  apply returns_bind_any. intros c.
  destruct (negb c); [apply returns_ret, empty_page_counts_ok; lia|].
  apply returns_bind_any. intros _.
  eapply returns_bind; [apply count_rows_returns|]. intros r (n & Hn & Hr).
  unfold fetchone_0. rewrite Hr.
  eapply returns_bind; [apply (returns_ret _ (fun v => v = PyInt n)); reflexivity|].
  intros ? ->. cbn [as_int].
  eapply returns_bind; [apply (returns_ret _ (fun z => z = n)); reflexivity|].
  intros ? ->.
  eapply returns_bind; [apply ceil_div_returns|]. intros ? [-> _].
  apply returns_bind_any. intros ?. apply returns_bind_any. intros ?.
  apply returns_ret, computed_counts_ok; lia.
Qed.

(** The page of the SQL Server driver is the empty page in every state. *)
Lemma mssql_page_empty t page page_size cols st :
  exists st', MSSQL.get_paginated_records t page page_size cols st
              = (Ok empty_page, st').
Proof.
  unfold MSSQL.get_paginated_records.
  match goal with
  | |- context [MSSQL._validate_table_exists t ;;; ?rest] =>
      destruct (mssql_guarded_read_defaults t rest empty_page st) as (st' & E & _)
  end.
  eauto.
Qed.

(** So is the page of the MongoDB driver: a driver that is not connected
    answers it at once, and a connected one from its handler. *)
Lemma mongo_page_empty t page page_size cols st :
  Mongo.get_paginated_records t page page_size cols st = (Ok empty_page, st).
Proof.
  unfold Mongo.get_paginated_records, try_except, bind, Mongo.self_db.
  by destruct (db st).
Qed.

(** C6, as stated, does not hold for every count: [total_pages] is the
    ceiling of a double.  On a table of 2^53 + 1 rows, read in pages of one
    row, the driver counts 2^53 + 1 rows and 2^53 pages. *)
Lemma ceiling_fails_on_large_counts :
  exists pr st',
    MySQL.get_paginated_records "big" 1 1 None (online true big_server [])
    = (Ok pr, st')
    /\ total_count pr = 2 ^ 53 + 1
    /\ total_pages pr = 2 ^ 53
    /\ ~ is_ceiling (total_pages pr) (total_count pr) 1.
Proof.
  assert (tables big_server !! "big" = Some big_table) as Hbig
    by apply lookup_insert_eq.
  destruct (mysql_page_online "big" big_table 1 1 None true big_server []
              Hbig ltac:(lia) ltac:(lia)) as [l' Hpage].
  assert (Z.of_nat (length (rows big_table)) = 2 ^ 53 + 1) as Hcount.
  { change (rows big_table) with big_rows. unfold big_rows.
    rewrite length_replicate. apply Z2Nat.id. lia. }
  rewrite Hcount in Hpage.
  eexists _, _. split; [exact Hpage|].
  cbn [total_count total_pages].
  assert (ceil_quotient (2 ^ 53 + 1) 1 = 2 ^ 53) as -> by (vm_compute; reflexivity).
  unfold is_ceiling. lia.
Qed.

(** C6 (amended): every page result of the MySQL, SQL Server and MongoDB
    drivers, for a page size of at least 1 and below 2^53, has
    [total_pages] equal to the ceiling of [total_count / page_size] when
    the count is below 2^53; in particular a count of 0 gives 0 pages.  The
    call always returns such a result. *)
Theorem total_pages_is_ceiling (table_name : string) (page page_size : Z)
    (cols : option (list string)) :
  1 <= page_size < 2 ^ 53 ->
  (forall st, exists pr st',
      MySQL.get_paginated_records table_name page page_size cols st = (Ok pr, st')
      /\ (total_count pr < 2 ^ 53 ->
          is_ceiling (total_pages pr) (total_count pr) page_size)
      /\ (total_count pr = 0 -> total_pages pr = 0))
  /\ (forall st, exists pr st',
      MSSQL.get_paginated_records table_name page page_size cols st = (Ok pr, st')
      /\ (total_count pr < 2 ^ 53 ->
          is_ceiling (total_pages pr) (total_count pr) page_size)
      /\ (total_count pr = 0 -> total_pages pr = 0))
  /\ (forall st, exists pr st',
      Mongo.get_paginated_records table_name page page_size cols st = (Ok pr, st')
      /\ (total_count pr < 2 ^ 53 ->
          is_ceiling (total_pages pr) (total_count pr) page_size)
      /\ (total_count pr = 0 -> total_pages pr = 0)).
Proof.
  intros Hps. split; [|split].
  - intros st.
    assert (exists pr st', MySQL.get_paginated_records table_name page page_size
                             cols st = (Ok pr, st')) as (pr & st' & E)
      by apply try_except_total.
    exists pr, st'. split; [exact E|].
    exact (mysql_page_counts table_name page page_size cols Hps _ _ _ E).
  - intros st.
    destruct (mssql_page_empty table_name page page_size cols st) as [st' E].
    exists empty_page, st'. split; [exact E|].
    apply empty_page_counts_ok. lia.
  - intros st. exists empty_page, st.
    split; [apply mongo_page_empty|]. apply empty_page_counts_ok. lia.
Qed.

Lemma total_pages_is_ceiling_witness :
  exists pr st',
    MySQL.get_paginated_records "users" 2 2 None (demo_session []) = (Ok pr, st')
    /\ (total_count pr < 2 ^ 53 -> is_ceiling (total_pages pr) (total_count pr) 2)
    /\ (total_count pr = 0 -> total_pages pr = 0).
Proof.
  apply (total_pages_is_ceiling "users" 2 2 None). lia.
Defined.
(* ===================================================================== *)
(** ** Writes that affect no row (C7) *)
(* ===================================================================== *)

(** C7 at failing inputs.  An update or a delete that targets an id which
    no row has affects no row, and should return [False].
    - The SQL Server driver raises instead, for every table, id and
      column: its validation statement carries a [?] marker, which the
      server rejects, and the handler of [update_record] and of
      [delete_record] raises the error again.
    - The MongoDB driver raises as well, for every collection and id: a
      connected driver fails at the truth test of [self.db].
    - The MySQL driver raises on a table without primary key and with two
      columns: the look-up of the key column leaves its result unread, and
      the cursor of the UPDATE cannot be opened.
    - On a table with a primary key the MySQL driver does return [False].
    In no case is a row changed. *)
Theorem zero_row_writes_raise :
  (forall t id col v rc s l,
      MSSQL.update_record t id col v (online rc s l)
      = (Raise incorrect_syntax, online rc s (l ++ [(TableExists t, false)])))
  /\ (forall t id rc s l,
        MSSQL.delete_record t id (online rc s l)
        = (Raise incorrect_syntax, online rc s (l ++ [(TableExists t, false)])))
  /\ (forall t id col v cs,
        Mongo.update_record t id col v (mongo_online cs)
        = (Raise Mongo.truth_of_database, mongo_online cs))
  /\ (forall t id cs,
        MongoMore.delete_record t id (mongo_online cs)
        = (Raise Mongo.truth_of_database, mongo_online cs))
  /\ rows_with (key_column demo_log "id") "99" (rows demo_log) = []
  /\ MySQL.update_record "log" "99" "text" (PyStr "halt") (demo_session [])
     = (Raise unread_result,
        online true demo_server
          [(TableExists "log", false); (ColumnExists "log" "text", false);
           (PrimaryKeyOf "log", false); (ShowColumns "log", false)])
  /\ rows_with (key_column demo_users "id") "99" (rows demo_users) = []
  /\ MySQL.update_record "users" "99" "name" (PyStr "zed") (demo_session [])
     = (Ok false,
        online true demo_server
          [(TableExists "users", false); (ColumnExists "users" "name", false);
           (PrimaryKeyOf "users", false);
           (UpdateSet "users" "name" "id" (PyStr "zed") (PyStr "99"), false)])
  /\ MySQL.delete_record "users" "99" (demo_session [])
     = (Ok false,
        online true demo_server
          [(TableExists "users", false); (PrimaryKeyOf "users", false);
           (DeleteWhere "users" "id" (PyStr "99"), false)]).
Proof.
  split; [|split; [|split; [|split]]].
  - intros t id col v rc s l.
    unfold MSSQL.update_record, try_except.
    rewrite bind_self_conn_online. cbn [negb].
    by rewrite (bind_raise _ _ _ _ _ (mssql_validate_online t rc s l)).
  - intros t id rc s l.
    unfold MSSQL.delete_record, try_except.
    rewrite bind_self_conn_online. cbn [negb].
    by rewrite (bind_raise _ _ _ _ _ (mssql_validate_online t rc s l)).
  - reflexivity.
  - reflexivity.
  - repeat split; vm_compute; reflexivity.
Qed.
(* ===================================================================== *)
(** ** Unknown tables (C4) *)
(* ===================================================================== *)

(** C4, as stated, does not hold: asked for the record count of a table
    that does not exist, the MySQL driver answers 0, the very answer it
    gives for a table that exists and is empty; the same for a page of
    records. *)
Lemma unknown_table_reads_as_empty :
  tables demo_server !! "ghost" = None
  /\ (MySQL.get_table_record_count "ghost" (demo_session [])).1 = Ok 0
  /\ (MySQL.get_table_record_count "empty" (demo_session [])).1 = Ok 0
  /\ (MySQL.get_paginated_records "ghost" 1 50 None (demo_session [])).1
     = Ok empty_page
  /\ (MySQL.get_paginated_records "empty" 1 50 None (demo_session [])).1
     = Ok empty_page.
Proof. repeat split; vm_compute; reflexivity. Qed.

(** C4 (amended): in the MySQL driver, for the operations that validate
    their table name, a table that does not exist is found out by the
    catalogue look-up, whose table name is a bound parameter, and no
    statement that names the table in its text is sent, so no raw SQL
    error can come back.  [update_record] raises the "not found"
    [ValueError]; record count, pagination, the preview, the look-up by id
    and [delete_record] catch it and return 0, the empty page, the empty
    list, [None] and [False]. *)
Theorem unknown_table_is_detected (t : string) (rc : bool) (s : server)
    (l : list (sql * bool)) :
  tables s !! t = None ->
  let not_found := ValueError ("Table '" +:+ t +:+ "' not found") in
  let after := online rc s (l ++ [(TableExists t, false)]) in
  spliced_tables (TableExists t) = []
  /\ MySQL._validate_table_exists t (online rc s l) = (Raise not_found, after)
  /\ (forall id col v,
        MySQL.update_record t id col v (online rc s l) = (Raise not_found, after))
  /\ (forall id, MySQL.delete_record t id (online rc s l) = (Ok false, after))
  /\ MySQL.get_table_record_count t (online rc s l) = (Ok 0, after)
  /\ (forall page page_size cols,
        MySQL.get_paginated_records t page page_size cols (online rc s l)
        = (Ok empty_page, after))
  /\ MySQLReads.get_first_10_records t (online rc s l) = (Ok [], after)
  /\ (forall id, MySQLReads.get_record_by_id t id (online rc s l) = (Ok None, after)).
Proof.
  intros Ht not_found after.
  pose proof (mysql_validate_missing t rc s l Ht) as Hmy.
  split; [reflexivity|].
  split; [exact Hmy|].
  repeat split; intros.
  - unfold MySQL.update_record, try_except.
    rewrite bind_self_conn_online. cbn [negb].
    by rewrite (bind_raise _ _ _ _ _ Hmy).
  - unfold MySQL.delete_record, try_except.
    rewrite bind_self_conn_online. cbn [negb].
    by rewrite (bind_raise _ _ _ _ _ Hmy).
  - unfold MySQL.get_table_record_count, try_except.
    rewrite bind_self_conn_online. cbn [negb].
    by rewrite (bind_raise _ _ _ _ _ Hmy).
  - unfold MySQL.get_paginated_records, try_except.
    rewrite bind_self_conn_online. cbn [negb].
    by rewrite (bind_raise _ _ _ _ _ Hmy).
  - unfold MySQLReads.get_first_10_records, try_except.
    rewrite bind_self_conn_online. cbn [negb].
    by rewrite (bind_raise _ _ _ _ _ Hmy).
  - unfold MySQLReads.get_record_by_id, try_except.
    rewrite bind_self_conn_online. cbn [negb].
    by rewrite (bind_raise _ _ _ _ _ Hmy).
Qed.

Lemma unknown_table_is_detected_witness :
  MySQL.update_record "ghost" "1" "name" (PyStr "x") (online true demo_server [])
  = (Raise (ValueError "Table 'ghost' not found"),
     online true demo_server [(TableExists "ghost", false)])
  /\ MySQL.get_table_record_count "ghost" (online true demo_server [])
     = (Ok 0, online true demo_server [(TableExists "ghost", false)]).
Proof.
  destruct (unknown_table_is_detected "ghost" true demo_server [] eq_refl)
    as (_ & _ & Hupd & _ & Hcount & _).
  split; [apply Hupd | apply Hcount].
Defined.

(* ===================================================================== *)
(** ** Identifier safety (C3) *)
(* ===================================================================== *)

(** C3 at a failing input: MySQL's [create_record] is called with a table
    and a column that the catalogue does not know.  No catalogue look-up is
    made; the one statement sent carries both names in its text, as they
    are, whatever they contain.  The selected-columns route does the same
    with its table and column parameters, and hands the server's error text
    back to the caller.  (The values of the row are bound parameters; SQL
    Server's OFFSET/FETCH page statement, in contrast, has the offset and
    the page size in its text and binds nothing.) *)
Theorem mysql_insert_splices_unvalidated_names :
  let q := InsertInto "ghost" ["nope"] [PyInt 1] in
  tables demo_server !! "ghost" = None
  /\ MySQL.create_record "ghost" [("nope", PyInt 1)] (demo_session [])
     = (Ok PyNone, logged (demo_session []) [(q, false)])
  /\ sql_text MySQLDialect q = "INSERT INTO `ghost` (`nope`) VALUES (%s)"
  /\ sql_params MySQLDialect "shop" q = [PyInt 1]
  /\ spliced_tables q = ["ghost"]
  /\ spliced_columns q = ["nope"]
  /\ sql_text MySQLDialect (InsertInto "t` SELECT 1 -- " ["c"] [PyInt 1])
     = "INSERT INTO `t` SELECT 1 -- ` (`c`) VALUES (%s)"
  /\ (exists w',
        get_selected_columns_records (H := reference_json) "ghost" ["nope"] 1 50
                                     (Some "S") (demo_world [])
        = (Raise (HTTPException 500
                    "Error retrieving selected columns: no such table: ghost"), w')
        /\ log (backend w') = [(CountRows "ghost", false)]
        /\ sql_text MySQLDialect (CountRows "ghost") = "SELECT COUNT(*) FROM `ghost`")
  /\ sql_text MySQLDialect (SelectLimit (Some ["a` FROM t -- "]) "users" 50 0)
     = "SELECT `a` FROM t -- ` FROM `users` LIMIT %s OFFSET %s"
  /\ sql_text TSQLDialect (SelectOffsetFetch None "users" 100 50)
     = "SELECT * FROM [users] ORDER BY (SELECT NULL) OFFSET 100 ROWS FETCH NEXT 50 ROWS ONLY"
  /\ sql_params TSQLDialect "shop" (SelectOffsetFetch None "users" 100 50) = [].
Proof.
  repeat split; try (vm_compute; reflexivity).
  eexists. repeat split; vm_compute; reflexivity.
Qed.

(* ===================================================================== *)
(** ** Faults and the log *)
(* ===================================================================== *)




















(* ===================================================================== *)
(** ** Errors inside record count and pagination (C10) *)
(* ===================================================================== *)


(* ===================================================================== *)
(** ** The pagination strategies of the SQL Server driver (C2) *)
(* ===================================================================== *)


(* ===================================================================== *)
(** ** Writing and reading back one cache entry *)
(* ===================================================================== *)

Lemma redis_setex_healthy key seconds value m :
  redis_setex key seconds value {| store := m; outages := [] |}
  = (Ok tt, {| store := <[key := value]> m; outages := [] |}).
Proof. unfold redis_setex. by rewrite command_healthy. Qed.

Section CacheRoundTrip.
Context `{JsonCodec}.

Lemma set_cache_healthy key value expire m :
  set_cache key value expire {| store := m; outages := [] |}
  = (Ok true, {| store := <[key := cache_text value]> m; outages := [] |}).
Proof.
  unfold set_cache, try_except, cache_text.
  destruct value;
    by rewrite (bind_ok _ _ _ _ _ (redis_setex_healthy key expire _ m)).
Qed.

Lemma get_cache_hit key payload v m :
  m !! key = Some payload -> payload <> "" -> json_loads payload = Ok v ->
  get_cache key {| store := m; outages := [] |}
  = (Ok v, {| store := m; outages := [] |}).
Proof.
  intros Hk Hne Hv. unfold get_cache, try_except.
  rewrite (bind_ok _ _ _ _ _ (redis_get_healthy key m)), Hk.
  apply String.eqb_neq in Hne. rewrite Hne. cbn [negb]. unfold lift. by rewrite Hv.
Qed.

Lemma get_cache_miss key m :
  m !! key = None ->
  get_cache key {| store := m; outages := [] |}
  = (Ok PyNone, {| store := m; outages := [] |}).
Proof.
  intros Hk. unfold get_cache, try_except.
  by rewrite (bind_ok _ _ _ _ _ (redis_get_healthy key m)), Hk.
Qed.

(** X1: on a server that answers, a value written by [set_cache] is what
    the next [get_cache] of the key returns, provided the text written for
    it ([json.dumps] for a dict or list, [str] otherwise) is not empty and
    [json.loads] reads it back as the value; the entry stays in the store. *)
Theorem set_cache_then_get_cache (key : string) (value : pyval) (expire : Z)
    (m : gmap string string) :
  cache_text value <> "" ->
  json_loads (cache_text value) = Ok value ->
  (set_cache key value expire ;;; get_cache key) {| store := m; outages := [] |}
  = (Ok value, {| store := <[key := cache_text value]> m; outages := [] |}).
Proof.
  intros Hne Hback.
  rewrite (bind_ok _ _ _ _ _ (set_cache_healthy key value expire m)).
  apply (get_cache_hit key (cache_text value)); [|done..].
  apply lookup_insert_eq.
Qed.

(** X2: a value whose written text [json.loads] rejects as malformed is
    lost at the first read: [set_cache] reports success, the next [get_cache] returns
    [None], and the entry is gone from the store. *)
Theorem unparsable_value_is_dropped (key : string) (value : pyval) (expire : Z)
    (m : gmap string string) :
  cache_text value <> "" ->
  json_loads (cache_text value) = Raise JSONDecodeError ->
  set_cache key value expire {| store := m; outages := [] |}
  = (Ok true, {| store := <[key := cache_text value]> m; outages := [] |})
  /\ (set_cache key value expire ;;; get_cache key) {| store := m; outages := [] |}
     = (Ok PyNone, {| store := delete key m; outages := [] |}).
Proof.
  intros Hne Hbad. split; [apply set_cache_healthy|].
  rewrite (bind_ok _ _ _ _ _ (set_cache_healthy key value expire m)).
  unfold get_cache, try_except.
  rewrite (bind_ok _ _ _ _ _ (redis_get_healthy key _)), lookup_insert_eq.
  apply String.eqb_neq in Hne. rewrite Hne. cbn [negb].
  unfold lift at 1. rewrite Hbad.
  unfold redis_delete. rewrite (bind_ok _ _ _ _ _ (command_healthy _ _)).
  unfold ret. cbn [fst snd delete_all foldr]. by rewrite delete_insert_eq.
Qed.

End CacheRoundTrip.

Lemma set_cache_then_get_cache_witness :
  (set_cache (H := reference_json) "connection:S" demo_connection_info 3600 ;;;
   get_cache (H := reference_json) "connection:S") {| store := ∅; outages := [] |}
  = (Ok demo_connection_info,
     {| store := <["connection:S" := cache_text (H := reference_json)
                                        demo_connection_info]> ∅;
        outages := [] |}).
Proof.
  apply (set_cache_then_get_cache (H := reference_json)).
  - vm_compute. discriminate.
  - vm_compute. reflexivity.
Defined.

Lemma unparsable_value_is_dropped_witness :
  (set_cache (H := reference_json) "S:note" (PyStr "hello") 3600 ;;;
   get_cache (H := reference_json) "S:note") {| store := ∅; outages := [] |}
  = (Ok PyNone, {| store := delete "S:note" ∅; outages := [] |}).
Proof.
  apply (unparsable_value_is_dropped (H := reference_json) "S:note" (PyStr "hello")).
  - vm_compute. discriminate.
  - vm_compute. reflexivity.
Defined.

(* ===================================================================== *)
(** ** Which keys a clearing loop can touch *)
(* ===================================================================== *)

Lemma append_empty_r (a : string) : a +:+ "" = a.
Proof.
  induction a as [|x a IH]; [reflexivity|]. rewrite append_cons. by f_equal.
Qed.

Lemma prefix_app_l (a b k : string) :
  String.prefix (a +:+ b) k = true -> String.prefix a k = true.
Proof.
  revert k. induction a as [|x a IH]; intros k Hk; [by destruct k|].
  rewrite append_cons in Hk. destruct k as [|y k]; [done|].
  simpl in *. destruct (ascii_dec x y); [by apply IH|done].
Qed.

Lemma prefix_app_self (a b : string) : String.prefix a (a +:+ b) = true.
Proof.
  induction a as [|x a IH]; [by destruct (_ +:+ _)|].
  rewrite append_cons. simpl. by destruct (ascii_dec x x).
Qed.

Lemma prefix_eqb (a k : string) : String.eqb a k = true -> String.prefix a k = true.
Proof.
  intros ->%String.eqb_eq. rewrite <- (append_empty_r k) at 2. apply prefix_app_self.
Qed.

Lemma glob_match_literal (p k : string) :
  glob_match (GLit <$> list_ascii_of_string p) k = String.eqb p k.
Proof.
  revert k. induction p as [|c p IH]; intros k; [by destruct k|].
  destruct k as [|c' k]; [reflexivity|].
  simpl. destruct (Ascii.eqb c c'); [apply IH|reflexivity].
Qed.

(** A pattern without pattern characters selects the key that equals it. *)
Lemma stringmatch_literal (p k : string) :
  glob_literal p = true -> stringmatch p k = String.eqb p k.
Proof.
  intros Hlit. unfold stringmatch.
  rewrite <- (append_empty_r p) at 1.
  rewrite glob_lex_literal by done. simpl. rewrite app_nil_r.
  apply glob_match_literal.
Qed.

(** The loop leaves alone every key that none of its patterns selects. *)
Lemma clear_patterns_frame (owned : string -> bool) (patterns : list string) :
  (forall p k, p ∈ patterns -> stringmatch p k = true -> owned k = true) ->
  forall total r res r',
    clear_patterns patterns total r = (res, r') ->
    forall k, owned k = false -> store r' !! k = store r !! k.
Proof.
  induction patterns as [|p ps IH]; intros Hown total r res r' E k Hk.
  - unfold clear_patterns, ret in E. by simplify_eq.
  - assert (forall p' k', p' ∈ ps -> stringmatch p' k' = true -> owned k' = true)
      as Hown' by (intros p' k' Hp'; apply Hown; by right).
    simpl in E. unfold bind in E.
    destruct (redis_keys p r) as [[keys|e] r1] eqn:Ekeys.
    + apply command_cases in Ekeys as [[? _]|[Hres Hs1]]; [done|].
      cbn [fst snd] in Hres, Hs1. injection Hres as Hkeys.
      assert (k ∉ keys) as Hnin.
      { rewrite Hkeys. intros [Hm _]%matching_keys_elem.
        rewrite (Hown p k) in Hk; [done|by left|done]. }
      destruct keys as [|k0 keys].
      * rewrite (IH Hown' _ _ _ _ E k Hk). by rewrite Hs1.
      * destruct (redis_delete (k0 :: keys) r1) as [[n|e] r2] eqn:Edel.
        -- apply command_cases in Edel as [[? _]|[_ Hs2]]; [done|]. cbn [snd] in Hs2.
           rewrite (IH Hown' _ _ _ _ E k Hk), Hs2, delete_all_lookup.
           rewrite bool_decide_eq_false_2 by done. by rewrite Hs1.
        -- apply command_cases in Edel as [[_ Hs2]|[? _]]; [|done].
           simplify_eq. by rewrite Hs2, Hs1.
    + apply command_cases in Ekeys as [[_ Hs1]|[? _]]; [|done].
      simplify_eq. by rewrite Hs1.
Qed.

Lemma try_clear_patterns_frame (owned : string -> bool) (patterns : list string) r :
  (forall p k, p ∈ patterns -> stringmatch p k = true -> owned k = true) ->
  forall k, owned k = false ->
    store (try_except (clear_patterns patterns 0) (fun _ => ret 0) r).2 !! k
    = store r !! k.
Proof.
  intros Hown k Hk. unfold try_except.
  destruct (clear_patterns patterns 0 r) as [[n|e] r'] eqn:E; cbn [snd];
    eapply clear_patterns_frame; eauto.
Qed.

(** Each pattern of [invalidate_table_cache] stays under the table's
    prefix. *)
Lemma invalidation_patterns_owned session_id table_name p k :
  glob_literal session_id = true -> glob_literal table_name = true ->
  p ∈ invalidation_patterns session_id table_name ->
  stringmatch p k = true ->
  String.prefix (table_prefix session_id table_name) k = true.
Proof.
  intros Hs Ht Hp Hm.
  pose proof (table_prefix_literal _ _ Hs Ht) as Hlit.
  assert (forall tail, session_id +:+ ":table:" +:+ table_name +:+ ":" +:+ tail
                       = table_prefix session_id table_name +:+ tail) as Hsplit.
  { intros tail. unfold table_prefix. by rewrite !append_assoc. }
  unfold invalidation_patterns in Hp.
  repeat (apply elem_of_cons in Hp as [->|Hp]); [..|by apply elem_of_nil in Hp].
  - rewrite first_pattern_is_prefix_star, stringmatch_prefix_star in Hm; done.
  - change (session_id +:+ ":table:" +:+ table_name +:+ ":records:*")
      with (session_id +:+ ":table:" +:+ table_name +:+ ":" +:+ "records:" +:+ "*") in Hm.
    rewrite Hsplit, <- append_assoc, stringmatch_prefix_star in Hm.
    + by apply prefix_app_l in Hm.
    + by rewrite glob_literal_app, Hlit.
  - change (session_id +:+ ":table:" +:+ table_name +:+ ":selected:*")
      with (session_id +:+ ":table:" +:+ table_name +:+ ":" +:+ "selected:" +:+ "*") in Hm.
    rewrite Hsplit, <- append_assoc, stringmatch_prefix_star in Hm.
    + by apply prefix_app_l in Hm.
    + by rewrite glob_literal_app, Hlit.
  - change (session_id +:+ ":table:" +:+ table_name +:+ ":count")
      with (session_id +:+ ":table:" +:+ table_name +:+ ":" +:+ "count") in Hm.
    rewrite Hsplit, stringmatch_literal in Hm.
    + apply prefix_eqb in Hm. by apply prefix_app_l in Hm.
    + by rewrite glob_literal_app, Hlit.
  - change (session_id +:+ ":table:" +:+ table_name +:+ ":columns")
      with (session_id +:+ ":table:" +:+ table_name +:+ ":" +:+ "columns") in Hm.
    rewrite Hsplit, stringmatch_literal in Hm.
    + apply prefix_eqb in Hm. by apply prefix_app_l in Hm.
    + by rewrite glob_literal_app, Hlit.
Qed.

(** X3: [invalidate_table_cache] is confined to its table.  With a session
    id and a table name free of pattern characters, a key that does not
    start with [<session>:table:<table>:] has after the call the value it
    had before, whatever the Redis server does: the entries of other
    tables, of other sessions and the connection entries stay. *)
Theorem invalidate_touches_only_the_table
    (session_id table_name : string) (r : redis) (k : string) :
  glob_literal session_id = true ->
  glob_literal table_name = true ->
  String.prefix (table_prefix session_id table_name) k = false ->
  store (invalidate_table_cache session_id table_name r).2 !! k = store r !! k.
Proof.
  intros Hs Ht Hk. unfold invalidate_table_cache.
  apply (try_clear_patterns_frame
           (String.prefix (table_prefix session_id table_name))); [|done].
  intros p k'. by apply invalidation_patterns_owned.
Qed.

Lemma invalidate_touches_only_the_table_witness :
  store (invalidate_table_cache "S" "users"
           (demo_cache [false; true])).2 !! "S:table:t[1]:count"
  = store (demo_cache [false; true]) !! "S:table:t[1]:count".
Proof.
  apply (invalidate_touches_only_the_table "S" "users");
    reflexivity.
Defined.

(* ===================================================================== *)
(** ** Clearing a whole session *)
(* ===================================================================== *)

(** DEL answers with the number of entries that left the store. *)
Lemma delete_all_size (keys : list string) (m : gmap string string) :
  (size (delete_all keys m)
   + length (filter (fun k => is_Some (m !! k)) (remove_dups keys)))%nat
  = size m.
Proof.
  induction keys as [|x keys IH]; simpl; [lia|].
  destruct (decide_rel elem_of x keys) as [Hin|Hnin].
  - rewrite delete_id; [exact IH|].
    rewrite delete_all_lookup. by rewrite bool_decide_eq_true_2.
  - rewrite filter_cons.
    assert (delete_all keys m !! x = m !! x) as Hx.
    { rewrite delete_all_lookup. by rewrite bool_decide_eq_false_2. }
    destruct (decide (is_Some (m !! x))) as [[v Hv]|Hnone].
    + rewrite Hv in Hx.
      pose proof (map_size_delete x (delete_all keys m)) as Hsz.
      rewrite Hx in Hsz. simpl in *.
      assert (size (delete_all keys m) <> 0%nat) as Hpos.
      { intros Hz. apply map_size_empty_inv in Hz. by rewrite Hz in Hx. }
      rewrite Hsz. lia.
    + rewrite delete_id; [exact IH|].
      rewrite Hx. by apply eq_None_not_Some.
Qed.

Lemma redis_delete_counts keys m :
  exists n, redis_delete keys {| store := m; outages := [] |}
            = (Ok n, {| store := delete_all keys m; outages := [] |})
            /\ n = Z.of_nat (size m) - Z.of_nat (size (delete_all keys m)).
Proof.
  unfold redis_delete. rewrite command_healthy. cbn [fst snd].
  eexists. split; [reflexivity|].
  pose proof (delete_all_size keys m). lia.
Qed.

Lemma clear_patterns_counts (patterns : list string) :
  forall total m n r',
    clear_patterns patterns total {| store := m; outages := [] |} = (Ok n, r') ->
    n = total + (Z.of_nat (size m) - Z.of_nat (size (store r'))).
Proof.
  induction patterns as [|p ps IH]; intros total m n r' E.
  - unfold clear_patterns, ret in E. simplify_eq. simpl. lia.
  - simpl in E. rewrite (bind_ok _ _ _ _ _ (redis_keys_healthy p m)) in E.
    destruct (filter _ _) as [|k0 keys].
    + by apply IH in E.
    + destruct (redis_delete_counts (k0 :: keys) m) as (deleted & Hdel & Hn).
      rewrite (bind_ok _ _ _ _ _ Hdel) in E.
      apply IH in E. lia.
Qed.

Lemma session_patterns_owned session_id p k :
  glob_literal session_id = true ->
  p ∈ session_patterns session_id -> stringmatch p k = true ->
  session_owns session_id k = true.
Proof.
  intros Hs Hp Hm. unfold session_patterns in Hp. unfold session_owns, connection_key.
  repeat (apply elem_of_cons in Hp as [->|Hp]); [..|by apply elem_of_nil in Hp].
  - rewrite stringmatch_literal in Hm; [by rewrite Hm|].
    by rewrite glob_literal_app, Hs.
  - change (session_id +:+ ":*") with (session_id +:+ ":" +:+ "*") in Hm.
    rewrite <- append_assoc, stringmatch_prefix_star in Hm.
    + rewrite Hm. apply orb_true_r.
    + by rewrite glob_literal_app, Hs.
Qed.

Lemma session_owns_selected session_id k :
  glob_literal session_id = true ->
  session_owns session_id k = true ->
  exists p, p ∈ session_patterns session_id /\ stringmatch p k = true.
Proof.
  intros Hs [Hk|Hk]%orb_prop; unfold connection_key in *.
  - exists ("connection:" +:+ session_id). split; [by left|].
    rewrite stringmatch_literal; [done|]. by rewrite glob_literal_app, Hs.
  - exists (session_id +:+ ":*"). split; [right; by left|].
    change (session_id +:+ ":*") with (session_id +:+ ":" +:+ "*").
    rewrite <- append_assoc, stringmatch_prefix_star; [done|].
    by rewrite glob_literal_app, Hs.
Qed.

Lemma session_clearing_exact (session_id : string) (m : gmap string string) :
  glob_literal session_id = true ->
  exists n m',
    clear_all_session_cache session_id {| store := m; outages := [] |}
    = (Ok n, {| store := m'; outages := [] |})
    /\ (forall k, m' !! k = if session_owns session_id k then None else m !! k)
    /\ n = Z.of_nat (size m) - Z.of_nat (size m').
Proof.
  intros Hs. unfold clear_all_session_cache.
  destruct (clear_patterns_healthy (session_patterns session_id) 0 m)
    as (n & m' & Hrun & Hgone).
  exists n, m'. unfold try_except. rewrite Hrun. split; [reflexivity|]. split.
  - intros k. destruct (session_owns session_id k) eqn:Hown.
    + apply Hgone. right. by apply session_owns_selected.
    + change (store {| store := m'; outages := [] |} !! k
              = store {| store := m; outages := [] |} !! k).
      eapply (clear_patterns_frame (session_owns session_id)); [|exact Hrun|exact Hown].
      intros p k'. by apply session_patterns_owned.
  - apply clear_patterns_counts in Hrun. simpl in Hrun. lia.
Qed.

(** X4: on a server that answers, [clear_all_session_cache] of a session
    id free of pattern characters removes the connection entry of the
    session and every entry under [<session>:], leaves every other entry
    as it was, and returns the number of entries it removed. *)
Theorem clear_all_session_cache_is_exact (session_id : string)
    (m : gmap string string) :
  glob_literal session_id = true ->
  exists n m',
    clear_all_session_cache session_id {| store := m; outages := [] |}
    = (Ok n, {| store := m'; outages := [] |})
    /\ (forall k, m' !! k = if session_owns session_id k then None else m !! k)
    /\ n = Z.of_nat (size m) - Z.of_nat (size m').
Proof. apply session_clearing_exact. Qed.

Lemma clear_all_session_cache_is_exact_witness :
  exists n m',
    clear_all_session_cache "S" (demo_cache [])
    = (Ok n, {| store := m'; outages := [] |})
    /\ (forall k, m' !! k = if session_owns "S" k then None
                            else store (demo_cache []) !! k)
    /\ n = Z.of_nat (size (store (demo_cache []))) - Z.of_nat (size m').
Proof. apply (clear_all_session_cache_is_exact "S"). reflexivity. Defined.

(** X5: the number [invalidate_table_cache] returns on a server that
    answers is the number of entries that left the store. *)
Theorem invalidate_count_is_exact (session_id table_name : string)
    (m : gmap string string) :
  exists n m',
    invalidate_table_cache session_id table_name {| store := m; outages := [] |}
    = (Ok n, {| store := m'; outages := [] |})
    /\ n = Z.of_nat (size m) - Z.of_nat (size m').
Proof.
  unfold invalidate_table_cache.
  destruct (clear_patterns_healthy (invalidation_patterns session_id table_name) 0 m)
    as (n & m' & Hrun & _).
  exists n, m'. unfold try_except. rewrite Hrun. split; [reflexivity|].
  apply clear_patterns_counts in Hrun. simpl in Hrun. lia.
Qed.

(* ===================================================================== *)
(** ** The session listings *)
(* ===================================================================== *)

Lemma redis_exists_cases key r res r' :
  redis_exists key r = (res, r') -> store r' = store r.
Proof.
  intros E. unfold redis_exists in E.
  by apply command_cases in E as [[_ Hs]|[_ Hs]].
Qed.

Lemma cleanup_loop_inert (connection_keys : list string) :
  forall r res r',
    cleanup_loop connection_keys 0 r = (res, r') ->
    store r' = store r /\ (forall n, res = Ok n -> n = 0).
Proof.
  induction connection_keys as [|key keys IH]; intros r res r' E.
  - unfold cleanup_loop, ret in E. simplify_eq. split; [done|]. by intros n [= <-].
  - simpl in E. unfold bind in E.
    destruct (redis_exists key r) as [[found|e] r1] eqn:Efound.
    + apply redis_exists_cases in Efound.
      destruct (found =? 0).
      * unfold raise in E. simplify_eq. by split.
      * apply IH in E as [Hs Hn]. split; [by rewrite Hs|done].
    + apply redis_exists_cases in Efound. simplify_eq. by split.
Qed.

(** X6: [cleanup_expired_sessions] cleans nothing.  Whatever the store
    holds and whichever commands the server refuses, it returns 0 and
    every entry is still there: the only path that would count a session
    calls a function that does not exist, and its error is swallowed. *)
Theorem cleanup_expired_sessions_is_inert (r : redis) :
  exists r', cleanup_expired_sessions r = (Ok 0, r') /\ store r' = store r.
Proof.
  unfold cleanup_expired_sessions, try_except, bind.
  destruct (redis_keys "connection:*" r) as [[keys|e] r1] eqn:Ekeys.
  - assert (store r1 = store r) as Hs1.
    { unfold redis_keys in Ekeys.
      by apply command_cases in Ekeys as [[_ Hs]|[_ Hs]]. }
    destruct (cleanup_loop keys 0 r1) as [[n|e] r2] eqn:Eloop.
    + apply cleanup_loop_inert in Eloop as [Hs2 Hn].
      rewrite (Hn n eq_refl). exists r2. split; [done|]. by rewrite Hs2.
    + apply cleanup_loop_inert in Eloop as [Hs2 _].
      exists r2. split; [done|]. by rewrite Hs2.
  - unfold redis_keys in Ekeys.
    apply command_cases in Ekeys as [[_ Hs]|[? _]]; [|done].
    exists r1. by split.
Qed.

Lemma remove_all_skip (old a s : string) :
  remove_all old (String.length a) (a +:+ s) = remove_all old 0 s.
Proof.
  induction a as [|x a IH]; [reflexivity|]. rewrite append_cons. exact IH.
Qed.

Lemma remove_all_absent (old s : string) :
  occurs_in old s = false -> remove_all old 0 s = s.
Proof.
  induction s as [|c s IH]; intros Hs; [reflexivity|].
  cbn [occurs_in] in Hs. apply orb_false_elim in Hs as [Hhere Hlater].
  cbn [remove_all]. rewrite Hhere. f_equal. by apply IH.
Qed.

Lemma remove_all_leading (c : ascii) (old s : string) :
  remove_all (String c old) 0 (String c old +:+ s) = remove_all (String c old) 0 s.
Proof.
  rewrite append_cons. cbn [remove_all].
  rewrite <- append_cons, prefix_app_self.
  cbn [String.length]. rewrite Nat.sub_1_r. cbn [Nat.pred].
  apply remove_all_skip.
Qed.

(** X7: on a server that answers, [list_active_connections] names every
    session that has a connection entry and whose id does not contain the
    text [connection:], and changes nothing. *)
Theorem list_active_connections_lists_sessions (m : gmap string string) :
  exists names,
    list_active_connections {| store := m; outages := [] |}
    = (Ok names, {| store := m; outages := [] |})
    /\ forall session_id,
         is_Some (m !! connection_key session_id) ->
         occurs_in "connection:" session_id = false ->
         session_id ∈ names.
Proof.
  unfold list_active_connections, try_except.
  rewrite (bind_ok _ _ _ _ _ (redis_keys_healthy "connection:*" m)).
  eexists. split; [reflexivity|].
  intros session_id Hin Hclean.
  apply list_elem_of_fmap. exists (connection_key session_id). split.
  - unfold connection_key. rewrite remove_all_leading. symmetry.
    by apply remove_all_absent.
  - apply matching_keys_elem. split; [|done].
    change "connection:*" with ("connection:" +:+ "*").
    rewrite stringmatch_prefix_star by reflexivity.
    apply prefix_app_self.
Qed.

Lemma list_active_connections_lists_sessions_witness :
  exists names,
    list_active_connections (demo_cache []) = (Ok names, demo_cache [])
    /\ "S" ∈ names.
Proof.
  destruct (list_active_connections_lists_sessions (store (demo_cache [])))
    as (names & Hrun & Hin).
  exists names. split; [exact Hrun|].
  apply Hin; [|reflexivity].
  eexists. vm_compute. reflexivity.
Defined.

(* ===================================================================== *)
(** ** Ending a session: [app/routers/connection.py], [app/routers/cache.py] *)
(* ===================================================================== *)

Lemma delete_connection_info_absent session_id m :
  m !! connection_key session_id = None ->
  delete_connection_info session_id {| store := m; outages := [] |}
  = (Ok false, {| store := m; outages := [] |}).
Proof.
  intros Hk. unfold delete_connection_info, try_except, redis_delete.
  rewrite (bind_ok _ _ _ _ _ (command_healthy _ _)).
  cbn [fst snd delete_all foldr remove_dups].
  rewrite delete_id by done.
  destruct (decide_rel elem_of (connection_key session_id) []) as [Hin|_];
    [by apply elem_of_nil in Hin|].
  rewrite filter_cons_False; [reflexivity|].
  rewrite Hk. by intros [? ?].
Qed.

Lemma session_owns_connection session_id :
  session_owns session_id (connection_key session_id) = true.
Proof. unfold session_owns. by rewrite String.eqb_refl. Qed.

(** X8: on a server that answers, and for a session id free of pattern
    characters, [force_disconnect_session] always reports
    [connection_deleted] as false: the connection entry is already gone
    when [delete_connection_info] runs, removed by the clearing of the
    session just before.  Afterwards the store holds none of the session's
    entries and every other entry as it was. *)
Theorem force_disconnect_reports_not_deleted (session_id : string)
    (m : gmap string string) :
  glob_literal session_id = true ->
  exists n m',
    force_disconnect_session session_id {| store := m; outages := [] |}
    = (Ok (n, false), {| store := m'; outages := [] |})
    /\ forall k, m' !! k = if session_owns session_id k then None else m !! k.
Proof.
  intros Hs.
  destruct (session_clearing_exact session_id m Hs)
    as (n & m' & Hclear & Hstore & _).
  exists n, m'. split; [|exact Hstore].
  assert (m' !! connection_key session_id = None) as Hgone
    by (by rewrite Hstore, session_owns_connection).
  unfold force_disconnect_session. apply try_except_ok.
  rewrite (bind_ok _ _ _ _ _ Hclear).
  by rewrite (bind_ok _ _ _ _ _ (delete_connection_info_absent session_id m' Hgone)).
Qed.

Lemma force_disconnect_reports_not_deleted_witness :
  exists n m',
    force_disconnect_session "S" (demo_cache [])
    = (Ok (n, false), {| store := m'; outages := [] |})
    /\ forall k, m' !! k = if session_owns "S" k then None
                           else store (demo_cache []) !! k.
Proof. apply (force_disconnect_reports_not_deleted "S"). reflexivity. Defined.

Section EndingASession.
Context `{JsonCodec}.

(** X9: disconnecting a session that has no connection entry fails with
    status 500, not 404, and clears nothing: the 404 of the cache route is
    caught by the handler of [disconnect_db], and the cache entries the
    session may still have stay in the store. *)
Theorem disconnect_unknown_session_is_500 (session_id : string)
    (m : gmap string string) :
  m !! connection_key session_id = None ->
  disconnect_db session_id {| store := m; outages := [] |}
  = (Raise (HTTPException 500
              ("Error disconnecting: "
               +:+ exn_str (HTTPException 404 "Session not found or expired"))),
     {| store := m; outages := [] |}).
Proof.
  intros Hk.
  assert (clear_all_cache session_id {| store := m; outages := [] |}
          = (Raise (HTTPException 404 "Session not found or expired"),
             {| store := m; outages := [] |})) as Hroute.
  { unfold clear_all_cache, reraise_as_500, get_connection_info.
    rewrite (try_except_raise _ _ _ (HTTPException 404 "Session not found or expired")
               {| store := m; outages := [] |}); [reflexivity|].
    by rewrite (bind_ok _ _ _ _ _ (get_cache_miss _ m Hk)). }
  unfold disconnect_db.
  rewrite (try_except_raise _ _ _ (HTTPException 404 "Session not found or expired")
             {| store := m; outages := [] |}); [reflexivity|].
  by rewrite (bind_raise _ _ _ _ _ Hroute).
Qed.

(** X10: disconnecting a known session on a server that answers returns
    the number of entries removed and leaves none of the session's
    entries, the connection entry included; the entries of other sessions
    stay. *)
Theorem disconnect_removes_the_session (session_id : string) (info : row)
    (m : gmap string string) :
  glob_literal session_id = true ->
  session_known session_id info {| store := m; outages := [] |} ->
  exists n m',
    disconnect_db session_id {| store := m; outages := [] |}
    = (Ok n, {| store := m'; outages := [] |})
    /\ (forall k, m' !! k = if session_owns session_id k then None else m !! k)
    /\ n = Z.of_nat (size m) - Z.of_nat (size m')
    /\ 1 <= n.
Proof.
  intros Hs (_ & (payload & Hk & Hne & Hload) & Hkeys). simpl in Hk.
  destruct (session_clearing_exact session_id m Hs)
    as (n & m' & Hclear & Hstore & Hn).
  exists n, m'.
  assert (m' !! connection_key session_id = None) as Hgone
    by (by rewrite Hstore, session_owns_connection).
  split; [|split; [exact Hstore|split; [exact Hn|]]].
  - assert (clear_all_cache session_id {| store := m; outages := [] |}
            = (Ok n, {| store := m'; outages := [] |})) as Hroute.
    { unfold clear_all_cache, reraise_as_500, get_connection_info.
      apply try_except_ok.
      rewrite (bind_ok _ _ _ _ _ (get_cache_hit _ _ _ m Hk Hne Hload)).
      assert (truthy (PyDict info) = true) as ->; [|exact Hclear].
      destruct (Hkeys "server") as [v Hv]; [set_solver|]. by destruct info. }
    unfold disconnect_db. apply try_except_ok.
    rewrite (bind_ok _ _ _ _ _ Hroute).
    by rewrite (bind_ok _ _ _ _ _ (delete_connection_info_absent session_id m' Hgone)).
  - assert (size m' < size m)%nat; [|lia].
    apply map_subset_size. apply map_subset_alt. split.
    + apply map_subseteq_spec. intros k v. rewrite Hstore.
      by destruct (session_owns session_id k).
    + exists (connection_key session_id). rewrite Hgone, Hk. by split.
Qed.

End EndingASession.

Lemma disconnect_unknown_session_is_500_witness :
  disconnect_db (H := reference_json) "gone" (demo_cache [])
  = (Raise (HTTPException 500
              ("Error disconnecting: "
               +:+ exn_str (HTTPException 404 "Session not found or expired"))),
     demo_cache []).
Proof.
  apply (disconnect_unknown_session_is_500 (H := reference_json) "gone").
  reflexivity.
Defined.

Lemma demo_session_known outages_later :
  session_known (H := reference_json) "S" demo_parameters
    {| store := store (demo_cache outages_later); outages := [] |}.
Proof.
  split; [reflexivity|]. split.
  - eexists. split; [vm_compute; reflexivity|].
    split; [discriminate|vm_compute; reflexivity].
  - intros key Hkey.
    repeat (apply elem_of_cons in Hkey as [->|Hkey]);
      [..|by apply elem_of_nil in Hkey]; eexists; vm_compute; reflexivity.
Qed.

Lemma disconnect_removes_the_session_witness :
  exists n m',
    disconnect_db (H := reference_json) "S" (demo_cache [])
    = (Ok n, {| store := m'; outages := [] |})
    /\ (forall k, m' !! k = if session_owns "S" k then None
                            else store (demo_cache []) !! k)
    /\ n = Z.of_nat (size (store (demo_cache []))) - Z.of_nat (size m')
    /\ 1 <= n.
Proof.
  apply (disconnect_removes_the_session (H := reference_json) "S" demo_parameters).
  - reflexivity.
  - apply (demo_session_known []).
Defined.

(* ===================================================================== *)
(** ** Opening and closing the backend: [app/db/database.py] *)
(* ===================================================================== *)

Section ConnectionFacts.
Context `{JsonCodec}.

Lemma connection_info_known session_id info c :
  session_known session_id info c ->
  get_connection_info session_id c = (Ok (PyDict info), c)
  /\ truthy (PyDict info) = true.
Proof.
  intros (Hh & (payload & Hk & Hne & Hload) & Hkeys).
  destruct c as [m o]. simpl in Hh, Hk. subst o. split.
  - by apply (get_cache_hit _ payload).
  - destruct (Hkeys "server") as [v Hv]; [set_solver|]. by destruct info.
Qed.

Lemma subscript_known {B} info key v (w : world B) :
  dict_get info key = Some v -> subscript (PyDict info) key w = (Ok v, w).
Proof. intros Hv. unfold subscript. by rewrite Hv. Qed.

Lemma in_cache_eq {B A} (m : Py redis A) r c c' (b : B) :
  m c = (r, c') ->
  in_cache m {| cache := c; backend := b |} = (r, {| cache := c'; backend := b |}).
Proof. intros E. unfold in_cache. simpl. by rewrite E. Qed.

Lemma in_db_eq {B A} (m : Py B A) r c (b b' : B) :
  m b = (r, b') ->
  in_db m {| cache := c; backend := b |} = (r, {| cache := c; backend := b' |}).
Proof. intros E. unfold in_db. simpl. by rewrite E. Qed.

(** With a known session, [get_db_connection] reaches the connection
    attempt with the cache as it was. *)
Lemma get_db_connection_known {A} session_id info (body : Py session A) c b :
  session_known session_id info c ->
  get_db_connection session_id body {| cache := c; backend := b |}
  = try_finally
      (conn <- in_db connect ;;
       if negb conn
       then raise (HTTPException 500 "Failed to connect to database")
       else in_db body)
      (in_db close) {| cache := c; backend := b |}.
Proof.
  intros Hknown.
  destruct (connection_info_known _ _ _ Hknown) as [Hinfo Htrue].
  destruct Hknown as (_ & _ & Hkeys).
  unfold get_db_connection.
  rewrite (bind_ok _ _ _ _ _ (in_cache_eq _ _ _ _ b Hinfo)), Htrue. cbn [negb].
  unfold try_finally.
  destruct (Hkeys "server") as [v1 Hv1]; [set_solver|].
  destruct (Hkeys "database") as [v2 Hv2]; [set_solver|].
  destruct (Hkeys "user") as [v3 Hv3]; [set_solver|].
  destruct (Hkeys "password") as [v4 Hv4]; [set_solver|].
  destruct (Hkeys "port") as [v5 Hv5]; [set_solver|].
  rewrite (bind_ok _ _ _ _ _ (subscript_known _ _ _ _ Hv1)).
  rewrite (bind_ok _ _ _ _ _ (subscript_known _ _ _ _ Hv2)).
  rewrite (bind_ok _ _ _ _ _ (subscript_known _ _ _ _ Hv3)).
  rewrite (bind_ok _ _ _ _ _ (subscript_known _ _ _ _ Hv4)).
  by rewrite (bind_ok _ _ _ _ _ (subscript_known _ _ _ _ Hv5)).
Qed.

(** With a known session and a server that accepts connections, the body
    runs on the connected driver object, which is closed afterwards. *)
Lemma get_db_connection_runs {A} session_id info (body : Py session A) c b :
  session_known session_id info c -> reachable b = true ->
  get_db_connection session_id body {| cache := c; backend := b |}
  = ((body (opened b)).1,
     {| cache := c; backend := closed (body (opened b)).2 |}).
Proof.
  intros Hknown Hreach.
  rewrite (get_db_connection_known _ _ _ _ _ Hknown).
  unfold try_finally.
  assert (connect b = (Ok true, opened b)) as Hconn.
  { destruct b as [cn rc sv fl lg]. simpl in Hreach. by subst rc. }
  rewrite (bind_ok _ _ _ _ _ (in_db_eq _ _ c _ _ Hconn)). cbn [negb].
  unfold in_db. simpl. by destruct (body (opened b)) as [r b'].
Qed.

Lemma try_finally_final {S A} (m : Py S A) (f : Py S unit) s r s' (P : S -> Prop) :
  (forall s1 o s2, f s1 = (o, s2) -> P s2) ->
  try_finally m f s = (r, s') -> P s'.
Proof.
  intros Hf E. unfold try_finally in E.
  destruct (m s) as [r1 s1]. destruct (f s1) as [[[]|e] s2] eqn:Ef;
    simplify_eq; eauto.
Qed.

(** X11: [get_db_connection] never leaves a connection open.  Whatever the
    cache holds, whatever the body does and however it ends, the driver
    object that was not connected before is not connected afterwards. *)
Theorem get_db_connection_always_closes {A} (session_id : string)
    (body : Py session A) (w w' : world session) (r : outcome A) :
  conn (backend w) = false ->
  get_db_connection session_id body w = (r, w') ->
  conn (backend w') = false.
Proof.
  intros Hc E. unfold get_db_connection, bind in E.
  destruct (in_cache (get_connection_info session_id) w) as [[info|e] w1] eqn:Einfo.
  - assert (backend w1 = backend w) as Hb.
    { unfold in_cache in Einfo.
      destruct (get_connection_info session_id (cache w)). by simplify_eq. }
    destruct (negb (truthy info)).
    { unfold raise in E. simplify_eq. by rewrite Hb. }
    destruct info; try (unfold raise in E; simplify_eq; by rewrite Hb).
    eapply (try_finally_final _ _ _ _ _ (fun w => conn (backend w) = false));
      [|exact E].
    intros w2 o w3 Eclose. unfold in_db in Eclose. simpl in Eclose. by simplify_eq.
  - unfold in_cache in Einfo.
    destruct (get_connection_info session_id (cache w)). by simplify_eq.
Qed.

(** X12: when the server refuses the connection, the body of the [with]
    block never runs: a known session gets status 500, the driver object
    is closed with its log as it was, and the cache is untouched. *)
Theorem unreachable_server_never_runs_body {A} (session_id : string) (info : row)
    (body : Py session A) (c : redis) (b : session) :
  session_known session_id info c ->
  reachable b = false ->
  get_db_connection session_id body {| cache := c; backend := b |}
  = (Raise (HTTPException 500 "Failed to connect to database"),
     {| cache := c; backend := closed b |}).
Proof.
  intros Hknown Hreach.
  rewrite (get_db_connection_known _ _ _ _ _ Hknown).
  unfold try_finally.
  assert (connect b = (Ok false, b)) as Hconn.
  { destruct b as [cn rc sv fl lg]. simpl in Hreach. by subst rc. }
  by rewrite (bind_ok _ _ _ _ _ (in_db_eq _ _ c _ _ Hconn)).
Qed.

End ConnectionFacts.

Lemma get_db_connection_always_closes_witness :
  conn (backend (get_db_connection (H := reference_json) "S"
                   (MySQL.run (CountRows "users")) (demo_world [])).2) = false.
Proof.
  eapply (get_db_connection_always_closes (H := reference_json) "S"
            (MySQL.run (CountRows "users")) (demo_world [])).
  - reflexivity.
  - apply surjective_pairing.
Defined.

Lemma unreachable_server_never_runs_body_witness :
  get_db_connection (H := reference_json) "S" (MySQL.run (CountRows "users"))
    {| cache := demo_cache [];
       backend := {| conn := false; reachable := false; srv := demo_server;
                     faults := []; log := [];
                     unread := false |} |}
  = (Raise (HTTPException 500 "Failed to connect to database"),
     {| cache := demo_cache [];
        backend := {| conn := false; reachable := false; srv := demo_server;
                      faults := []; log := [];
                     unread := false |} |}).
Proof.
  apply (unreachable_server_never_runs_body (H := reference_json) "S" demo_parameters).
  - apply (demo_session_known []).
  - reflexivity.
Defined.

(* ===================================================================== *)
(** ** The count route: GET /{table_name}/count *)
(* ===================================================================== *)

Lemma pretty_N_go_length (x : N) (s : string) :
  (String.length s <= String.length (pretty_N_go x s))%nat.
Proof.
  revert s. induction (N.lt_wf_0 x) as [x _ IH]; intros s.
  assert (x = 0 \/ 0 < x)%N as [->|Hpos] by lia; [by rewrite pretty_N_go_0|].
  rewrite pretty_N_go_step by done.
  etrans; [|by eapply IH, N.div_lt]. simpl. lia.
Qed.

(** The decimal text of an integer is never empty. *)
Lemma pretty_Z_nonempty (z : Z) : pretty z <> "".
Proof.
  destruct z as [|p|p]; [done| |done].
  unfold pretty, pretty_Z, pretty, pretty_positive, pretty, pretty_N.
  case_decide; [done|].
  rewrite pretty_N_go_step by lia. intros Hz.
  pose proof (pretty_N_go_length (N.pos p `div` 10)
                (String (pretty_N_char (N.pos p `mod` 10)) "")) as Hlen.
  rewrite Hz in Hlen. simpl in Hlen. lia.
Qed.

Lemma online_opened b :
  faults b = [] -> opened b = online (reachable b) (srv b) (log b).
Proof. intros Hf. unfold opened, online. by rewrite Hf. Qed.

(** What the MySQL driver counts on a healthy connection. *)
Lemma mysql_count_online t rc s l :
  exists l',
    MySQL.get_table_record_count t (online rc s l)
    = (Ok match tables s !! t with
          | Some tb => Z.of_nat (length (rows tb))
          | None => 0
          end, online rc s l').
Proof.
  unfold MySQL.get_table_record_count, try_except.
  rewrite bind_self_conn_online. cbn [negb].
  destruct (tables s !! t) as [tb|] eqn:Ht.
  - rewrite (bind_ok _ _ _ _ _ (mysql_validate_present t tb rc s l Ht)).
    unfold MySQL.run. rewrite bind_execute_online. answer.
    rewrite Ht. simpl. eauto.
  - rewrite (bind_raise _ _ _ _ _ (mysql_validate_missing t rc s l Ht)).
    unfold ret. eauto.
Qed.

Section CountRoute.
Context `{JsonCodec}.

Lemma count_hit {B : Type} `{Driver B}
    (session_id table_name payload : string) (v : pyval) (c : redis) (b : B) :
  session_id <> "" ->
  outages c = [] ->
  store c !! count_key session_id table_name = Some payload ->
  payload <> "" ->
  json_loads payload = Ok v ->
  v <> PyNone ->
  get_table_count table_name (Some session_id) {| cache := c; backend := b |}
  = (Ok v, {| cache := c; backend := b |}).
Proof.
  intros Hsid Hh Hk Hne Hload Hv.
  unfold get_table_count, require_session.
  apply String.eqb_neq in Hsid. rewrite Hsid.
  destruct c as [m o]. simpl in Hh, Hk. subst o.
  unfold get_cached_table_count.
  rewrite (bind_ok _ _ _ _ _
             (in_cache_eq _ _ _ _ b (get_cache_hit _ _ _ m Hk Hne Hload))).
  by destruct v.
Qed.

(** X13: a cached count is served without looking at the session.  When
    the store holds a readable count for the session id and table of the
    request, [get_table_count] returns it and touches neither the store
    nor the backend; whether the session still has a connection entry is
    never asked. *)
Theorem cached_count_is_served_unchecked {B : Type} `{Driver B}
    (session_id table_name payload : string) (v : pyval) (c : redis) (b : B) :
  session_id <> "" ->
  outages c = [] ->
  store c !! count_key session_id table_name = Some payload ->
  payload <> "" ->
  json_loads payload = Ok v ->
  v <> PyNone ->
  get_table_count table_name (Some session_id) {| cache := c; backend := b |}
  = (Ok v, {| cache := c; backend := b |}).
Proof. apply count_hit. Qed.

(** X14: the count route reads through the cache.  With a known session,
    a server that accepts the connection and answers every statement, and
    no count in the store yet, the first request asks the MySQL driver and
    returns the number of rows of the table (0 for a table that does not
    exist); the second request returns the same number from the store and
    does not open the backend: the driver's log is as the first request
    left it. *)
Theorem count_read_through (session_id table_name : string) (info : row)
    (c : redis) (b : session) :
  let n := match tables (srv b) !! table_name with
           | Some tb => Z.of_nat (length (rows tb))
           | None => 0
           end in
  session_id <> "" ->
  session_known session_id info c ->
  store c !! count_key session_id table_name = None ->
  reachable b = true ->
  faults b = [] ->
  json_loads (pretty n) = Ok (PyInt n) ->
  exists w1,
    get_table_count table_name (Some session_id) {| cache := c; backend := b |}
    = (Ok (PyInt n), w1)
    /\ get_table_count table_name (Some session_id) w1 = (Ok (PyInt n), w1)
    /\ srv (backend w1) = srv b
    /\ conn (backend w1) = false.
Proof.
  intros n Hsid Hknown Hmiss Hreach Hf Hload.
  pose proof Hknown as (Hh & _ & _).
  destruct c as [m o]. simpl in Hh, Hmiss. subst o.
  destruct (mysql_count_online table_name (reachable b) (srv b) (log b)) as [l' Hcount].
  fold n in Hcount.
  set (m1 := <[count_key session_id table_name := pretty n]> m).
  exists {| cache := {| store := m1; outages := [] |};
            backend := closed (online (reachable b) (srv b) l') |}.
  split; [|split; [|done]].
  - unfold get_table_count, require_session.
    pose proof Hsid as Hsid'. apply String.eqb_neq in Hsid'. rewrite Hsid'.
    unfold get_cached_table_count.
    rewrite (bind_ok _ _ _ _ _ (in_cache_eq _ _ _ _ b (get_cache_miss _ m Hmiss))).
    assert (get_db_connection session_id (get_table_record_count table_name)
              {| cache := {| store := m; outages := [] |}; backend := b |}
            = (Ok n, {| cache := {| store := m; outages := [] |};
                        backend := closed (online (reachable b) (srv b) l') |}))
      as Hdb.
    { rewrite (get_db_connection_runs session_id info _ _ b Hknown Hreach).
      rewrite (online_opened b Hf). simpl get_table_record_count.
      by rewrite Hcount. }
    rewrite (bind_ok _ _ _ _ _ Hdb).
    unfold cache_table_count.
    by rewrite (bind_ok _ _ _ _ _
                  (in_cache_eq _ _ _ _ _ (set_cache_healthy _ (PyInt n) 1800 m))).
  - apply (count_hit _ _ (pretty n)); try done.
    + apply lookup_insert_eq.
    + apply pretty_Z_nonempty.
Qed.

End CountRoute.

Lemma cached_count_is_served_unchecked_witness :
  get_table_count (H := reference_json) "users" (Some "S")
    {| cache := {| store := <["S:table:users:count" := "3"]> ∅; outages := [] |};
       backend := demo_session [] |}
  = (Ok (PyInt 3),
     {| cache := {| store := <["S:table:users:count" := "3"]> ∅; outages := [] |};
        backend := demo_session [] |}).
Proof.
  apply (cached_count_is_served_unchecked (H := reference_json) "S" "users" "3").
  - discriminate.
  - reflexivity.
  - reflexivity.
  - discriminate.
  - vm_compute. reflexivity.
  - discriminate.
Defined.

Lemma count_read_through_witness :
  exists w1,
    get_table_count (H := reference_json) "heap" (Some "S") (demo_world [])
    = (Ok (PyInt 3), w1)
    /\ get_table_count (H := reference_json) "heap" (Some "S") w1 = (Ok (PyInt 3), w1)
    /\ srv (backend w1) = demo_server
    /\ conn (backend w1) = false.
Proof.
  apply (count_read_through (H := reference_json) "S" "heap" demo_parameters
           (demo_cache []) (backend (demo_world []))).
  - discriminate.
  - apply (demo_session_known []).
  - reflexivity.
  - reflexivity.
  - reflexivity.
  - vm_compute. reflexivity.
Defined.

(* ===================================================================== *)
(** ** Record routes and sessions that are gone *)
(* ===================================================================== *)

Section RecordRoutes.
Context `{JsonCodec}.

Lemma get_db_connection_unknown {B : Type} `{Driver B} {A} session_id
    (body : Py B A) m (b : B) :
  m !! connection_key session_id = None ->
  get_db_connection session_id body
    {| cache := {| store := m; outages := [] |}; backend := b |}
  = (Raise (HTTPException 401 "Invalid or expired session"),
     {| cache := {| store := m; outages := [] |}; backend := b |}).
Proof.
  intros Hk. unfold get_db_connection, get_connection_info.
  by rewrite (bind_ok _ _ _ _ _ (in_cache_eq _ _ _ _ b (get_cache_miss _ m Hk))).
Qed.

(** X15: the three single-record write routes answer a request of a
    session that has no connection entry with status 500 and
    [success: false], not with 401: the 401 raised by [get_db_connection]
    is caught by the handler of the route and becomes part of the message.
    The bulk route answers such a request with status 200.  Neither the
    store nor the backend is touched. *)
Theorem expired_session_on_write_routes {B : Type} `{Driver B}
    (bulk : option (string -> list string -> Py B Z))
    (session_id table_name record_id column : string) (value : pyval)
    (data : row) (first_id : string) (more_ids : list string)
    (m : gmap string string) (b : B) :
  let w := {| cache := {| store := m; outages := [] |}; backend := b |} in
  let detail := exn_str (HTTPException 401 "Invalid or expired session") in
  session_id <> "" ->
  m !! connection_key session_id = None ->
  create_table_record table_name data (Some session_id) w
  = (Ok {| status := 500; success := false;
           message := "Error creating record: " +:+ detail;
           created_id := None; deleted_count := None |}, w)
  /\ update_table_record table_name record_id column value (Some session_id) w
     = (Ok {| status := 500; success := false;
              message := "Error updating record: " +:+ detail;
              created_id := None; deleted_count := None |}, w)
  /\ delete_single_record table_name record_id (Some session_id) w
     = (Ok {| status := 500; success := false;
              message := "Error deleting record: " +:+ detail;
              created_id := None; deleted_count := None |}, w)
  /\ bulk_delete_records bulk table_name (first_id :: more_ids) (Some session_id) w
     = (Ok {| status := 200; success := false;
              message := "Error deleting records: " +:+ detail;
              created_id := None; deleted_count := Some 0 |}, w).
Proof.
  intros w detail Hsid Hk. apply String.eqb_neq in Hsid.
  unfold create_table_record, update_table_record, delete_single_record,
    bulk_delete_records, require_session. rewrite Hsid.
  repeat split.
  - rewrite (try_except_raise _ _ _ (HTTPException 401 "Invalid or expired session") w);
      [reflexivity|].
    by rewrite (bind_raise _ _ _ _ _ (get_db_connection_unknown _ _ m b Hk)).
  - rewrite (try_except_raise _ _ _ (HTTPException 401 "Invalid or expired session") w);
      [reflexivity|].
    by rewrite (bind_raise _ _ _ _ _ (get_db_connection_unknown _ _ m b Hk)).
  - unfold bind at 1.
    rewrite (try_except_raise _ _ _ (HTTPException 401 "Invalid or expired session") w);
      [reflexivity|].
    by rewrite (bind_raise _ _ _ _ _ (get_db_connection_unknown _ _ m b Hk)).
  - rewrite (try_except_raise _ _ _ (HTTPException 401 "Invalid or expired session") w);
      [reflexivity|].
    by rewrite (bind_raise _ _ _ _ _ (get_db_connection_unknown _ _ m b Hk)).
Qed.

Lemma keeps_status_invalidate {B : Type} session_id table_name (w : world B) :
  exists n w', in_cache (invalidate_table_cache session_id table_name) w = (Ok n, w').
Proof.
  unfold in_cache.
  destruct (invalidate_never_raises session_id table_name (cache w)) as (n & r' & E).
  rewrite E. eauto.
Qed.

(** X16: the bulk-delete route never fails a request that carries a
    session id.  Whatever the cookie's session, the list of ids, the
    driver and the Redis server do, it returns a body, with status 200;
    every error is reported inside that body. *)
Theorem bulk_delete_always_answers_200 {B : Type} `{Driver B}
    (bulk : option (string -> list string -> Py B Z))
    (session_id table_name : string) (record_ids : list string) (w : world B) :
  session_id <> "" ->
  exists resp w',
    bulk_delete_records bulk table_name record_ids (Some session_id) w
    = (Ok resp, w')
    /\ status resp = 200.
Proof.
  intros Hsid. apply String.eqb_neq in Hsid.
  unfold bulk_delete_records, require_session. rewrite Hsid.
  unfold try_except.
  destruct record_ids as [|id ids]; [unfold ret; eauto|].
  unfold bind at 1.
  destruct (get_db_connection _ _ w) as [[deleted|e] w1]; [|unfold ret; eauto].
  destruct (0 <? deleted).
  - unfold bind.
    destruct (keeps_status_invalidate session_id table_name w1) as (n & w2 & E).
    rewrite E. unfold ret. eauto.
  - unfold bind, ret. eauto.
Qed.

(** X17: the bulk-delete route reports success although nothing was
    deleted.  When the driver's bulk method runs and returns 0, the answer
    is [success: true] with [deleted_count: 0], and the cache is not
    invalidated: the store is as it was. *)
Theorem bulk_delete_succeeds_without_deleting
    (method : string -> list string -> Py session Z)
    (session_id table_name first_id : string) (more_ids : list string)
    (info : row) (c : redis) (b b' : session) :
  session_id <> "" ->
  session_known session_id info c ->
  reachable b = true ->
  method table_name (first_id :: more_ids) (opened b) = (Ok 0, b') ->
  bulk_delete_records (Some method) table_name (first_id :: more_ids)
    (Some session_id) {| cache := c; backend := b |}
  = (Ok {| status := 200; success := true;
           message := "Successfully deleted 0 record(s)";
           created_id := None; deleted_count := Some 0 |},
     {| cache := c; backend := closed b' |}).
Proof.
  intros Hsid Hknown Hreach Hrun. apply String.eqb_neq in Hsid.
  unfold bulk_delete_records, require_session. rewrite Hsid.
  apply try_except_ok.
  assert (get_db_connection session_id (method table_name (first_id :: more_ids))
            {| cache := c; backend := b |}
          = (Ok 0, {| cache := c; backend := closed b' |})) as Hdb.
  { rewrite (get_db_connection_runs session_id info _ _ b Hknown Hreach).
    by rewrite Hrun. }
  by rewrite (bind_ok _ _ _ _ _ Hdb).
Qed.

(** X18: the single-record route never answers 404.  Every error that
    leaves it is the 401 for a missing cookie or a 500.  When the lookup
    runs on a healthy MySQL connection, on a table with a primary key or
    with one column, and selects no row, the 404 raised for it inside the
    [try] block is caught by the route's own handler and leaves as a 500
    that carries the 404 in its text.  On a table without primary key and
    with two columns or more the lookup is not sent: the key look-up left
    its result unread, and the route answers 500 for every id. *)
Theorem single_record_never_answers_404 :
  (forall (key_of_table : string -> Py session string)
          (table_name record_id : string) (cookie : option string)
          (w w' : world session) (e : exn),
      get_single_record key_of_table table_name record_id cookie w = (Raise e, w') ->
      e = HTTPException 401 "Session ID required"
      \/ exists detail, e = HTTPException 500 detail)
  /\ (forall (session_id table_name record_id : string) (info : row) (tb : table)
             (c : redis) (b : session),
        session_id <> "" ->
        session_known session_id info c ->
        reachable b = true ->
        faults b = [] ->
        tables (srv b) !! table_name = Some tb ->
        key_found tb = true ->
        key_column tb "id" ∈ columns tb ->
        rows_with (key_column tb "id") record_id (rows tb) = [] ->
        (get_single_record MySQL._get_primary_key_or_first_column
           table_name record_id (Some session_id)
           {| cache := c; backend := b |}).1
        = Raise (HTTPException 500
                   ("Error retrieving record: "
                    +:+ exn_str (HTTPException 404 "Record not found"))))
  /\ (forall (session_id table_name record_id : string) (info : row) (tb : table)
             (c : redis) (b : session),
        session_id <> "" ->
        session_known session_id info c ->
        reachable b = true ->
        faults b = [] ->
        tables (srv b) !! table_name = Some tb ->
        key_found tb = false ->
        get_single_record MySQL._get_primary_key_or_first_column
          table_name record_id (Some session_id)
          {| cache := c; backend := b |}
        = (Raise (HTTPException 500
                    ("Error retrieving record: " +:+ exn_str unread_result)),
           {| cache := c;
              backend := closed (logged b [(PrimaryKeyOf table_name, false);
                                           (ShowColumns table_name, false)]) |})).
Proof.
  split; [|split].
  - intros key_of_table table_name record_id cookie w w' e E.
    unfold get_single_record, require_session in E.
    destruct cookie as [session_id|]; [|unfold raise in E; simplify_eq; by left].
    destruct (String.eqb session_id ""); [unfold raise in E; simplify_eq; by left|].
    unfold try_except in E.
    destruct (get_db_connection _ _ w) as [[x|e'] w1]; [by simplify_eq|].
    unfold raise in E. simplify_eq. right. eauto.
  - intros session_id table_name record_id info tb c b
      Hsid Hknown Hreach Hf Ht Hfound Hkey Hnone.
    apply String.eqb_neq in Hsid.
    unfold get_single_record, require_session. rewrite Hsid.
    destruct (mysql_key_column table_name tb (reachable b) (srv b) (log b) Ht Hfound)
      as [l' Hk].
    unfold try_except.
    rewrite (get_db_connection_runs session_id info _ _ b Hknown Hreach).
    rewrite (online_opened b Hf), (bind_ok _ _ _ _ _ Hk).
    rewrite bind_execute_online. answer. rewrite Ht.
    rewrite bool_decide_eq_true_2 by done. simpl.
    unfold rows_with in Hnone. by rewrite Hnone.
  - intros session_id table_name record_id info tb c b
      Hsid Hknown Hreach Hf Ht Hfound.
    apply String.eqb_neq in Hsid.
    unfold get_single_record, require_session. rewrite Hsid.
    unfold try_except.
    rewrite (get_db_connection_runs session_id info _ _ b Hknown Hreach).
    rewrite (online_opened b Hf).
    rewrite (bind_ok _ _ _ _ _
               (mysql_key_column_unread table_name tb _ _ _ Ht Hfound)).
    rewrite mysql_run_unread by reflexivity.
    unfold raise, closed, logged, with_unread, online. simpl.
    by rewrite Hf.
Qed.

End RecordRoutes.

Lemma expired_session_on_write_routes_witness :
  (create_table_record (H := reference_json) "users" [("name", PyStr "dee")]
     (Some "gone") (demo_world [])).1
  = Ok {| status := 500; success := false;
          message := "Error creating record: 401: Invalid or expired session";
          created_id := None; deleted_count := None |}.
Proof.
  destruct (expired_session_on_write_routes (H := reference_json) None
              "gone" "users" "1" "name" (PyStr "dee") [("name", PyStr "dee")]
              "1" [] (store (demo_cache [])) (backend (demo_world [])))
    as (Hcreate & _).
  - discriminate.
  - reflexivity.
  - change (demo_world []) with
      {| cache := {| store := store (demo_cache []); outages := [] |};
         backend := backend (demo_world []) |}.
    by rewrite Hcreate.
Defined.

Lemma bulk_delete_always_answers_200_witness :
  exists resp w',
    bulk_delete_records (H := reference_json) None "nowhere" ["1"; "2"] (Some "S")
      (demo_world [true])
    = (Ok resp, w')
    /\ status resp = 200.
Proof.
  apply (bulk_delete_always_answers_200 (H := reference_json)). discriminate.
Defined.

Lemma bulk_delete_succeeds_without_deleting_witness :
  bulk_delete_records (H := reference_json) (Some (fun _ _ => ret 0)) "users" ["9"]
    (Some "S") (demo_world [])
  = (Ok {| status := 200; success := true;
           message := "Successfully deleted 0 record(s)";
           created_id := None; deleted_count := Some 0 |},
     {| cache := demo_cache [];
        backend := closed (opened (backend (demo_world []))) |}).
Proof.
  apply (bulk_delete_succeeds_without_deleting (H := reference_json)
           (fun _ _ => ret 0) "S" "users" "9" [] demo_parameters
           (demo_cache []) (backend (demo_world []))).
  - discriminate.
  - apply (demo_session_known []).
  - reflexivity.
  - reflexivity.
Defined.

Lemma single_record_never_answers_404_witness :
  (get_single_record (H := reference_json) MySQL._get_primary_key_or_first_column
     "users" "9" (Some "S") (demo_world [])).1
  = Raise (HTTPException 500 "Error retrieving record: 404: Record not found").
Proof.
  destruct (single_record_never_answers_404 (H := reference_json))
    as (_ & Hmissing & _).
  apply (Hmissing "S" "users" "9" demo_parameters demo_users
           (demo_cache []) (backend (demo_world []))).
  - discriminate.
  - apply (demo_session_known []).
  - reflexivity.
  - reflexivity.
  - reflexivity.
  - reflexivity.
  - vm_compute. set_solver.
  - reflexivity.
Defined.

(* ===================================================================== *)
(** ** What the read methods of the SQL drivers leave behind *)
(* ===================================================================== *)

Lemma exec_reads_only d q s : reads_only q = true -> (exec d q s).2 = s.
Proof.
  intros Hq. unfold exec. destruct (unbound_markers d q); [reflexivity|].
  destruct q; try discriminate; simpl; try reflexivity;
    unfold with_table; destruct (tables s !! _) as [t|]; try reflexivity;
    repeat (match goal with
            | |- context [if ?c then _ else _] => destruct c
            | |- context [match ?c with None => _ | Some _ => _ end] => destruct c
            end; try reflexivity).
Qed.

Lemma keeps_data_ret {A} (a : A) : keeps_data (ret a).
Proof. intros st r st' E. unfold ret in E. by simplify_eq. Qed.

Lemma keeps_data_raise {A} (e : exn) : keeps_data (@raise _ A e).
Proof. intros st r st' E. unfold raise in E. by simplify_eq. Qed.

Lemma keeps_data_self_conn : keeps_data self_conn.
Proof. intros st r st' E. unfold self_conn in E. by simplify_eq. Qed.

Lemma keeps_data_bind {A C} (m : Py session A) (k : A -> Py session C) :
  keeps_data m -> (forall a, keeps_data (k a)) -> keeps_data (bind m k).
Proof.
  intros Hm Hk st r st' E. unfold bind in E.
  destruct (m st) as [[a|e] st1] eqn:Em.
  - rewrite (Hk a _ _ _ E). eapply Hm; eauto.
  - simplify_eq. eapply Hm; eauto.
Qed.

Lemma keeps_data_try_except {A} (m : Py session A) (h : exn -> Py session A) :
  keeps_data m -> (forall e, keeps_data (h e)) -> keeps_data (try_except m h).
Proof.
  intros Hm Hh st r st' E. unfold try_except in E.
  destruct (m st) as [[a|e] st1] eqn:Em.
  - simplify_eq. eapply Hm; eauto.
  - rewrite (Hh e _ _ _ E). eapply Hm; eauto.
Qed.

Lemma keeps_data_execute d q : reads_only q = true -> keeps_data (execute d q).
Proof.
  intros Hq st r st' E. unfold execute in E.
  pose proof (exec_reads_only d q (srv st) Hq) as Hsame.
  destruct (conn st); simpl in E; [|by simplify_eq].
  destruct (match d with MySQLDialect => unread st | TSQLDialect => false end);
    [by simplify_eq|].
  destruct (faults st) as [|[] later];
    try destruct (exec d q (srv st)) as [r0 s0]; simpl in *; by simplify_eq.
Qed.

Lemma keeps_data_close_after_fetchone r : keeps_data (close_after_fetchone r).
Proof.
  intros st o st' E. unfold close_after_fetchone in E.
  destruct (fetched r) as [|? [|? ?]]; by simplify_eq.
Qed.

Lemma keeps_data_fetchone_0_as_dict r : keeps_data (fetchone_0_as_dict r).
Proof.
  unfold fetchone_0_as_dict. destruct (fetched r); apply keeps_data_raise.
Qed.

Lemma keeps_data_conn_database : keeps_data conn_database.
Proof. intros st r st' E. unfold conn_database in E. by simplify_eq. Qed.

Lemma keeps_data_fetchone_0 r : keeps_data (fetchone_0 r).
Proof.
  unfold fetchone_0. destruct (fetched r) as [|[|[c v] ?] ?];
    auto using keeps_data_ret, keeps_data_raise.
Qed.

Lemma keeps_data_as_int v : keeps_data (as_int v).
Proof. unfold as_int. destruct v; auto using keeps_data_ret, keeps_data_raise. Qed.

Lemma keeps_data_ceil_div a b : keeps_data (ceil_div a b).
Proof.
  unfold ceil_div. destruct (b =? 0); auto using keeps_data_ret, keeps_data_raise.
Qed.

Lemma keeps_data_int_of_string s : keeps_data (int_of_string s).
Proof.
  unfold int_of_string. destruct s; [apply keeps_data_raise|].
  destruct (digits_value _ _); auto using keeps_data_ret, keeps_data_raise.
Qed.

Lemma keeps_data_column_0 rs : keeps_data (column_0 rs).
Proof.
  induction rs as [|[|[c v] r] rs IH]; simpl;
    [apply keeps_data_ret | apply keeps_data_raise |].
  apply keeps_data_bind; [exact IH|]. intros vs. apply keeps_data_ret.
Qed.

Lemma keeps_data_columns_0_1 rs : keeps_data (MSSQLReads.columns_0_1 rs).
Proof.
  induction rs as [|[|[c v] [|[c' v'] r]] rs IH]; simpl;
    [apply keeps_data_ret | apply keeps_data_raise | apply keeps_data_raise |].
  apply keeps_data_bind; [exact IH|]. intros vs. apply keeps_data_ret.
Qed.

(** Solves [keeps_data] goals over straight-line code. *)
Ltac still :=
  repeat lazymatch goal with
  | |- keeps_data (ret _) => apply keeps_data_ret
  | |- keeps_data (raise _) => apply keeps_data_raise
  | |- keeps_data self_conn => apply keeps_data_self_conn
  | |- keeps_data (fetchone_0 _) => apply keeps_data_fetchone_0
  | |- keeps_data (fetchone_0_as_dict _) => apply keeps_data_fetchone_0_as_dict
  | |- keeps_data (close_after_fetchone _) => apply keeps_data_close_after_fetchone
  | |- keeps_data conn_database => apply keeps_data_conn_database
  | |- keeps_data (MSSQLReads.columns_0_1 _) => apply keeps_data_columns_0_1
  | |- keeps_data (as_int _) => apply keeps_data_as_int
  | |- keeps_data (ceil_div _ _) => apply keeps_data_ceil_div
  | |- keeps_data (int_of_string _) => apply keeps_data_int_of_string
  | |- keeps_data (column_0 _) => apply keeps_data_column_0
  | |- keeps_data (execute _ _) => apply keeps_data_execute; reflexivity
  | |- keeps_data (bind _ _) => apply keeps_data_bind; [|intros ?]
  | |- keeps_data (try_except _ _) => apply keeps_data_try_except; [|intros ?]
  | |- keeps_data (if ?c then _ else _) => destruct c
  | |- keeps_data (match ?x with _ => _ end) => destruct x
  | |- keeps_data _ => assumption
  end.

Lemma mysql_validate_keeps_data t : keeps_data (MySQL._validate_table_exists t).
Proof. unfold MySQL._validate_table_exists, MySQL.run. still. Qed.

Lemma mssql_validate_keeps_data t : keeps_data (MSSQL._validate_table_exists t).
Proof. unfold MSSQL._validate_table_exists, MSSQL.run. still. Qed.

Lemma mysql_validate_columns_keeps_data t cols :
  keeps_data (MySQL._validate_columns t cols).
Proof.
  unfold MySQL._validate_columns. generalize (@nil string) as acc.
  induction cols as [|c cols IH]; intros acc; simpl.
  - still.
  - unfold MySQL.run.
    repeat (apply keeps_data_bind; [still|intros ?]). apply IH.
Qed.

Lemma mssql_validate_columns_keeps_data t cols :
  keeps_data (MSSQL._validate_columns t cols).
Proof.
  unfold MSSQL._validate_columns. generalize (@nil string) as acc.
  induction cols as [|c cols IH]; intros acc; simpl.
  - still.
  - unfold MSSQL.run.
    repeat (apply keeps_data_bind; [still|intros ?]). apply IH.
Qed.

Lemma choose_columns_keeps_data validate cols :
  (forall cs, keeps_data (validate cs)) ->
  keeps_data (MySQL.choose_columns validate cols).
Proof.
  intros Hv. unfold MySQL.choose_columns.
  destruct cols as [[|c cs]|]; [still| |still].
  apply keeps_data_bind; [apply Hv|]. intros vc. still.
Qed.

Lemma mysql_key_keeps_data t : keeps_data (MySQL._get_primary_key_or_first_column t).
Proof. unfold MySQL._get_primary_key_or_first_column, MySQL.run. still. Qed.

Lemma mssql_key_keeps_data t : keeps_data (MSSQL._get_primary_key_or_first_column t).
Proof. unfold MSSQL._get_primary_key_or_first_column, MSSQL.run. still. Qed.

Lemma mysql_page_keeps_data t page page_size cols :
  keeps_data (MySQL.get_paginated_records t page page_size cols).
Proof.
  unfold MySQL.get_paginated_records, MySQL.run.
  apply keeps_data_try_except; [|intros ?; still].
  apply keeps_data_bind; [still|]. intros c. destruct (negb c); [still|].
  apply keeps_data_bind; [apply mysql_validate_keeps_data|]. intros _.
  do 4 (apply keeps_data_bind; [still|intros ?]).
  apply keeps_data_bind.
  { apply choose_columns_keeps_data. apply mysql_validate_columns_keeps_data. }
  intros cs. still.
Qed.

Lemma mssql_page_keeps_data t page page_size cols :
  keeps_data (MSSQL.get_paginated_records t page page_size cols).
Proof.
  unfold MSSQL.get_paginated_records, MSSQL.run.
  apply keeps_data_try_except; [|intros ?; still].
  apply keeps_data_bind; [still|]. intros c. destruct (negb c); [still|].
  apply keeps_data_bind; [apply mssql_validate_keeps_data|]. intros _.
  do 4 (apply keeps_data_bind; [still|intros ?]).
  apply keeps_data_bind; [unfold MSSQL.major_version, MSSQL.run; still|]. intros major.
  apply keeps_data_bind.
  { apply choose_columns_keeps_data. apply mssql_validate_columns_keeps_data. }
  intros cs.
  apply keeps_data_bind.
  { destruct (11 <=? major); [|still].
    unfold MSSQL.offset_fetch_page, MSSQL.run. still. }
  intros r1. apply keeps_data_bind.
  { destruct r1; [still|]. unfold MSSQL.row_number_page, MSSQL.run. still. }
  intros r2. apply keeps_data_bind; [|intros ?; still].
  destruct r2; [still|]. unfold MSSQL.top_page, MSSQL.run.
  apply keeps_data_try_except; [|intros ?; still].
  apply keeps_data_bind; [|intros ?; still].
  destruct (page =? 1); [still|].
  apply keeps_data_bind; [apply mssql_key_keeps_data|]. intros ?. still.
Qed.

Lemma keeps_documents_ret {A} (a : A) : keeps_documents (ret a).
Proof. intros st r st' E. unfold ret in E. by simplify_eq. Qed.

Lemma keeps_documents_raise {A} (e : exn) : keeps_documents (@raise _ A e).
Proof. intros st r st' E. unfold raise in E. by simplify_eq. Qed.

Lemma keeps_documents_self_db : keeps_documents Mongo.self_db.
Proof.
  intros st r st' E. unfold Mongo.self_db in E. destruct (db st); by simplify_eq.
Qed.

Lemma keeps_documents_bind {A C} (m : Py mongo A) (k : A -> Py mongo C) :
  keeps_documents m -> (forall a, keeps_documents (k a)) -> keeps_documents (bind m k).
Proof.
  intros Hm Hk st r st' E. unfold bind in E.
  destruct (m st) as [[a|e] st1] eqn:Em.
  - rewrite (Hk a _ _ _ E). eapply Hm; eauto.
  - simplify_eq. eapply Hm; eauto.
Qed.

Lemma keeps_documents_try_except {A} (m : Py mongo A) (h : exn -> Py mongo A) :
  keeps_documents m -> (forall e, keeps_documents (h e)) ->
  keeps_documents (try_except m h).
Proof.
  intros Hm Hh st r st' E. unfold try_except in E.
  destruct (m st) as [[a|e] st1] eqn:Em.
  - simplify_eq. eapply Hm; eauto.
  - rewrite (Hh e _ _ _ E). eapply Hm; eauto.
Qed.

Lemma keeps_documents_call {A}
    (f : gmap string (list document) -> outcome A * gmap string (list document)) :
  (forall cs, (f cs).2 = cs) -> keeps_documents (call f).
Proof.
  intros Hf st r st' E. unfold call in E.
  pose proof (Hf (collections st)) as Hsame.
  destruct (mongo_faults st) as [|[] later];
    try destruct (f (collections st)) as [r0 cs0]; simpl in *; by simplify_eq.
Qed.

Lemma keeps_documents_ceil_div a b : keeps_documents (ceil_div a b).
Proof.
  unfold ceil_div.
  destruct (b =? 0); auto using keeps_documents_ret, keeps_documents_raise.
Qed.

(** Solves [keeps_documents] goals over straight-line code. *)
Ltac calm :=
  repeat lazymatch goal with
  | |- keeps_documents (ret _) => apply keeps_documents_ret
  | |- keeps_documents (raise _) => apply keeps_documents_raise
  | |- keeps_documents Mongo.self_db => apply keeps_documents_self_db
  | |- keeps_documents (ceil_div _ _) => apply keeps_documents_ceil_div
  | |- keeps_documents (call _) =>
      apply keeps_documents_call; intros ?; simpl;
      repeat match goal with |- context [if ?c then _ else _] => destruct c end;
      reflexivity
  | |- keeps_documents (bind _ _) => apply keeps_documents_bind; [|intros ?]
  | |- keeps_documents (try_except _ _) =>
      apply keeps_documents_try_except; [|intros ?]
  | |- keeps_documents (if ?c then _ else _) => destruct c
  | |- keeps_documents (match ?x with _ => _ end) => destruct x
  | |- keeps_documents _ => assumption
  end.

Lemma mongo_validate_keeps_documents t :
  keeps_documents (Mongo._validate_table_exists t).
Proof. unfold Mongo._validate_table_exists, Mongo.list_collection_names. calm. Qed.

(** X19: the read methods of the MySQL, SQL Server and MongoDB drivers
    never change the data.  Whatever the state of the driver object,
    whichever statements or calls fault and whatever the arguments are,
    the tables (the collections) on the server are after the call what
    they were before it.  The methods are, for each driver,
    [get_all_tables], [get_table_record_count], [get_first_10_records],
    [get_table_columns], [get_paginated_records], [get_table_records],
    [get_table_records_with_columns] and [get_record_by_id]. *)
Theorem reads_leave_the_data_alone (table_name record_id db_name : string)
    (page page_size : Z) (cols : option (list string)) (named : list string) :
  (keeps_data MySQLReads.get_all_tables
   /\ keeps_data (MySQL.get_table_record_count table_name)
   /\ keeps_data (MySQLReads.get_first_10_records table_name)
   /\ keeps_data (MySQLReads.get_table_columns table_name)
   /\ keeps_data (MySQL.get_paginated_records table_name page page_size cols)
   /\ keeps_data (MySQLReads.get_table_records table_name page page_size)
   /\ keeps_data (MySQLReads.get_table_records_with_columns table_name named
                    page page_size)
   /\ keeps_data (MySQLReads.get_record_by_id table_name record_id))
  /\ (keeps_data MSSQLReads.get_all_tables
      /\ keeps_data (MSSQL.get_table_record_count table_name)
      /\ keeps_data (MSSQLReads.get_first_10_records table_name)
      /\ keeps_data (MSSQLReads.get_table_columns table_name)
      /\ keeps_data (MSSQL.get_paginated_records table_name page page_size cols)
      /\ keeps_data (MSSQLReads.get_table_records table_name page page_size)
      /\ keeps_data (MSSQLReads.get_table_records_with_columns table_name named
                       page page_size)
      /\ keeps_data (MSSQLReads.get_record_by_id table_name record_id))
  /\ (keeps_documents (MongoMore.get_all_tables db_name)
      /\ keeps_documents (MongoMore.get_table_record_count table_name)
      /\ keeps_documents (MongoMore.get_first_10_records table_name)
      /\ keeps_documents (MongoMore.get_table_columns table_name)
      /\ keeps_documents (Mongo.get_paginated_records table_name page page_size cols)
      /\ keeps_documents (MongoMore.get_table_records table_name page page_size)
      /\ keeps_documents (MongoMore.get_table_records_with_columns table_name named
                            page page_size)
      /\ keeps_documents (MongoMore.get_record_by_id table_name record_id)).
Proof.
  assert (forall t p ps cs,
            keeps_documents (Mongo.get_paginated_records t p ps cs)) as Hmongo.
  { intros t p ps cs.
    unfold Mongo.get_paginated_records, Mongo.count_documents, Mongo.find.
    apply keeps_documents_try_except; [|intros ?; calm].
    apply keeps_documents_bind; [calm|]. intros c. destruct (negb c); [calm|].
    apply keeps_documents_bind; [apply mongo_validate_keeps_documents|].
    intros _. calm. }
  split; [|split]; repeat split.
  - unfold MySQLReads.get_all_tables, MySQL.run. still.
  - unfold MySQL.get_table_record_count, MySQL.run.
    apply keeps_data_try_except; [|intros ?; still].
    apply keeps_data_bind; [still|]. intros c. destruct (negb c); [still|].
    apply keeps_data_bind; [apply mysql_validate_keeps_data|]. intros _. still.
  - unfold MySQLReads.get_first_10_records, MySQL.run.
    apply keeps_data_try_except; [|intros ?; still].
    apply keeps_data_bind; [still|]. intros c. destruct (negb c); [still|].
    apply keeps_data_bind; [apply mysql_validate_keeps_data|]. intros _. still.
  - unfold MySQLReads.get_table_columns, MySQL.run. still.
  - apply mysql_page_keeps_data.
  - unfold MySQLReads.get_table_records, records_of.
    apply keeps_data_try_except; [|intros ?; still].
    apply keeps_data_bind; [apply mysql_page_keeps_data|]. intros ?. still.
  - unfold MySQLReads.get_table_records_with_columns, records_of.
    apply keeps_data_try_except; [|intros ?; still].
    apply keeps_data_bind; [apply mysql_page_keeps_data|]. intros ?. still.
  - unfold MySQLReads.get_record_by_id, MySQL.run.
    apply keeps_data_try_except; [|intros ?; still].
    apply keeps_data_bind; [still|]. intros c. destruct (negb c); [still|].
    apply keeps_data_bind; [apply mysql_validate_keeps_data|]. intros _.
    apply keeps_data_bind; [apply mysql_key_keeps_data|]. intros ?. still.
  - unfold MSSQLReads.get_all_tables, MSSQL.run. still.
  - unfold MSSQL.get_table_record_count, MSSQL.run.
    apply keeps_data_try_except; [|intros ?; still].
    apply keeps_data_bind; [still|]. intros c. destruct (negb c); [still|].
    apply keeps_data_bind; [apply mssql_validate_keeps_data|]. intros _. still.
  - unfold MSSQLReads.get_first_10_records, MSSQL.run.
    apply keeps_data_try_except; [|intros ?; still].
    apply keeps_data_bind; [still|]. intros c. destruct (negb c); [still|].
    apply keeps_data_bind; [apply mssql_validate_keeps_data|]. intros _. still.
  - unfold MSSQLReads.get_table_columns, MSSQL.run. still.
  - apply mssql_page_keeps_data.
  - unfold MSSQLReads.get_table_records, records_of.
    apply keeps_data_try_except; [|intros ?; still].
    apply keeps_data_bind; [apply mssql_page_keeps_data|]. intros ?. still.
  - unfold MSSQLReads.get_table_records_with_columns, records_of.
    apply keeps_data_try_except; [|intros ?; still].
    apply keeps_data_bind; [apply mssql_page_keeps_data|]. intros ?. still.
  - unfold MSSQLReads.get_record_by_id, MSSQL.run.
    apply keeps_data_try_except; [|intros ?; still].
    apply keeps_data_bind; [still|]. intros c. destruct (negb c); [still|].
    apply keeps_data_bind; [apply mssql_validate_keeps_data|]. intros _.
    apply keeps_data_bind; [apply mssql_key_keeps_data|]. intros ?. still.
  - unfold MongoMore.get_all_tables, Mongo.list_collection_names. calm.
  - unfold MongoMore.get_table_record_count, Mongo.count_documents.
    apply keeps_documents_try_except; [|intros ?; calm].
    apply keeps_documents_bind; [calm|]. intros c. destruct (negb c); [calm|].
    apply keeps_documents_bind; [apply mongo_validate_keeps_documents|].
    intros _. calm.
  - unfold MongoMore.get_first_10_records, Mongo.find.
    apply keeps_documents_try_except; [|intros ?; calm].
    apply keeps_documents_bind; [calm|]. intros c. destruct (negb c); [calm|].
    apply keeps_documents_bind; [apply mongo_validate_keeps_documents|].
    intros _. calm.
  - unfold MongoMore.get_table_columns, MongoMore.find_one.
    apply keeps_documents_try_except; [|intros ?; calm].
    apply keeps_documents_bind; [calm|]. intros c. destruct (negb c); [calm|].
    apply keeps_documents_bind; [apply mongo_validate_keeps_documents|].
    intros _. calm.
  - apply Hmongo.
  - unfold MongoMore.get_table_records, records_of.
    apply keeps_documents_try_except; [|intros ?; calm].
    apply keeps_documents_bind; [apply Hmongo|]. intros ?. calm.
  - unfold MongoMore.get_table_records_with_columns, records_of.
    apply keeps_documents_try_except; [|intros ?; calm].
    apply keeps_documents_bind; [apply Hmongo|]. intros ?. calm.
  - unfold MongoMore.get_record_by_id, MongoMore.find_one_by_id.
    apply keeps_documents_try_except; [|intros ?; calm].
    apply keeps_documents_bind; [calm|]. intros c. destruct (negb c); [calm|].
    apply keeps_documents_bind; [apply mongo_validate_keeps_documents|].
    intros _. calm.
Qed.

(* ===================================================================== *)
(** ** A page size of zero *)
(* ===================================================================== *)

Lemma zero_page_size_returns t page cols :
  returns (MySQL.get_paginated_records t page 0 cols) (fun pr => pr = empty_page)
  /\ returns (MSSQL.get_paginated_records t page 0 cols) (fun pr => pr = empty_page)
  /\ returns (Mongo.get_paginated_records t page 0 cols) (fun pr => pr = empty_page).
Proof.
  unfold MySQL.get_paginated_records, MSSQL.get_paginated_records,
    Mongo.get_paginated_records.
  repeat split; repeat returns_step; done.
Qed.

(** X20: with a page size of 0 the three drivers return the empty page,
    with both counts 0, whatever the table holds and whatever the server
    does: the division by zero in the page count is caught by the handler
    of [get_paginated_records] like any driver error. *)
Theorem page_size_zero_gives_empty_page (table_name : string) (page : Z)
    (cols : option (list string)) :
  (forall st, exists st',
      MySQL.get_paginated_records table_name page 0 cols st = (Ok empty_page, st'))
  /\ (forall st, exists st',
      MSSQL.get_paginated_records table_name page 0 cols st = (Ok empty_page, st'))
  /\ (forall st, exists st',
      Mongo.get_paginated_records table_name page 0 cols st = (Ok empty_page, st')).
Proof.
  destruct (zero_page_size_returns table_name page cols) as (Hmy & Hms & Hmo).
  repeat split; intros st.
  - assert (exists pr st', MySQL.get_paginated_records table_name page 0 cols st
                           = (Ok pr, st')) as (pr & st' & E)
      by apply try_except_total.
    exists st'. by rewrite E, (Hmy _ _ _ E).
  - assert (exists pr st', MSSQL.get_paginated_records table_name page 0 cols st
                           = (Ok pr, st')) as (pr & st' & E)
      by apply try_except_total.
    exists st'. by rewrite E, (Hms _ _ _ E).
  - assert (exists pr st', Mongo.get_paginated_records table_name page 0 cols st
                           = (Ok pr, st')) as (pr & st' & E)
      by apply try_except_total.
    exists st'. by rewrite E, (Hmo _ _ _ E).
Qed.
(* ===================================================================== *)
(** ** The MySQL driver on a healthy connection *)
(* ===================================================================== *)

(** X21: on a healthy connection [_validate_columns] of the MySQL driver
    is a filter: it returns the requested names that are columns of the
    table, in the order and as often as they were requested, and changes
    nothing on the server. *)
Theorem validate_columns_is_a_filter (t : string) (tb : table) (cols : list string)
    (rc : bool) (s : server) (l : list (sql * bool)) :
  tables s !! t = Some tb ->
  exists l', MySQL._validate_columns t cols (online rc s l)
             = (Ok (filter (fun c => c ∈ columns tb) cols), online rc s l').
Proof.
  intros Ht. exact (mysql_columns_loop_online t tb cols [] rc s l Ht).
Qed.

Lemma validate_columns_is_a_filter_witness :
  exists l', MySQL._validate_columns "users" ["name"; "age"; "id"; "name"]
               (online true demo_server [])
             = (Ok (filter (fun c => c ∈ columns demo_users)
                           ["name"; "age"; "id"; "name"]),
                online true demo_server l').
Proof.
  apply (validate_columns_is_a_filter "users" demo_users
           ["name"; "age"; "id"; "name"] true demo_server []).
  reflexivity.
Defined.

(** X22: a page of the MySQL driver is a slice of the table.  On a healthy
    connection, for a page number of at least 1, a page size of at least 1
    and below 2^53 and a table of fewer than 2^53 rows, page [p] holds the
    rows at positions [(p-1)*size] up to [p*size] of the scan order, cut
    to the requested columns that exist (all columns when none of the
    requested ones exists), [total_count] is the number of rows and
    [total_pages] the ceiling of their quotient. *)
Theorem mysql_page_is_a_slice (t : string) (tb : table) (page page_size : Z)
    (cols : option (list string)) (rc : bool) (s : server) (l : list (sql * bool)) :
  tables s !! t = Some tb ->
  1 <= page ->
  1 <= page_size < 2 ^ 53 ->
  Z.of_nat (length (rows tb)) < 2 ^ 53 ->
  (MySQL.get_paginated_records t page page_size cols (online rc s l)).1
  = Ok {| records := project (chosen_columns tb cols)
                       <$> page_rows page page_size (rows tb);
          total_count := Z.of_nat (length (rows tb));
          total_pages := - ((- Z.of_nat (length (rows tb))) / page_size) |}.
Proof.
  intros Ht Hp Hps Hrows.
  destruct (mysql_page_online t tb page page_size cols rc s l Ht Hp ltac:(lia))
    as [l' ->].
  cbn [fst]. by rewrite ceil_quotient_exact by lia.
Qed.

Lemma mysql_page_is_a_slice_witness :
  (MySQL.get_paginated_records "heap" 2 2 (Some ["name"; "age"])
     (online true demo_server [])).1
  = Ok {| records := [[("name", PyStr "bob")]];
          total_count := 3; total_pages := 2 |}.
Proof.
  apply (mysql_page_is_a_slice "heap" demo_heap 2 2 (Some ["name"; "age"])
           true demo_server []).
  - reflexivity.
  - lia.
  - lia.
  - simpl. lia.
Defined.

Lemma concat_pages (n : nat) (rs : list row) (pages : nat) :
  concat ((fun k => take n (drop (k * n) rs)) <$> seq 0 pages) = take (pages * n) rs.
Proof.
  induction pages as [|p IH]; [by rewrite take_0|].
  rewrite seq_S, fmap_app, concat_app, IH. simpl. rewrite app_nil_r.
  rewrite take_take_drop. f_equal. lia.
Qed.

(** X23: the pages of the MySQL driver cover the table.  On a healthy
    connection, with a page size of at least 1, the records of pages 1 to
    [total_pages], as [get_table_records] returns them, put one after the
    other are the rows of the table, each once and in scan order. *)
Theorem mysql_pages_cover_the_table (t : string) (tb : table) (page_size : Z)
    (rc : bool) (s : server) (l : list (sql * bool)) :
  tables s !! t = Some tb ->
  1 <= page_size ->
  let total_pages := - ((- Z.of_nat (length (rows tb))) / page_size) in
  concat ((fun k => value_or []
                      (MySQLReads.get_table_records t (Z.of_nat k + 1) page_size
                         (online rc s l)).1)
            <$> seq 0 (Z.to_nat total_pages))
  = rows tb.
Proof.
  intros Ht Hps total_pages.
  pose proof (ceil_div_is_ceiling (Z.of_nat (length (rows tb))) page_size Hps) as Hceil.
  fold total_pages in Hceil. unfold is_ceiling in Hceil.
  assert (0 <= total_pages) as Hnonneg by nia.
  erewrite list_fmap_ext.
  - rewrite (concat_pages (Z.to_nat page_size) (rows tb) (Z.to_nat total_pages)).
    apply take_ge. nia.
  - intros i k _.
    destruct (mysql_page_online t tb (Z.of_nat k + 1) page_size None rc s l Ht
                ltac:(lia) Hps) as [l' Hpage].
    unfold MySQLReads.get_table_records, records_of.
    rewrite (try_except_ok _ _ _ _ _ (bind_ok_ret _ _ _ _ _ Hpage)).
    simpl. rewrite list_fmap_id. unfold page_rows.
    do 2 f_equal. nia.
Qed.

Lemma mysql_pages_cover_the_table_witness :
  concat ((fun k => value_or []
                      (MySQLReads.get_table_records "heap" (Z.of_nat k + 1) 2
                         (online true demo_server [])).1)
            <$> seq 0 2)
  = rows demo_heap.
Proof.
  apply (mysql_pages_cover_the_table "heap" demo_heap 2 true demo_server []).
  - reflexivity.
  - lia.
Defined.

(* ===================================================================== *)
(** ** Writing through the MySQL driver and reading back *)
(* ===================================================================== *)

Lemma cell_set_cell_same (r : row) (c : string) (v : pyval) :
  cell (set_cell r c v) c = v.
Proof.
  unfold cell. induction r as [|[c' v'] r IH]; simpl.
  - by rewrite String.eqb_refl.
  - destruct (String.eqb c' c) eqn:E; simpl.
    + by rewrite String.eqb_refl.
    + by rewrite E.
Qed.

Lemma cell_set_cell_other (r : row) (c k : string) (v : pyval) :
  k <> c -> cell (set_cell r c v) k = cell r k.
Proof.
  intros Hk. unfold cell. induction r as [|[c' v'] r IH]; simpl.
  - assert (String.eqb c k = false) as -> by (apply String.eqb_neq; congruence).
    reflexivity.
  - destruct (String.eqb c' c) eqn:E; simpl.
    + apply String.eqb_eq in E. subst c'.
      assert (String.eqb c k = false) as -> by (apply String.eqb_neq; congruence).
      reflexivity.
    + destruct (String.eqb c' k); [reflexivity|exact IH].
Qed.

Lemma rows_with_updated key id col v (rs : list row) :
  col <> key ->
  rows_with key id
    ((fun r => if sql_eq (cell r key) (PyStr id) then set_cell r col v else r) <$> rs)
  = (fun r => set_cell r col v) <$> rows_with key id rs.
Proof.
  intros Hne. unfold rows_with. induction rs as [|r rs IH]; [reflexivity|].
  rewrite fmap_cons, !filter_cons.
  destruct (sql_eq (cell r key) (PyStr id)) eqn:Hit.
  - rewrite cell_set_cell_other by congruence. rewrite Hit.
    destruct (decide (true = true)); [|done]. rewrite fmap_cons. by f_equal.
  - rewrite Hit. destruct (decide (false = true)); [done|]. exact IH.
Qed.

Lemma rows_with_deleted key id (rs : list row) :
  rows_with key id
    (filter (fun r => sql_eq (cell r key) (PyStr id) = false) rs) = [].
Proof.
  unfold rows_with. induction rs as [|r rs IH]; [reflexivity|].
  rewrite filter_cons.
  destruct (decide (sql_eq (cell r key) (PyStr id) = false)) as [Hmiss|Hhit];
    [|exact IH].
  rewrite filter_cons, Hmiss.
  destruct (decide (false = true)); [done|exact IH].
Qed.

Lemma rows_with_split key id (rs : list row) :
  (length (filter (fun r => sql_eq (cell r key) (PyStr id) = false) rs)
   + length (rows_with key id rs))%nat = length rs.
Proof.
  unfold rows_with. induction rs as [|r rs IH]; [reflexivity|].
  rewrite !filter_cons.
  destruct (sql_eq (cell r key) (PyStr id)) eqn:Hit.
  - destruct (decide (true = false)); [done|].
    destruct (decide (true = true)); [|done]. simpl. lia.
  - destruct (decide (false = false)); [|done].
    destruct (decide (false = true)); [done|]. simpl. lia.
Qed.

Lemma key_column_with_rows tb rs fallback :
  key_column (with_rows tb rs) fallback = key_column tb fallback.
Proof. reflexivity. Qed.

Lemma tables_put_table s t tb : tables (put_table s t tb) !! t = Some tb.
Proof. unfold put_table. simpl. apply lookup_insert_eq. Qed.

(** [get_record_by_id] of the MySQL driver on a healthy connection. *)
Lemma mysql_get_record_online t tb id rc s l :
  tables s !! t = Some tb ->
  key_found tb = true ->
  key_column tb "id" ∈ columns tb ->
  (length (rows_with (key_column tb "id") id (rows tb)) <= 1)%nat ->
  exists l',
    MySQLReads.get_record_by_id t id (online rc s l)
    = (Ok (head (rows_with (key_column tb "id") id (rows tb))), online rc s l').
Proof.
  intros Ht Hfound Hkey Hone. unfold MySQLReads.get_record_by_id.
  destruct (mysql_key_column t tb rc s (l ++ [(TableExists t, false)]) Ht Hfound)
    as [l1 Hk].
  eexists. apply try_except_ok.
  rewrite bind_self_conn_online. cbn [negb].
  rewrite (bind_ok _ _ _ _ _ (mysql_validate_present t tb rc s l Ht)).
  rewrite (bind_ok _ _ _ _ _ Hk).
  unfold MySQL.run. rewrite bind_execute_online. answer. rewrite Ht.
  rewrite bool_decide_eq_true_2 by done. cbn [negb fst snd].
  unfold rows_with in *. unfold bind, close_after_fetchone.
  cbn [fetched selected].
  destruct (filter _ (rows tb)) as [|r1 [|r2 more]]; [reflexivity..|].
  simpl in Hone. lia.
Qed.

(** [get_table_record_count] of the MySQL driver when the table exists. *)
Lemma mysql_count_present t tb rc s l :
  tables s !! t = Some tb ->
  (MySQL.get_table_record_count t (online rc s l)).1
  = Ok (Z.of_nat (length (rows tb))).
Proof.
  intros Ht. destruct (mysql_count_online t rc s l) as [l' ->]. by rewrite Ht.
Qed.

Lemma mysql_update_online t tb id col v rc s l :
  tables s !! t = Some tb ->
  key_found tb = true ->
  col ∈ columns tb ->
  key_column tb "id" ∈ columns tb ->
  exists changed l',
    MySQL.update_record t id col v (online rc s l)
    = (Ok changed,
       online rc
         (put_table s t
            (with_rows tb
               ((fun r => if sql_eq (cell r (key_column tb "id")) (PyStr id)
                          then set_cell r col v else r) <$> rows tb))) l').
Proof.
  intros Ht Hfound Hc Hkey. unfold MySQL.update_record.
  destruct (mysql_key_column t tb rc s
              ((l ++ [(TableExists t, false)]) ++ [(ColumnExists t col, false)])
              Ht Hfound)
    as [l1 Hk].
  unfold try_except.
  rewrite bind_self_conn_online. cbn [negb].
  rewrite (bind_ok _ _ _ _ _ (mysql_validate_present t tb rc s l Ht)).
  rewrite (bind_ok _ _ _ _ _ (mysql_validate_column t tb col rc s _ Ht Hc)).
  rewrite (bind_ok _ _ _ _ _ Hk).
  unfold MySQL.run. rewrite bind_execute_online. answer. rewrite Ht.
  rewrite !bool_decide_eq_true_2 by done. cbn [andb negb fst snd].
  unfold commit. rewrite bind_ret. cbn [rowcount affected].
  destruct (count_where _ _ =? 0); unfold ret; eauto.
Qed.

(** X24: an update through the MySQL driver is what the next lookup
    reads.  On a healthy connection, on a table with a primary key (or
    with one column), when the column exists and is not the key column and
    exactly one row has the id, [get_record_by_id] after [update_record]
    returns that row with the new value in the column and every other cell
    as it was; this holds also when [update_record] returned [False]
    because the value was already there.  On a table without primary key
    and with two columns or more [update_record] raises for every id and
    changes nothing: the look-up of the key column left its result
    unread. *)
Theorem mysql_update_is_read_back (t : string) (tb : table) (id col : string)
    (v : pyval) (r0 : row) (rc : bool) (s : server) (l : list (sql * bool)) :
  tables s !! t = Some tb ->
  col ∈ columns tb ->
  (key_found tb = true ->
   key_column tb "id" ∈ columns tb ->
   col <> key_column tb "id" ->
   rows_with (key_column tb "id") id (rows tb) = [r0] ->
   exists changed st1 st2 r1,
     MySQL.update_record t id col v (online rc s l) = (Ok changed, st1)
     /\ MySQLReads.get_record_by_id t id st1 = (Ok (Some r1), st2)
     /\ cell r1 col = v
     /\ forall c, c <> col -> cell r1 c = cell r0 c)
  /\ (key_found tb = false ->
      MySQL.update_record t id col v (online rc s l)
      = (Raise unread_result,
         online rc s (l ++ [(TableExists t, false); (ColumnExists t col, false);
                            (PrimaryKeyOf t, false); (ShowColumns t, false)]))).
Proof.
  intros Ht Hc. split.
  - intros Hfound Hkey Hne Hrow.
    destruct (mysql_update_online t tb id col v rc s l Ht Hfound Hc Hkey)
      as (changed & l1 & Hupd).
    set (tb1 := with_rows tb _) in Hupd.
    assert (rows_with (key_column tb1 "id") id (rows tb1) = [set_cell r0 col v])
      as Hafter.
    { change (key_column tb1 "id") with (key_column tb "id").
      unfold tb1. cbn [rows with_rows].
      rewrite rows_with_updated by done. by rewrite Hrow. }
    destruct (mysql_get_record_online t tb1 id rc (put_table s t tb1) l1
                (tables_put_table s t tb1) Hfound Hkey) as [l2 Hget].
    { rewrite Hafter. simpl. lia. }
    exists changed, (online rc (put_table s t tb1) l1),
      (online rc (put_table s t tb1) l2), (set_cell r0 col v).
    split; [exact Hupd|]. split; [|split].
    + rewrite Hget. by rewrite Hafter.
    + apply cell_set_cell_same.
    + intros c Hc'. by apply cell_set_cell_other.
  - intros Hfound. unfold MySQL.update_record, try_except.
    rewrite bind_self_conn_online. cbn [negb].
    rewrite (bind_ok _ _ _ _ _ (mysql_validate_present t tb rc s l Ht)).
    rewrite (bind_ok _ _ _ _ _ (mysql_validate_column t tb col rc s _ Ht Hc)).
    rewrite (bind_ok _ _ _ _ _ (mysql_key_column_unread t tb _ _ _ Ht Hfound)).
    unfold MySQL.run. rewrite mysql_run_unread by reflexivity.
    unfold bind, self_conn, rollback, raise, with_unread, online. simpl.
    by rewrite <- !app_assoc.
Qed.

Lemma mysql_update_is_read_back_witness :
  exists changed st1 st2 r1,
    MySQL.update_record "users" "2" "name" (PyStr "bob") (online true demo_server [])
    = (Ok changed, st1)
    /\ MySQLReads.get_record_by_id "users" "2" st1 = (Ok (Some r1), st2)
    /\ cell r1 "name" = PyStr "bob"
    /\ forall c, c <> "name" -> cell r1 c = cell [("id", PyInt 2); ("name", PyStr "bob")] c.
Proof.
  apply (mysql_update_is_read_back "users" demo_users "2" "name" (PyStr "bob")
           [("id", PyInt 2); ("name", PyStr "bob")] true demo_server []).
  - reflexivity.
  - set_solver.
  - reflexivity.
  - vm_compute. set_solver.
  - discriminate.
  - reflexivity.
Defined.

Lemma mysql_delete_online t tb id rc s l :
  tables s !! t = Some tb ->
  key_found tb = true ->
  key_column tb "id" ∈ columns tb ->
  exists l',
    MySQL.delete_record t id (online rc s l)
    = (Ok (0 <? Z.of_nat (length (rows_with (key_column tb "id") id (rows tb)))),
       online rc
         (put_table s t
            (with_rows tb
               (filter (fun r => sql_eq (cell r (key_column tb "id")) (PyStr id) = false)
                       (rows tb)))) l').
Proof.
  intros Ht Hfound Hkey. unfold MySQL.delete_record.
  destruct (mysql_key_column t tb rc s (l ++ [(TableExists t, false)]) Ht Hfound)
    as [l1 Hk].
  unfold try_except.
  rewrite bind_self_conn_online. cbn [negb].
  rewrite (bind_ok _ _ _ _ _ (mysql_validate_present t tb rc s l Ht)).
  rewrite (bind_ok _ _ _ _ _ Hk).
  unfold MySQL.run. rewrite bind_execute_online. answer. rewrite Ht.
  rewrite !bool_decide_eq_true_2 by done. cbn [andb negb fst snd].
  unfold commit. rewrite bind_ret. cbn [rowcount affected].
  unfold count_where, rows_with.
  destruct (0 <? _); unfold ret; eauto.
Qed.

(** X25: a delete through the MySQL driver removes every row that has the
    id in the key column.  On a healthy connection, on a table with a
    primary key (or with one column), [delete_record] returns [True]
    exactly when some row has the id; afterwards a lookup of the id finds
    nothing and the count of the table has dropped by the number of rows
    that had it.  On a table without primary key and with two columns or
    more [delete_record] returns [False] for every id and deletes
    nothing: the look-up of the key column left its result unread. *)
Theorem mysql_delete_removes_all_matches (t : string) (tb : table) (id : string)
    (rc : bool) (s : server) (l : list (sql * bool)) :
  tables s !! t = Some tb ->
  (key_found tb = true ->
   key_column tb "id" ∈ columns tb ->
   exists deleted st1,
     MySQL.delete_record t id (online rc s l) = (Ok deleted, st1)
     /\ (deleted = true <-> rows_with (key_column tb "id") id (rows tb) <> [])
     /\ (MySQLReads.get_record_by_id t id st1).1 = Ok None
     /\ (MySQL.get_table_record_count t st1).1
        = Ok (Z.of_nat (length (rows tb))
              - Z.of_nat (length (rows_with (key_column tb "id") id (rows tb)))))
  /\ (key_found tb = false ->
      MySQL.delete_record t id (online rc s l)
      = (Ok false,
         online rc s (l ++ [(TableExists t, false); (PrimaryKeyOf t, false);
                            (ShowColumns t, false)]))).
Proof.
  intros Ht. split.
  - intros Hfound Hkey.
    destruct (mysql_delete_online t tb id rc s l Ht Hfound Hkey) as [l1 Hdel].
    set (tb1 := with_rows tb _) in Hdel.
    assert (rows_with (key_column tb1 "id") id (rows tb1) = []) as Hafter.
    { change (key_column tb1 "id") with (key_column tb "id").
      unfold tb1. cbn [rows with_rows]. by rewrite rows_with_deleted. }
    destruct (mysql_get_record_online t tb1 id rc (put_table s t tb1) l1
                (tables_put_table s t tb1) Hfound Hkey) as [l2 Hget].
    { rewrite Hafter. simpl. lia. }
    eexists _, _. split; [exact Hdel|]. split; [|split].
    + rewrite Z.ltb_lt. destruct (rows_with _ _ _); simpl; split; (done || lia).
    + rewrite Hget. cbn [fst]. by rewrite Hafter.
    + rewrite (mysql_count_present t tb1 rc _ l1 (tables_put_table s t tb1)).
      unfold tb1. cbn [rows with_rows].
      pose proof (rows_with_split (key_column tb "id") id (rows tb)). f_equal. lia.
  - intros Hfound. unfold MySQL.delete_record, try_except.
    rewrite bind_self_conn_online. cbn [negb].
    rewrite (bind_ok _ _ _ _ _ (mysql_validate_present t tb rc s l Ht)).
    rewrite (bind_ok _ _ _ _ _ (mysql_key_column_unread t tb _ _ _ Ht Hfound)).
    unfold MySQL.run. rewrite mysql_run_unread by reflexivity.
    unfold bind, self_conn, rollback, ret, with_unread, online. simpl.
    by rewrite <- !app_assoc.
Qed.

Lemma mysql_delete_removes_all_matches_witness :
  exists deleted st1,
    MySQL.delete_record "heap" "1" (online true demo_server []) = (Ok deleted, st1)
    /\ (deleted = true <-> rows_with (key_column demo_heap "id") "1" (rows demo_heap) <> [])
    /\ (MySQLReads.get_record_by_id "heap" "1" st1).1 = Ok None
    /\ (MySQL.get_table_record_count "heap" st1).1
       = Ok (Z.of_nat (length (rows demo_heap))
             - Z.of_nat (length (rows_with (key_column demo_heap "id") "1"
                                           (rows demo_heap)))).
Proof.
  apply (mysql_delete_removes_all_matches "heap" demo_heap "1" true demo_server []).
  - reflexivity.
  - reflexivity.
  - vm_compute. set_solver.
Defined.

(** [create_record] of the MySQL driver on a table that generates no key. *)
Lemma mysql_create_online t tb data rc s l :
  tables s !! t = Some tb ->
  auto_increment tb = None ->
  MySQL.drop_blank data <> [] ->
  (forall c, c ∈ (fst <$> MySQL.drop_blank data) -> c ∈ columns tb) ->
  match primary_key tb with
  | Some k =>
      existsb (fun r' => cell_eqb (cell r' k)
                           (cell ((fun c => (c, cell (MySQL.drop_blank data) c))
                                    <$> columns tb) k))
              (rows tb)
  | None => false
  end = false ->
  MySQL.create_record t data (online rc s l)
  = (Ok (PyInt 0),
     online rc
       (put_table s t
          {| columns := columns tb; primary_key := primary_key tb;
             auto_increment := auto_increment tb;
             rows := (rows tb
                      ++ [(fun c => (c, cell (MySQL.drop_blank data) c)) <$> columns tb])%list |})
       (l ++ [(InsertInto t (fst <$> MySQL.drop_blank data) (snd <$> MySQL.drop_blank data),
               false)])).
Proof.
  intros Ht Hauto Hdata Hcols Hfree. unfold MySQL.create_record.
  apply try_except_ok. rewrite bind_self_conn_online. cbn [negb].
  destruct (MySQL.drop_blank data) as [|kv fd] eqn:Efd; [done|].
  unfold MySQL.run. rewrite bind_execute_online. answer. rewrite Ht.
  assert (forallb (fun c => bool_decide (c ∈ columns tb)) (fst <$> kv :: fd) = true)
    as ->.
  { apply forallb_forall. intros c Hc%list_elem_of_In.
    apply bool_decide_eq_true. by apply Hcols. }
  cbn [negb]. rewrite zip_fst_snd.
  unfold inserted_row. rewrite Hauto.
  assert (match primary_key tb with
          | Some _ | _ => ((fun c => (c, cell (kv :: fd) c)) <$> columns tb, 0)
          end = ((fun c => (c, cell (kv :: fd) c)) <$> columns tb, 0)) as ->
    by (by destruct (primary_key tb)).
  rewrite Hfree. cbn [fst snd Z.eqb]. reflexivity.
Qed.

Section CreateRoute.
Context `{JsonCodec}.

(** X26: creating a record in a MySQL table that generates no key is
    reported as a failure although the row is stored.  The driver returns
    the [lastrowid] of the INSERT, which is 0 for such a table; the route
    tests it for truth, answers [success: false] with "Failed to create
    record", and skips the invalidation: the row is in the table, and the
    cache is as it was. *)
Theorem mysql_create_without_generated_key (session_id table_name : string)
    (info data : row) (tb : table) (c : redis) (b : session) :
  let new_row := (fun col => (col, cell (MySQL.drop_blank data) col)) <$> columns tb in
  session_id <> "" ->
  session_known session_id info c ->
  reachable b = true ->
  faults b = [] ->
  tables (srv b) !! table_name = Some tb ->
  auto_increment tb = None ->
  MySQL.drop_blank data <> [] ->
  (forall col, col ∈ (fst <$> MySQL.drop_blank data) -> col ∈ columns tb) ->
  match primary_key tb with
  | Some k => existsb (fun r' => cell_eqb (cell r' k) (cell new_row k)) (rows tb)
  | None => false
  end = false ->
  exists w' tb',
    create_table_record table_name data (Some session_id)
      {| cache := c; backend := b |}
    = (Ok {| status := 200; success := false;
             message := "Failed to create record";
             created_id := None; deleted_count := None |}, w')
    /\ cache w' = c
    /\ tables (srv (backend w')) !! table_name = Some tb'
    /\ rows tb' = (rows tb ++ [new_row])%list.
Proof.
  intros new_row Hsid Hknown Hreach Hf Ht Hauto Hdata Hcols Hfree.
  apply String.eqb_neq in Hsid.
  pose proof (mysql_create_online table_name tb data (reachable b) (srv b) (log b)
                Ht Hauto Hdata Hcols Hfree) as Hcreate.
  match type of Hcreate with _ = (_, ?st) => set (b1 := st) in * end.
  exists {| cache := c; backend := closed b1 |}. eexists.
  split; [|split; [|split]].
  - unfold create_table_record, require_session. rewrite Hsid.
    apply try_except_ok.
    assert (get_db_connection session_id (create_record table_name data)
              {| cache := c; backend := b |}
            = (Ok (PyInt 0), {| cache := c; backend := closed b1 |})) as Hdb.
    { rewrite (get_db_connection_runs session_id info _ _ b Hknown Hreach).
      rewrite (online_opened b Hf). simpl create_record.
      rewrite Hcreate. reflexivity. }
    by rewrite (bind_ok _ _ _ _ _ Hdb).
  - reflexivity.
  - unfold b1. cbn [backend closed online srv snd]. apply tables_put_table.
  - reflexivity.
Qed.

End CreateRoute.

Lemma mysql_create_without_generated_key_witness :
  exists w' tb',
    create_table_record (H := reference_json) "heap"
      [("id", PyInt 4); ("name", PyStr "dee"); ("note", PyStr "")] (Some "S")
      (demo_world [])
    = (Ok {| status := 200; success := false;
             message := "Failed to create record";
             created_id := None; deleted_count := None |}, w')
    /\ cache w' = demo_cache []
    /\ tables (srv (backend w')) !! "heap" = Some tb'
    /\ rows tb' = (rows demo_heap ++ [[("id", PyInt 4); ("name", PyStr "dee")]])%list.
Proof.
  apply (mysql_create_without_generated_key (H := reference_json) "S" "heap"
           demo_parameters [("id", PyInt 4); ("name", PyStr "dee"); ("note", PyStr "")]
           demo_heap (demo_cache []) (backend (demo_world []))).
  - discriminate.
  - apply (demo_session_known []).
  - reflexivity.
  - reflexivity.
  - reflexivity.
  - reflexivity.
  - discriminate.
  - intros col Hcol. vm_compute in Hcol. vm_compute. set_solver.
  - reflexivity.
Defined.
(* ===================================================================== *)
(** ** The MongoDB driver *)
(* ===================================================================== *)

(** X27: a connected MongoDB driver reaches its database in no method.
    Every method starts with [if not self.db], and a pymongo database
    refuses the truth test: the read methods answer their empty default
    from their handler, [update_record] and [delete_record] raise the
    [NotImplementedError] again.  No call goes to the server and the
    driver object is as it was. *)
Theorem mongo_connected_driver_reaches_nothing (t id col db_name : string)
    (v : pyval) (page page_size : Z) (cols : option (list string))
    (named : list string) (st : mongo) :
  db st = true ->
  MongoMore.get_all_tables db_name st = (Ok [], st)
  /\ MongoMore.get_table_record_count t st = (Ok 0, st)
  /\ MongoMore.get_first_10_records t st = (Ok None, st)
  /\ MongoMore.get_table_columns t st = (Ok [], st)
  /\ Mongo.get_paginated_records t page page_size cols st = (Ok empty_page, st)
  /\ MongoMore.get_table_records t page page_size st = (Ok [], st)
  /\ MongoMore.get_table_records_with_columns t named page page_size st = (Ok [], st)
  /\ MongoMore.get_record_by_id t id st = (Ok None, st)
  /\ Mongo.update_record t id col v st = (Raise Mongo.truth_of_database, st)
  /\ MongoMore.delete_record t id st = (Raise Mongo.truth_of_database, st).
Proof.
  intros Hdb.
  unfold MongoMore.get_all_tables, MongoMore.get_table_record_count,
    MongoMore.get_first_10_records, MongoMore.get_table_columns,
    MongoMore.get_table_records, MongoMore.get_table_records_with_columns,
    records_of, Mongo.get_paginated_records, MongoMore.get_record_by_id,
    Mongo.update_record, MongoMore.delete_record,
    try_except, bind, Mongo.self_db.
  rewrite Hdb. repeat split.
Qed.

Lemma mongo_connected_driver_reaches_nothing_witness :
  MongoMore.get_table_columns "notes" (mongo_online demo_collections)
  = (Ok [], mongo_online demo_collections)
  /\ MongoMore.delete_record "notes" "65a1b2c3d4e5f60718293a4b"
       (mongo_online demo_collections)
     = (Raise Mongo.truth_of_database, mongo_online demo_collections).
Proof.
  destruct (mongo_connected_driver_reaches_nothing "notes"
              "65a1b2c3d4e5f60718293a4b" "title" "shop" PyNone 1 50 None []
              (mongo_online demo_collections) eq_refl)
    as (_ & _ & _ & Hcolumns & _ & _ & _ & _ & _ & Hdelete).
  split; [exact Hcolumns | exact Hdelete].
Defined.

(** X28: a MongoDB driver that was never connected answers every method
    with its default and raises nothing: the reads the empty default,
    [update_record] and [delete_record] [False]. *)
Theorem mongo_unconnected_driver_defaults (t id col db_name : string)
    (v : pyval) (page page_size : Z) (cols : option (list string))
    (named : list string) (st : mongo) :
  db st = false ->
  MongoMore.get_all_tables db_name st = (Ok [], st)
  /\ MongoMore.get_table_record_count t st = (Ok 0, st)
  /\ MongoMore.get_first_10_records t st = (Ok None, st)
  /\ MongoMore.get_table_columns t st = (Ok [], st)
  /\ Mongo.get_paginated_records t page page_size cols st = (Ok empty_page, st)
  /\ MongoMore.get_table_records t page page_size st = (Ok [], st)
  /\ MongoMore.get_table_records_with_columns t named page page_size st = (Ok [], st)
  /\ MongoMore.get_record_by_id t id st = (Ok None, st)
  /\ Mongo.update_record t id col v st = (Ok false, st)
  /\ MongoMore.delete_record t id st = (Ok false, st).
Proof.
  intros Hdb.
  unfold MongoMore.get_all_tables, MongoMore.get_table_record_count,
    MongoMore.get_first_10_records, MongoMore.get_table_columns,
    MongoMore.get_table_records, MongoMore.get_table_records_with_columns,
    records_of, Mongo.get_paginated_records, MongoMore.get_record_by_id,
    Mongo.update_record, MongoMore.delete_record,
    try_except, bind, Mongo.self_db.
  rewrite Hdb. repeat split.
Qed.

Lemma mongo_unconnected_driver_defaults_witness :
  Mongo.update_record "notes" "65a1b2c3d4e5f60718293a4b" "title" (PyStr "new")
    {| db := false; collections := demo_collections; mongo_faults := [] |}
  = (Ok false,
     {| db := false; collections := demo_collections; mongo_faults := [] |}).
Proof.
  destruct (mongo_unconnected_driver_defaults "notes"
              "65a1b2c3d4e5f60718293a4b" "title" "shop" (PyStr "new") 1 50 None []
              {| db := false; collections := demo_collections; mongo_faults := [] |}
              eq_refl)
    as (_ & _ & _ & _ & _ & _ & _ & _ & Hupdate & _).
  exact Hupdate.
Defined.

Lemma keys_of_flat (members : row) :
  forallb (fun kv => is_flat (snd kv)) members = true ->
  MongoMore.keys_of "" (PyDict members) = fst <$> members.
Proof.
  induction members as [|[key v] members IH]; intros Hflat; [reflexivity|].
  simpl in Hflat. apply andb_prop in Hflat as [Hv Hrest].
  simpl in *. rewrite (IH Hrest). by destruct v.
Qed.

(** X29: [_extract_all_keys] on a document without nested documents
    returns the keys of the document, each once and in their order; for
    the record of a stored document these are [_id] and then its fields. *)
Theorem extract_all_keys_of_a_flat_document (dc : document) :
  forallb (fun kv => is_flat (snd kv)) (fields dc) = true ->
  MongoMore._extract_all_keys (Mongo.as_record dc) ""
  = "_id" :: (fst <$> fields dc).
Proof.
  intros Hflat. unfold MongoMore._extract_all_keys, Mongo.as_record.
  by rewrite keys_of_flat.
Qed.

Lemma extract_all_keys_of_a_flat_document_witness :
  MongoMore._extract_all_keys
    (Mongo.as_record {| _id := ObjectId "65a1b2c3d4e5f60718293a4b";
                        fields := [("title", PyStr "one"); ("stars", PyInt 5)] |}) ""
  = ["_id"; "title"; "stars"].
Proof.
  apply (extract_all_keys_of_a_flat_document
           {| _id := ObjectId "65a1b2c3d4e5f60718293a4b";
              fields := [("title", PyStr "one"); ("stars", PyInt 5)] |}).
  reflexivity.
Defined.

(* ===================================================================== *)
(** ** The key schemes of the table helpers *)
(* ===================================================================== *)

Lemma table_key_split (session_id table_name tail : string) :
  table_prefix session_id table_name +:+ tail
  = session_id +:+ ":table:" +:+ table_name +:+ ":" +:+ tail.
Proof. unfold table_prefix. by rewrite !append_assoc. Qed.

Lemma table_keys_under_prefix (hash : list string -> Z)
    (session_id table_name record_id : string) (cols : list string)
    (page page_size : Z) :
  Forall (fun key => String.prefix (table_prefix session_id table_name) key = true)
    [ columns_key session_id table_name;
      count_key session_id table_name;
      preview_key session_id table_name;
      record_key session_id table_name record_id;
      records_key session_id table_name page page_size;
      selected_key hash session_id table_name cols page page_size ].
Proof.
  repeat constructor.
  - change (columns_key session_id table_name)
      with (session_id +:+ ":table:" +:+ table_name +:+ ":" +:+ "columns").
    rewrite <- table_key_split. apply prefix_app_self.
  - change (count_key session_id table_name)
      with (session_id +:+ ":table:" +:+ table_name +:+ ":" +:+ "count").
    rewrite <- table_key_split. apply prefix_app_self.
  - change (preview_key session_id table_name)
      with (session_id +:+ ":table:" +:+ table_name +:+ ":" +:+ "preview").
    rewrite <- table_key_split. apply prefix_app_self.
  - change (record_key session_id table_name record_id)
      with (session_id +:+ ":table:" +:+ table_name +:+ ":"
            +:+ "record:" +:+ record_id).
    rewrite <- table_key_split. apply prefix_app_self.
  - change (records_key session_id table_name page page_size)
      with (session_id +:+ ":table:" +:+ table_name +:+ ":"
            +:+ "records:page:" +:+ pretty page +:+ ":size:" +:+ pretty page_size).
    rewrite <- table_key_split. apply prefix_app_self.
  - change (selected_key hash session_id table_name cols page page_size)
      with (session_id +:+ ":table:" +:+ table_name +:+ ":"
            +:+ "selected:" +:+ pretty (hash (sorted cols)) +:+ ":page:"
            +:+ pretty page +:+ ":size:" +:+ pretty page_size).
    rewrite <- table_key_split. apply prefix_app_self.
Qed.

Section HelperEntries.
Context `{JsonCodec}.

(** An entry written under the table's prefix does not outlive the
    invalidation of the table. *)
Lemma written_invalidated_read session_id table_name key value expire m :
  glob_literal session_id = true -> glob_literal table_name = true ->
  String.prefix (table_prefix session_id table_name) key = true ->
  exists m',
    (set_cache key value expire ;;;
     invalidate_table_cache session_id table_name ;;;
     get_cache key) {| store := m; outages := [] |}
    = (Ok PyNone, {| store := m'; outages := [] |}).
Proof.
  intros Hs Ht Hkey.
  rewrite (bind_ok _ _ _ _ _ (set_cache_healthy key value expire m)).
  destruct (invalidate_healthy session_id table_name
              (<[key := cache_text value]> m) Hs Ht) as (n & m' & Hrun & Hgone).
  rewrite (bind_ok _ _ _ _ _ Hrun).
  exists m'. apply get_cache_miss. by apply Hgone.
Qed.

(** X30: what the table helpers of [redis_caches.py] store is gone after
    [invalidate_table_cache].  On a server that answers, with a session id
    and a table name free of pattern characters, the columns, the count,
    the preview, a single record, a page of records and a page of selected
    columns written for the table are each read back as [None] once the
    table has been invalidated: every key scheme lies under
    [<session>:table:<table>:]. *)
Theorem table_helper_entries_are_invalidated (hash : list string -> Z)
    (session_id table_name record_id : string) (cols : list string)
    (page page_size count expire : Z) (record : row) (preview : list row)
    (data : pyval) (m : gmap string string) :
  glob_literal session_id = true ->
  glob_literal table_name = true ->
  let healthy := {| store := m; outages := [] |} in
  let invalidated {A} (write : Py redis bool) (read : Py redis A) :=
    (write ;;; invalidate_table_cache session_id table_name ;;; read) healthy in
  (invalidated (cache_table_columns session_id table_name cols expire)
               (get_cached_table_columns session_id table_name)).1 = Ok PyNone
  /\ (invalidated (cache_table_count session_id table_name count expire)
                  (get_cached_table_count session_id table_name)).1 = Ok PyNone
  /\ (invalidated (cache_table_preview session_id table_name preview expire)
                  (get_cached_table_preview session_id table_name)).1 = Ok PyNone
  /\ (invalidated (cache_single_record session_id table_name record_id record expire)
                  (get_cached_single_record session_id table_name record_id)).1
     = Ok PyNone
  /\ (invalidated (cache_table_records session_id table_name page page_size data expire)
                  (get_cached_table_records session_id table_name page page_size)).1
     = Ok PyNone
  /\ (invalidated (cache_selected_columns_records hash session_id table_name cols
                     page page_size data expire)
                  (get_cached_selected_columns_records hash session_id table_name
                     cols page page_size)).1
     = Ok PyNone.
Proof.
  intros Hs Ht healthy invalidated.
  pose proof (table_keys_under_prefix hash session_id table_name record_id cols
                page page_size) as Hkeys.
  rewrite !Forall_cons in Hkeys.
  destruct Hkeys as (Hcolumns & Hcount & Hpreview & Hrecord & Hrecords & Hselected & _).
  unfold invalidated, healthy.
  repeat split.
  - destruct (written_invalidated_read session_id table_name _
                (PyList (PyStr <$> cols)) expire m Hs Ht Hcolumns) as [m' Hrun].
    unfold cache_table_columns, get_cached_table_columns. by rewrite Hrun.
  - destruct (written_invalidated_read session_id table_name _
                (PyInt count) expire m Hs Ht Hcount) as [m' Hrun].
    unfold cache_table_count, get_cached_table_count. by rewrite Hrun.
  - destruct (written_invalidated_read session_id table_name _
                (PyList (PyDict <$> preview)) expire m Hs Ht Hpreview) as [m' Hrun].
    unfold cache_table_preview, get_cached_table_preview. by rewrite Hrun.
  - destruct (written_invalidated_read session_id table_name _
                (PyDict record) expire m Hs Ht Hrecord) as [m' Hrun].
    unfold cache_single_record, get_cached_single_record. by rewrite Hrun.
  - destruct (written_invalidated_read session_id table_name _
                data expire m Hs Ht Hrecords) as [m' Hrun].
    unfold cache_table_records, get_cached_table_records. by rewrite Hrun.
  - destruct (written_invalidated_read session_id table_name _
                data expire m Hs Ht Hselected) as [m' Hrun].
    unfold cache_selected_columns_records, get_cached_selected_columns_records.
    by rewrite Hrun.
Qed.

End HelperEntries.

Lemma table_helper_entries_are_invalidated_witness :
  ((cache_table_columns (H := reference_json) "S" "users" ["id"; "name"] 3600 ;;;
    invalidate_table_cache "S" "users" ;;;
    get_cached_table_columns (H := reference_json) "S" "users") (demo_cache [])).1
  = Ok PyNone.
Proof.
  destruct (table_helper_entries_are_invalidated (H := reference_json)
              (fun _ => 7) "S" "users" "2" ["id"; "name"] 1 50 3 3600
              [("id", PyInt 2)] [] (PyList []) (store (demo_cache [])))
    as (Hcolumns & _).
  - reflexivity.
  - reflexivity.
  - exact Hcolumns.
Defined.
